(** * IotMongo: sensor simulator, queries, statistical analyzer and metrics

    A shallow embedding of [sensor_simulator.py], [analisis_opcional.py],
    the queries of [queries.py], the insertion measurement and the
    percentile of [metrics.py], and the batch of
    [medir_tiempo_subida.py].

    Numbers.  Python's [float] and [int] values are modelled by the real
    number they denote (type [R]): arithmetic is exact, [round(x, n)] is
    rounding to [n] decimals with ties to even, [statistics.mean] and
    [statistics.stdev] are the sample mean and the Bessel-corrected sample
    standard deviation.  The last-bit rounding error of binary floating
    point is outside this model; where a property depends on it (which
    readings [detect_outliers] flags), module [Rounded] gives the method
    with the rounding of every float operation written out.

    Documents.  A Python [dict] / BSON document is a finite map from
    strings to values ([gmap string value]).

    Effects.  A call either returns or raises ([outcome]); the random
    module is a state monad over an entropy tape; the wall clock is an
    explicit argument; the MongoDB collection is the list of documents
    the server holds, or the error a request runs into.  Aggregation
    pipelines are written as the functions their stages compute.  The
    measuring scripts run in a [world] that holds the generator, the
    clocks and the server's answers.  What the scripts print is left
    out. *)

From Stdlib Require Import Reals Lra Lia ZArith List String Ascii.
From Stdlib Require Import Sorting.Sorted Sorting.Permutation DecimalString.
From Stdlib Require OrderedTypeEx.
From stdpp Require Import gmap strings list.

Open Scope string_scope.
Open Scope list_scope.

(** ** Python values, exceptions and outcomes *)

Module Py.

(** The values found in a reading: [None] (also BSON null), a number, a
    string. *)
Inductive value : Type :=
| VNone
| VNum (x : R)
| VStr (s : string).

(** Exceptions.  All but [KeyboardInterrupt] are subclasses of
    [Exception]; [PyMongoError] stands for every error of the driver
    (ConnectionFailure, OperationFailure, ...). *)
Inductive exn : Type :=
| TypeError
| KeyError (key : string)
| IndexError
| ValueError
| ZeroDivisionError
| StatisticsError
| OverflowError
| PyMongoError (msg : string)
| KeyboardInterrupt.

Definition is_Exception (e : exn) : bool :=
  match e with
  | KeyboardInterrupt => false
  | _ => true
  end.

Inductive outcome (A : Type) : Type :=
| Return (a : A)
| Raise (e : exn).
Arguments Return {A} a.
Arguments Raise {A} e.

Definition bind {A B} (m : outcome A) (k : A -> outcome B) : outcome B :=
  match m with
  | Return a => k a
  | Raise e => Raise e
  end.

(** [try: body  except Exception as e: handler e] *)
Definition try_except_Exception {A} (body : outcome A) (handler : exn -> outcome A)
  : outcome A :=
  match body with
  | Return a => Return a
  | Raise e => if is_Exception e then handler e else Raise e
  end.

#[global] Instance outcome_ret : MRet outcome := @Return.
#[global] Instance outcome_bind : MBind outcome := fun A B k m => bind m k.

(** [[f x for x in l]], stopping at the first exception. *)
Fixpoint traverse {A B} (f : A -> outcome B) (l : list A) : outcome (list B) :=
  match l with
  | [] => Return []
  | x :: l' => y ← f x; ys ← traverse f l'; Return (y :: ys)
  end.

(** A number where the interpreter needs one ([x - 32], [statistics.mean]). *)
Definition to_num (v : value) : outcome R :=
  match v with
  | VNum x => Return x
  | _ => Raise TypeError
  end.

(** [a / b] on floats. *)
Definition truediv (a b : R) : outcome R :=
  if Req_dec_T b 0 then Raise ZeroDivisionError else Return (a / b)%R.

(** Nearest integer, ties to the even one. *)
Definition round_half_even (x : R) : Z :=
  let f := Int_part x in
  let r := (x - IZR f)%R in
  if Rlt_dec r (1 / 2) then f
  else if Rlt_dec (1 / 2) r then (f + 1)%Z
  else if Z.even f then f else (f + 1)%Z.

(** [round(x, ndigits)] *)
Definition round (x : R) (ndigits : nat) : R :=
  (IZR (round_half_even (x * 10 ^ ndigits)) / 10 ^ ndigits)%R.

(** [statistics.mean] and [statistics.stdev] on numbers. *)
Definition fsum (xs : list R) : R := fold_right Rplus 0%R xs.

Definition mean (xs : list R) : R := (fsum xs / INR (length xs))%R.

Definition sum_sq_dev (xs : list R) : R :=
  fsum (map (fun x => ((x - mean xs) * (x - mean xs))%R) xs).

Definition variance (xs : list R) : R :=
  (sum_sq_dev xs / (INR (length xs) - 1))%R.

Definition stdev (xs : list R) : R := sqrt (variance xs).

(** The library calls, on a list of Python objects. *)
Definition statistics_mean (data : list value) : outcome R :=
  xs ← traverse to_num data;
  match xs with
  | [] => Raise StatisticsError
  | _ => Return (mean xs)
  end.

Definition statistics_stdev (data : list value) : outcome R :=
  xs ← traverse to_num data;
  if (length xs <? 2)%nat then Raise StatisticsError else Return (stdev xs).

(** Stable insertion sort, descending in the key. *)
Fixpoint insert_desc {A} (key : A -> R) (x : A) (l : list A) : list A :=
  match l with
  | [] => [x]
  | y :: l' =>
      if Rlt_dec (key x) (key y) then y :: insert_desc key x l'
      else x :: y :: l'
  end.

Definition sort_reverse {A} (key : A -> R) (l : list A) : list A :=
  fold_right (insert_desc key) [] l.

(** [sorted(data)] on numbers: stable insertion sort, ascending. *)
Fixpoint insert_asc (x : R) (l : list R) : list R :=
  match l with
  | [] => [x]
  | y :: l' => if Rle_dec x y then x :: y :: l' else y :: insert_asc x l'
  end.

Definition sorted (data : list R) : list R := fold_right insert_asc [] data.

(** [int(x)] on a float: truncation towards zero. *)
Definition py_int (x : R) : Z :=
  if Rle_dec 0 x then Int_part x else (- Int_part (- x))%Z.

(** [l[i]]: a negative index counts from the end. *)
Definition list_getitem {A} (l : list A) (i : Z) : outcome A :=
  let n := Z.of_nat (length l) in
  let j := if (i <? 0)%Z then (i + n)%Z else i in
  if (j <? 0)%Z then Raise IndexError
  else match nth_error l (Z.to_nat j) with
       | Some x => Return x
       | None => Raise IndexError
       end.

(** [min(l)] and [max(l)] on a list of numbers. *)
Definition builtin_min (l : list R) : outcome R :=
  match l with
  | [] => Raise ValueError
  | x :: l' => Return (fold_left Rmin l' x)
  end.

Definition builtin_max (l : list R) : outcome R :=
  match l with
  | [] => Raise ValueError
  | x :: l' => Return (fold_left Rmax l' x)
  end.

(** [statistics.median] on numbers. *)
Definition statistics_median (data : list R) : outcome R :=
  let data := sorted data in
  let n := Z.of_nat (length data) in
  if (n =? 0)%Z then Raise StatisticsError
  else if (n mod 2 =? 1)%Z then list_getitem data (n / 2)
  else
    let i := (n / 2)%Z in
    a ← list_getitem data (i - 1);
    b ← list_getitem data i;
    Return ((a + b) / 2)%R.

(** Truth value of an object: [None], [0] and the empty string are
    false. *)
Definition truthy (v : value) : bool :=
  match v with
  | VNone => false
  | VNum x => if Req_dec_T x 0 then false else true
  | VStr s => negb (String.eqb s EmptyString)
  end.

End Py.

Import Py.

(** ** The datetime module: proleptic Gregorian calendar and [isoformat] *)

Module DateTime.

Open Scope Z_scope.

(** [tzinfo]: [None] for a naive datetime, else the UTC offset in
    seconds ([timezone.utc] is [Some 0]). *)
Record datetime : Type := mk_datetime {
  year : Z; month : Z; day : Z;
  hour : Z; minute : Z; second : Z; microsecond : Z;
  tzinfo : option Z
}.

Definition _MAXORDINAL : Z := 3652059.

Definition _DAYS_IN_MONTH : list Z :=
  [-1; 31; 28; 31; 30; 31; 30; 31; 31; 30; 31; 30; 31].

Definition _DAYS_BEFORE_MONTH : list Z :=
  [-1; 0; 31; 59; 90; 120; 151; 181; 212; 243; 273; 304; 334].

Definition _is_leap (y : Z) : bool :=
  (y mod 4 =? 0) && (negb (y mod 100 =? 0) || (y mod 400 =? 0)).

Definition _days_before_year (y : Z) : Z :=
  let y := y - 1 in y * 365 + y / 4 - y / 100 + y / 400.

Definition _days_in_month (y m : Z) : Z :=
  if (m =? 2) && _is_leap y then 29 else nth (Z.to_nat m) _DAYS_IN_MONTH 0.

Definition _days_before_month (y m : Z) : Z :=
  nth (Z.to_nat m) _DAYS_BEFORE_MONTH 0
  + (if (2 <? m) && _is_leap y then 1 else 0).

Definition _ymd2ord (y m d : Z) : Z :=
  _days_before_year y + _days_before_month y m + d.

Definition _DI400Y : Z := 146097.
Definition _DI100Y : Z := 36524.
Definition _DI4Y : Z := 1461.

Definition _ord2ymd (n : Z) : Z * Z * Z :=
  let n := n - 1 in
  let n400 := n / _DI400Y in
  let n := n mod _DI400Y in
  let y := n400 * 400 + 1 in
  let n100 := n / _DI100Y in
  let n := n mod _DI100Y in
  let n4 := n / _DI4Y in
  let n := n mod _DI4Y in
  let n1 := n / 365 in
  let n := n mod 365 in
  let y := y + n100 * 100 + n4 * 4 + n1 in
  if (n1 =? 4) || (n100 =? 4) then (y - 1, 12, 31)
  else
    let leapyear := (n1 =? 3) && (negb (n4 =? 24) || (n100 =? 3)) in
    let m := (n + 50) / 32 in
    let preceding :=
      nth (Z.to_nat m) _DAYS_BEFORE_MONTH 0
      + (if (2 <? m) && leapyear then 1 else 0) in
    if n <? preceding then
      let m := m - 1 in
      let preceding :=
        preceding
        - (nth (Z.to_nat m) _DAYS_IN_MONTH 0
           + (if (m =? 2) && leapyear then 1 else 0)) in
      (y, m, n - preceding + 1)
    else (y, m, n - preceding + 1).

Definition us_per_second : Z := 1000000.
Definition us_per_day : Z := 86400 * us_per_second.

(** A [timedelta] is its total number of microseconds; [days] is limited
    to 999999999 in absolute value. *)
Definition timedelta_hours (h : Z) : outcome Z :=
  let us := h * 3600 * us_per_second in
  if (Z.abs (us / us_per_day) <=? 999999999) then Return us
  else Raise OverflowError.

(** The wall-clock microseconds of a datetime, counted from ordinal 0. *)
Definition wall_us (dt : datetime) : Z :=
  _ymd2ord (year dt) (month dt) (day dt) * us_per_day
  + (hour dt * 3600 + minute dt * 60 + second dt) * us_per_second
  + microsecond dt.

(** [datetime.__add__]: through the ordinal; the tzinfo is kept. *)
Definition add_timedelta (dt : datetime) (delta : Z) : outcome datetime :=
  let total := wall_us dt + delta in
  let days := total / us_per_day in
  let secs := (total mod us_per_day) / us_per_second in
  let us := total mod us_per_second in
  if (0 <? days) && (days <=? _MAXORDINAL) then
    let '(y, m, d) := _ord2ymd days in
    Return (mk_datetime y m d (secs / 3600) ((secs mod 3600) / 60)
                        (secs mod 60) us (tzinfo dt))
  else Raise OverflowError.

Definition sub_timedelta (dt : datetime) (delta : Z) : outcome datetime :=
  add_timedelta dt (- delta).

(** The platform clock: [time.time()] in microseconds since the epoch,
    and the offset [time.localtime] applies (seconds east of UTC). *)
Record clock : Type := mk_clock {
  time_us : Z;
  local_utcoffset : Z
}.

Definition epoch_ordinal : Z := 719163.

Definition fields_of_epoch_us (t : Z) (tz : option Z) : datetime :=
  let '(y, m, d) := _ord2ymd (t / us_per_day + epoch_ordinal) in
  let secs := (t mod us_per_day) / us_per_second in
  mk_datetime y m d (secs / 3600) ((secs mod 3600) / 60) (secs mod 60)
              (t mod us_per_second) tz.

(** [datetime.now()]: naive, local wall clock. *)
Definition now (c : clock) : datetime :=
  fields_of_epoch_us (time_us c + local_utcoffset c * us_per_second) None.

(** [datetime.now(timezone.utc)]: aware, UTC. *)
Definition now_utc (c : clock) : datetime :=
  fields_of_epoch_us (time_us c) (Some 0).

(** ["%0<w>d" % n] for [n >= 0]. *)
Definition decimal (n : Z) : string :=
  NilZero.string_of_uint (N.to_uint (Z.to_N n)).

Definition zero_pad (w : nat) (n : Z) : string :=
  let s := decimal n in
  String.concat "" (repeat "0"%string (w - String.length s)) +:+ s.

Definition _format_time (hh mm ss us : Z) : string :=
  zero_pad 2 hh +:+ ":" +:+ zero_pad 2 mm +:+ ":" +:+ zero_pad 2 ss
  +:+ (if us =? 0 then "" else "." +:+ zero_pad 6 us).

Definition _format_offset (off : option Z) : string :=
  match off with
  | None => ""
  | Some o =>
      let sign := if o <? 0 then "-" else "+" in
      let a := Z.abs o in
      sign +:+ zero_pad 2 (a / 3600) +:+ ":" +:+ zero_pad 2 ((a mod 3600) / 60)
      +:+ (if a mod 60 =? 0 then "" else ":" +:+ zero_pad 2 (a mod 60))
  end.

Definition isoformat (dt : datetime) : string :=
  zero_pad 4 (year dt) +:+ "-" +:+ zero_pad 2 (month dt) +:+ "-"
  +:+ zero_pad 2 (day dt) +:+ "T"
  +:+ _format_time (hour dt) (minute dt) (second dt) (microsecond dt)
  +:+ _format_offset (tzinfo dt).

End DateTime.

(** A dict display [{k1: v1, k2: v2, ...}]: items are stored left to
    right, a repeated key keeps its last value. *)
Definition dict_literal (items : list (string * value)) : gmap string value :=
  fold_left (fun m kv => <[kv.1 := kv.2]> m) items ∅.

(** [d.get(k)] and [d[k]] *)
Definition dict_get (d : gmap string value) (k : string) : value :=
  default VNone (d !! k).

Definition getitem (d : gmap string value) (k : string) : outcome value :=
  match d !! k with
  | Some v => Return v
  | None => Raise (KeyError k)
  end.

(** [l.sort(key=key, reverse=True)]: the keys are computed first, then
    the decorated list is sorted. *)
Definition list_sort_key_reverse {A} (key : A -> outcome R) (l : list A)
  : outcome (list A) :=
  ks ← traverse (fun x => k ← key x; Return (k, x)) l;
  Return (map snd (sort_reverse fst ks)).

(** ** The random module *)

Module Random.

(** The generator state: a tape of raw draws and the read position.
    Each library call below consumes one cell. *)
Record rng : Type := mk_rng {
  tape : nat -> Z;
  pos : nat
}.

(** A computation that reads the generator and may raise. *)
Definition M (A : Type) : Type := rng -> outcome (A * rng).

#[global] Instance M_ret : MRet M := fun A a g => Return (a, g).
#[global] Instance M_bind : MBind M := fun A B k m g =>
  match m g with
  | Return (a, g') => k a g'
  | Raise e => Raise e
  end.

Definition raise {A} (e : exn) : M A := fun _ => Raise e.

Definition advance (g : rng) : rng := mk_rng (tape g) (S (pos g)).

Definition next (g : rng) : Z * rng := (tape g (pos g), advance g).

(** [random.random()]: a multiple of 2^-53 in [0, 1). *)
Definition random : M R := fun g =>
  let '(w, g') := next g in
  Return ((IZR (w mod 2 ^ 53) / IZR (2 ^ 53))%R, g').

(** [_randbelow(n)] for [n > 0]: an integer in [0, n). *)
Definition _randbelow (n : Z) : M Z := fun g =>
  let '(w, g') := next g in Return ((w mod n)%Z, g').

(** [random.choice(seq)] *)
Definition choice {A} (seq : list A) : M A :=
  match seq with
  | [] => raise IndexError
  | x :: _ =>
      i ← _randbelow (Z.of_nat (length seq));
      mret (nth (Z.to_nat i) seq x)
  end.

(** [random.randint(a, b)] *)
Definition randint (a b : Z) : M Z :=
  if (0 <? b + 1 - a)%Z then
    i ← _randbelow (b + 1 - a);
    mret (a + i)%Z
  else raise ValueError.

(** [random.uniform(a, b)] *)
Definition uniform (a b : R) : M R :=
  u ← random;
  mret (a + (b - a) * u)%R.

End Random.

(** ** sensor_simulator.py *)

Module Simulator.

Import Random.

Record SensorSimulator : Type := mk_SensorSimulator {
  interior_temp_range : R * R;
  interior_humidity_range : Z * Z;
  interior_light_range : Z * Z;
  exterior_temp_range : R * R;
  exterior_light_range : Z * Z;
  uv_index_range : R * R;
  interior_sensors : list string;
  exterior_sensors : list string;
  interior_locations : list string;
  exterior_locations : list string
}.

(** [SensorSimulator.__init__] *)
Definition __init__ : SensorSimulator := {|
  interior_temp_range := (18, 28)%R;
  interior_humidity_range := (30, 70)%Z;
  interior_light_range := (100, 500)%Z;
  exterior_temp_range := (5, 35)%R;
  exterior_light_range := (200, 1000)%Z;
  uv_index_range := (0, 11)%R;
  interior_sensors := ["sensor_01"; "sensor_03"; "sensor_05"];
  exterior_sensors := ["sensor_02"; "sensor_04"; "sensor_06"];
  interior_locations := ["Sala 1"; "Sala 2"; "Oficina A"; "Oficina B"];
  exterior_locations := ["Patio"; "Jardín"; "Terraza"; "Entrada"]
|}.

Definition _celsius_to_fahrenheit (celsius : R) : R :=
  round (celsius * 9 / 5 + 32) 1.

Definition generate_interior_reading (self : SensorSimulator)
    (clk : DateTime.clock) (device_id : option string)
  : M (gmap string value) :=
  device_id ← match device_id with
              | None => choice (interior_sensors self)
              | Some d => mret d
              end;
  t ← uniform (interior_temp_range self).1 (interior_temp_range self).2;
  let temperature := round t 1 in
  humidity ← randint (interior_humidity_range self).1
                     (interior_humidity_range self).2;
  light ← randint (interior_light_range self).1 (interior_light_range self).2;
  location ← choice (interior_locations self);
  mret (dict_literal
    [("device_id", VStr device_id);
     ("type", VStr "interior");
     ("temperature", VNum temperature);
     ("humidity", VNum (IZR humidity));
     ("light", VNum (IZR light));
     ("unit", VStr "C");
     ("location", VStr location);
     ("timestamp", VStr (DateTime.isoformat (DateTime.now_utc clk)))]).

Definition generate_exterior_reading (self : SensorSimulator)
    (clk : DateTime.clock) (device_id : option string)
  : M (gmap string value) :=
  device_id ← match device_id with
              | None => choice (exterior_sensors self)
              | Some d => mret d
              end;
  temp_celsius ← uniform (exterior_temp_range self).1
                         (exterior_temp_range self).2;
  let temperature := _celsius_to_fahrenheit temp_celsius in
  light ← randint (exterior_light_range self).1 (exterior_light_range self).2;
  u ← uniform (uv_index_range self).1 (uv_index_range self).2;
  let uv_index := round u 1 in
  location ← choice (exterior_locations self);
  mret (dict_literal
    [("device_id", VStr device_id);
     ("type", VStr "exterior");
     ("temperature", VNum temperature);
     ("light", VNum (IZR light));
     ("uv_index", VNum uv_index);
     ("unit", VStr "F");
     ("location", VStr location);
     ("timestamp", VStr (DateTime.isoformat (DateTime.now_utc clk)))]).

Definition generate_random_reading (self : SensorSimulator)
    (clk : DateTime.clock) : M (gmap string value) :=
  sensor_type ← choice ["interior"; "exterior"];
  if String.eqb sensor_type "interior"
  then generate_interior_reading self clk None
  else generate_exterior_reading self clk None.

End Simulator.

(** ** The document store: the pymongo / MongoDB operations the scripts use *)

Module Mongo.

Abbreviation document := (gmap string value).

#[global] Instance value_eq_dec : EqDecision value.
Proof.
  intros x y. unfold Decision.
  decide equality; [apply Req_dec_T | apply string_dec].
Defined.

(** What a read request on the collection yields: the stored documents,
    or the error the driver raises. *)
Definition Collection : Type := outcome (list document).

Definition server_error : exn := PyMongoError "OperationFailure".

(** [find({}, {f: 1, ...})]: every document, cut down to the listed
    fields and [_id]. *)
Definition projection (fields : list string) (d : document) : document :=
  filter (fun kv => kv.1 ∈ "_id" :: fields) d.

Definition find (c : Collection) (fields : list string)
  : outcome (list document) :=
  docs ← c; Return (map (projection fields) docs).

(** BSON comparison order on the modelled values: null, then numbers,
    then strings (compared bytewise). *)
Definition bson_rank (v : value) : nat :=
  match v with
  | VNone => 0
  | VNum _ => 1
  | VStr _ => 2
  end.

Definition bson_leb (a b : value) : bool :=
  match a, b with
  | VNum x, VNum y => if Rle_dec x y then true else false
  | VStr s, VStr t => String.leb s t
  | _, _ => (bson_rank a <=? bson_rank b)%nat
  end.

(** A missing field compares as null. *)
Definition nullish (o : option value) : value := default VNone o.

(** [{f: {$gte: s}}] with a string operand: only strings are compared. *)
Definition match_gte_str (f : string) (s : string) (d : document) : bool :=
  match d !! f with
  | Some (VStr t) => String.leb s t
  | _ => false
  end.

(** [$subtract], [$divide]: null when an operand is null or missing, an
    error on other non-numbers. *)
Definition arith (op : R -> R -> R) (a b : option value) : outcome (option value) :=
  match nullish a, nullish b with
  | VNone, _ | _, VNone => Return (Some VNone)
  | VNum x, VNum y => Return (Some (VNum (op x y)))
  | _, _ => Raise server_error
  end.

(** [{$round: [v, n]}] *)
Definition round_expr (v : value) (n : nat) : outcome value :=
  match v with
  | VNone => Return VNone
  | VNum x => Return (VNum (round x n))
  | VStr _ => Raise server_error
  end.

(** [{$hour: {$dateFromString: {dateString: v}}}]; a BSON date is a
    number of milliseconds since the epoch, [dateFromString] is the
    server's parser. *)
Definition hour_of_date (ms : Z) : Z := ((ms / 3600000) mod 24)%Z.

Definition hour_expr (dateFromString : string -> outcome Z) (v : option value)
  : outcome value :=
  match nullish v with
  | VNone => Return VNone
  | VStr s => ms ← dateFromString s; Return (VNum (IZR (hour_of_date ms)))
  | VNum _ => Raise server_error
  end.

(** Accumulators of [$group], on the values a field takes in the group
    ([None]: the field is missing). *)
Definition numbers (vs : list (option value)) : list R :=
  omap (fun o => match o with Some (VNum x) => Some x | _ => None end) vs.

Definition non_null (vs : list (option value)) : list value :=
  omap (fun o => match o with Some VNone | None => None | Some v => Some v end) vs.

Definition acc_avg (vs : list (option value)) : value :=
  match numbers vs with
  | [] => VNone
  | xs => VNum (fsum xs / INR (length xs))
  end.

Definition bson_min (a b : value) : value := if bson_leb a b then a else b.
Definition bson_max (a b : value) : value := if bson_leb a b then b else a.

Definition acc_min (vs : list (option value)) : value :=
  match non_null vs with
  | [] => VNone
  | v :: l => fold_left bson_min l v
  end.

Definition acc_max (vs : list (option value)) : value :=
  match non_null vs with
  | [] => VNone
  | v :: l => fold_left bson_max l v
  end.

Definition acc_first (vs : list (option value)) : value :=
  match vs with
  | o :: _ => nullish o
  | [] => VNone
  end.

(** [$group]: one group per distinct key, in order of first appearance;
    the members keep their order. *)
Fixpoint add_to_group {A K} `{EqDecision K} (k : K) (x : A)
    (gs : list (K * list A)) : list (K * list A) :=
  match gs with
  | [] => [(k, [x])]
  | (k', xs) :: gs' =>
      if decide (k = k') then (k', xs ++ [x]) :: gs'
      else (k', xs) :: add_to_group k x gs'
  end.

Definition group_by {A K} `{EqDecision K} (key : A -> K) (l : list A)
  : list (K * list A) :=
  fold_left (fun gs x => add_to_group (key x) x gs) l [].

(** [$sort]: insertion sort by a comparison (the server promises no
    particular order among ties; this one keeps the input order). *)
Fixpoint insert_by {A} (leb : A -> A -> bool) (x : A) (l : list A) : list A :=
  match l with
  | [] => [x]
  | y :: l' => if leb x y then x :: y :: l' else y :: insert_by leb x l'
  end.

Definition sort_by {A} (leb : A -> A -> bool) (l : list A) : list A :=
  fold_right (insert_by leb) [] l.

(** A row with some fields possibly absent. *)
Definition dict_optional (items : list (string * option value)) : document :=
  dict_literal (omap (fun kv => v ← kv.2; Some (kv.1, v)) items).

(** [find({f: s})] with a string operand: the documents whose field [f]
    holds that string. *)
Definition match_eq_str (f : string) (s : string) (d : document) : bool :=
  bool_decide (d !! f = Some (VStr s)).

(** [cursor.limit(n)] for [n >= 0]: the first [n] results, all of them
    when [n] is 0.  (A negative [n] asks for a single batch, whose size
    depends on the server; it is not modelled.) *)
Definition limit {A} (n : nat) (l : list A) : list A :=
  if (n =? 0)%nat then l else take n l.

End Mongo.

(** ** analisis_opcional.py: class AdvancedAnalysis *)

Module Analysis.

Import Mongo.

(** The analyzer object; [collection] is [None] until [connect]
    succeeds. *)
Record AdvancedAnalysis : Type := mk_AdvancedAnalysis {
  collection : option Collection
}.

(** *** detect_outliers *)

Definition default_field : string := "temperature".
Definition default_z_threshold : R := 2.5%R.

(** The value a reading contributes: Fahrenheit temperatures are
    converted, anything else is taken as it is. *)
Definition normalized (field : string) (reading : document) (raw : value)
  : outcome value :=
  if bool_decide (field = "temperature")
     && bool_decide (dict_get reading "unit" = VStr "F")
  then x ← to_num raw; Return (VNum ((x - 32) / 1.8)%R)
  else Return raw.

(** First loop: the list [values]. *)
Fixpoint collect_values (field : string) (all_readings : list document)
  : outcome (list value) :=
  match all_readings with
  | [] => Return []
  | reading :: rest =>
      match reading !! field with
      | Some raw =>
          value ← normalized field reading raw;
          values ← collect_values field rest;
          Return (value :: values)
      | None => collect_values field rest
      end
  end.

Definition outlier_doc (field : string) (reading : document) (raw : value)
    (value : R) (z_score mean std_dev : R) : document :=
  dict_literal
    [("device_id", dict_get reading "device_id");
     ("type", dict_get reading "type");
     ("timestamp", dict_get reading "timestamp");
     (field, raw);
     ("unit", dict_get reading "unit");
     ("z_score", VNum (round z_score 3));
     ("value_celsius",
       if bool_decide (field = "temperature") then VNum (round value 2)
       else VNum value);
     ("mean", VNum (round mean 2));
     ("std_dev", VNum (round std_dev 2))].

(** Second loop: the list [outliers], in reading order. *)
Fixpoint collect_outliers (field : string) (z_threshold mean std_dev : R)
    (all_readings : list document) : outcome (list document) :=
  match all_readings with
  | [] => Return []
  | reading :: rest =>
      match reading !! field with
      | Some raw =>
          v ← normalized field reading raw;
          value ← to_num v;
          q ← truediv (value - mean) std_dev;
          let z_score := Rabs q in
          outliers ← collect_outliers field z_threshold mean std_dev rest;
          if Rlt_dec z_threshold z_score
          then Return (outlier_doc field reading raw value z_score mean std_dev
                         :: outliers)
          else Return outliers
      | None => collect_outliers field z_threshold mean std_dev rest
      end
  end.

(** The body of the [try] block. *)
Definition detect_outliers_try (c : Collection) (field : string)
    (z_threshold : R) : outcome (list document) :=
  all_readings ← find c [field; "device_id"; "type"; "timestamp"; "unit"];
  match all_readings with
  | [] => Return []
  | _ =>
      values ← collect_values field all_readings;
      if (length values <? 2)%nat then Return []
      else
        mean ← statistics_mean values;
        std_dev ← (if (1 <? length values)%nat then statistics_stdev values
                   else Return 0%R);
        if Req_dec_T std_dev 0 then Return []
        else
          outliers ← collect_outliers field z_threshold mean std_dev all_readings;
          list_sort_key_reverse
            (fun x => z ← getitem x "z_score"; to_num z) outliers
  end.

Definition detect_outliers (self : AdvancedAnalysis) (field : string)
    (z_threshold : R) : outcome (list document) :=
  match collection self with
  | None => Return []
  | Some c =>
      try_except_Exception (detect_outliers_try c field z_threshold)
        (fun _ => Return [])
  end.

(** *** average_temperature_by_hour *)

Section Hourly.

(** The server's [$dateFromString]: a string to milliseconds since the
    epoch, or a conversion error. *)
Variable dateFromString : string -> outcome Z.

(** A document after the first [$project]. *)
Record projected : Type := mk_projected {
  p_hour : value;
  p_temperature_celsius : option value;
  p_type : option value
}.

Definition project_stage (d : document) : outcome projected :=
  hour ← hour_expr dateFromString (d !! "timestamp");
  temperature_celsius ←
    (if bool_decide (d !! "unit" = Some (VStr "F"))
     then a ← arith Rminus (d !! "temperature") (Some (VNum 32));
          b ← arith Rdiv a (Some (VNum 1.8%R));
          arith Rminus b (Some (VNum 0))
     else Return (d !! "temperature"));
  Return (mk_projected hour temperature_celsius (d !! "type")).

(** [_id: {hour: "$hour", type: "$type"}] *)
Definition group_key (p : projected) : value * option value :=
  (p_hour p, p_type p).

(** [$group] accumulators followed by the second [$project]. *)
Definition hourly_row (g : (value * option value) * list projected)
  : outcome document :=
  let temps := map p_temperature_celsius g.2 in
  average ← round_expr (acc_avg temps) 2;
  min_temp ← round_expr (acc_min temps) 2;
  max_temp ← round_expr (acc_max temps) 2;
  Return (dict_optional
    [("hour", Some g.1.1);
     ("sensor_type", g.1.2);
     ("average_temperature_celsius", Some average);
     ("min_temperature_celsius", Some min_temp);
     ("max_temperature_celsius", Some max_temp);
     ("readings_count", Some (VNum (INR (length g.2))))]).

(** [$sort: {hour: 1, sensor_type: 1}] *)
Definition hourly_leb (r1 r2 : document) : bool :=
  let h1 := dict_get r1 "hour" in
  let h2 := dict_get r2 "hour" in
  if bson_leb h1 h2
  then if bson_leb h2 h1
       then bson_leb (dict_get r1 "sensor_type") (dict_get r2 "sensor_type")
       else true
  else false.

Definition hourly_pipeline (start : string) (docs : list document)
  : outcome (list document) :=
  let matched := List.filter (match_gte_str "timestamp" start) docs in
  ps ← traverse project_stage matched;
  rows ← traverse hourly_row (group_by group_key ps);
  Return (sort_by hourly_leb rows).

Definition average_temperature_by_hour_try (c : Collection)
    (clk : DateTime.clock) (hours_back : Z) : outcome (list document) :=
  delta ← DateTime.timedelta_hours hours_back;
  start_time ← DateTime.sub_timedelta (DateTime.now clk) delta;
  docs ← c;
  hourly_pipeline (DateTime.isoformat start_time) docs.

Definition average_temperature_by_hour (self : AdvancedAnalysis)
    (clk : DateTime.clock) (hours_back : Z) : outcome (list document) :=
  match collection self with
  | None => Return []
  | Some c =>
      try_except_Exception (average_temperature_by_hour_try c clk hours_back)
        (fun _ => Return [])
  end.

End Hourly.

(** *** count_readings_by_sensor *)

(** [_id: "$device_id"]: a missing field groups with null. *)
Definition device_key (d : document) : value := dict_get d "device_id".

Definition field_values (f : string) (ds : list document) : list (option value) :=
  map (fun d => d !! f) ds.

Definition sensor_count_row (g : value * list document) : document :=
  dict_literal
    [("total_readings", VNum (INR (length g.2)));
     ("sensor_type", acc_first (field_values "type" g.2));
     ("location", acc_first (field_values "location" g.2));
     ("first_reading", acc_min (field_values "timestamp" g.2));
     ("last_reading", acc_max (field_values "timestamp" g.2));
     ("device_id", g.1)].

(** [$sort: {f: -1}] *)
Definition desc_by (f : string) (r1 r2 : document) : bool :=
  bson_leb (dict_get r2 f) (dict_get r1 f).

Definition count_readings_by_sensor_try (c : Collection)
  : outcome (list document) :=
  docs ← c;
  Return (sort_by (desc_by "total_readings")
            (map sensor_count_row (group_by device_key docs))).

Definition count_readings_by_sensor (self : AdvancedAnalysis)
  : outcome (list document) :=
  match collection self with
  | None => Return []
  | Some c =>
      try_except_Exception (count_readings_by_sensor_try c)
        (fun _ => Return [])
  end.

End Analysis.

(** ** analisis_opcional.py: detect_outliers in floating point

    [detect_outliers] once more, with the rounding of Python's [float]
    arithmetic written out.  [fl x] is the float an operation returns
    when its exact result is [x]: [a - b] is [fl (a - b)], [a / b] is
    [fl (a / b)], the literal [1.8] is [fl 1.8].  [statistics.mean] and
    [statistics.stdev] compute exactly on the numbers the floats denote
    and round once, at the end (CPython 3.11 and later); [round(x, n)]
    returns the float nearest to the decimal rounding of [x].  Nothing
    is assumed of [fl]: with the identity for [fl] the definitions below
    are those of [Analysis].  Infinities and NaN are left out. *)

Module Rounded.

Import Mongo.

Section Arithmetic.

Variable fl : R -> R.

(** [a - b] and [a / b] on floats. *)
Definition sub (a b : R) : R := fl (a - b).

Definition truediv (a b : R) : outcome R :=
  if Req_dec_T b 0 then Raise ZeroDivisionError else Return (fl (a / b)).

(** [round(x, ndigits)] *)
Definition round (x : R) (ndigits : nat) : R := fl (Py.round x ndigits).

(** [statistics.mean] and [statistics.stdev] *)
Definition statistics_mean (data : list value) : outcome R :=
  xs ← traverse to_num data;
  match xs with
  | [] => Raise StatisticsError
  | _ => Return (fl (mean xs))
  end.

Definition statistics_stdev (data : list value) : outcome R :=
  xs ← traverse to_num data;
  if (length xs <? 2)%nat then Raise StatisticsError
  else Return (fl (stdev xs)).

(** [(reading[field] - 32) / 1.8] for a Fahrenheit temperature,
    [reading[field]] otherwise. *)
Definition normalized (field : string) (reading : document) (raw : value)
  : outcome value :=
  if bool_decide (field = "temperature")
     && bool_decide (dict_get reading "unit" = VStr "F")
  then x ← to_num raw; Return (VNum (fl (sub x 32 / fl 1.8)))
  else Return raw.

(** First loop: the list [values]. *)
Fixpoint collect_values (field : string) (all_readings : list document)
  : outcome (list value) :=
  match all_readings with
  | [] => Return []
  | reading :: rest =>
      match reading !! field with
      | Some raw =>
          value ← normalized field reading raw;
          values ← collect_values field rest;
          Return (value :: values)
      | None => collect_values field rest
      end
  end.

Definition outlier_doc (field : string) (reading : document) (raw : value)
    (value : R) (z_score mean std_dev : R) : document :=
  dict_literal
    [("device_id", dict_get reading "device_id");
     ("type", dict_get reading "type");
     ("timestamp", dict_get reading "timestamp");
     (field, raw);
     ("unit", dict_get reading "unit");
     ("z_score", VNum (round z_score 3));
     ("value_celsius",
       if bool_decide (field = "temperature") then VNum (round value 2)
       else VNum value);
     ("mean", VNum (round mean 2));
     ("std_dev", VNum (round std_dev 2))].

(** Second loop: the list [outliers], in reading order. *)
Fixpoint collect_outliers (field : string) (z_threshold mean std_dev : R)
    (all_readings : list document) : outcome (list document) :=
  match all_readings with
  | [] => Return []
  | reading :: rest =>
      match reading !! field with
      | Some raw =>
          v ← normalized field reading raw;
          value ← to_num v;
          q ← truediv (sub value mean) std_dev;
          let z_score := Rabs q in
          outliers ← collect_outliers field z_threshold mean std_dev rest;
          if Rlt_dec z_threshold z_score
          then Return (outlier_doc field reading raw value z_score mean std_dev
                         :: outliers)
          else Return outliers
      | None => collect_outliers field z_threshold mean std_dev rest
      end
  end.

(** The body of the [try] block. *)
Definition detect_outliers_try (c : Collection) (field : string)
    (z_threshold : R) : outcome (list document) :=
  all_readings ← find c [field; "device_id"; "type"; "timestamp"; "unit"];
  match all_readings with
  | [] => Return []
  | _ =>
      values ← collect_values field all_readings;
      if (length values <? 2)%nat then Return []
      else
        mean ← statistics_mean values;
        std_dev ← (if (1 <? length values)%nat then statistics_stdev values
                   else Return 0%R);
        if Req_dec_T std_dev 0 then Return []
        else
          outliers ← collect_outliers field z_threshold mean std_dev all_readings;
          list_sort_key_reverse
            (fun x => z ← getitem x "z_score"; to_num z) outliers
  end.

Definition detect_outliers (self : Analysis.AdvancedAnalysis) (field : string)
    (z_threshold : R) : outcome (list document) :=
  match Analysis.collection self with
  | None => Return []
  | Some c =>
      try_except_Exception (detect_outliers_try c field z_threshold)
        (fun _ => Return [])
  end.

End Arithmetic.

End Rounded.

(** ** queries.py: class IoTQueries *)

Module Queries.

Import Mongo.

(** *** get_readings_count_by_sensor *)

Record IoTQueries : Type := mk_IoTQueries {
  collection : option Collection
}.

Definition readings_count_row (g : value * list document) : document :=
  dict_literal
    [("device_id", g.1);
     ("readings_count", VNum (INR (length g.2)));
     ("sensor_type", acc_first (Analysis.field_values "type" g.2));
     ("location", acc_first (Analysis.field_values "location" g.2))].

Definition get_readings_count_by_sensor_try (c : Collection)
  : outcome (list document) :=
  docs ← c;
  Return (sort_by (Analysis.desc_by "readings_count")
            (map readings_count_row (group_by Analysis.device_key docs))).

Definition get_readings_count_by_sensor (self : IoTQueries)
  : outcome (list document) :=
  match collection self with
  | None => Return []
  | Some c =>
      try_except_Exception (get_readings_count_by_sensor_try c)
        (fun _ => Return [])
  end.

(** *** get_last_n_readings *)

Definition get_last_n_readings_try (c : Collection) (n : nat)
  : outcome (list document) :=
  docs ← c;
  Return (limit n (sort_by (Analysis.desc_by "timestamp") docs)).

Definition get_last_n_readings (self : IoTQueries) (n : nat)
  : outcome (list document) :=
  match collection self with
  | None => Return []
  | Some c =>
      try_except_Exception (get_last_n_readings_try c n) (fun _ => Return [])
  end.

(** *** filter_exterior_sensors, get_readings_by_location *)

Definition filter_exterior_sensors_try (c : Collection)
  : outcome (list document) :=
  docs ← c;
  Return (sort_by (Analysis.desc_by "timestamp")
            (List.filter (match_eq_str "type" "exterior") docs)).

Definition filter_exterior_sensors (self : IoTQueries)
  : outcome (list document) :=
  match collection self with
  | None => Return []
  | Some c =>
      try_except_Exception (filter_exterior_sensors_try c) (fun _ => Return [])
  end.

Definition get_readings_by_location_try (c : Collection) (location : string)
  : outcome (list document) :=
  docs ← c;
  Return (sort_by (Analysis.desc_by "timestamp")
            (List.filter (match_eq_str "location" location) docs)).

Definition get_readings_by_location (self : IoTQueries) (location : string)
  : outcome (list document) :=
  match collection self with
  | None => Return []
  | Some c =>
      try_except_Exception (get_readings_by_location_try c location)
        (fun _ => Return [])
  end.

(** *** get_average_temperature_by_type *)

(** A document after the first [$project]. *)
Record typed : Type := mk_typed {
  t_type : option value;
  t_temperature_celsius : option value
}.

Definition type_project_stage (d : document) : outcome typed :=
  temperature_celsius ←
    (if bool_decide (d !! "unit" = Some (VStr "F"))
     then a ← arith Rminus (d !! "temperature") (Some (VNum 32));
          b ← arith Rdiv a (Some (VNum 1.8%R));
          arith Rminus b (Some (VNum 0))
     else Return (d !! "temperature"));
  Return (mk_typed (d !! "type") temperature_celsius).

(** [_id: "$type"]: a missing field groups with null. *)
Definition type_key (p : typed) : value := nullish (t_type p).

(** [$group] accumulators followed by the second [$project]. *)
Definition type_row (g : value * list typed) : outcome document :=
  let temps := map t_temperature_celsius g.2 in
  average ← round_expr (acc_avg temps) 2;
  min_temperature ← round_expr (acc_min temps) 2;
  max_temperature ← round_expr (acc_max temps) 2;
  Return (dict_literal
    [("sensor_type", g.1);
     ("average_temperature_celsius", average);
     ("min_temperature_celsius", min_temperature);
     ("max_temperature_celsius", max_temperature);
     ("total_readings", VNum (INR (length g.2)))]).

(** [$sort: {sensor_type: 1}] *)
Definition asc_by (f : string) (r1 r2 : document) : bool :=
  bson_leb (dict_get r1 f) (dict_get r2 f).

Definition get_average_temperature_by_type_try (c : Collection)
  : outcome (list document) :=
  docs ← c;
  ps ← traverse type_project_stage docs;
  rows ← traverse type_row (group_by type_key ps);
  Return (sort_by (asc_by "sensor_type") rows).

Definition get_average_temperature_by_type (self : IoTQueries)
  : outcome (list document) :=
  match collection self with
  | None => Return []
  | Some c =>
      try_except_Exception (get_average_temperature_by_type_try c)
        (fun _ => Return [])
  end.

End Queries.

(** ** The world of the measuring scripts

    What [metrics.py] and [medir_tiempo_subida.py] touch besides their
    own variables: the random generator, the system clock read by the
    simulator, [time.perf_counter] and the server answering
    [insert_one].  Each clock is the sequence of its readings; the
    server is the sequence of its answers to the requests it receives,
    an [inserted_id] or an error. *)

Module World.

Record world : Type := mk_world {
  entropy : Random.rng;
  wall_clock : nat -> DateTime.clock;
  wall_reads : nat;
  perf_clock : nat -> R;
  perf_reads : nat;
  server : nat -> gmap string value -> outcome value;
  requests : nat
}.

(** A computation in the world; the world goes on after an exception. *)
Definition W (A : Type) : Type := world -> outcome A * world.

#[global] Instance W_ret : MRet W := fun A a w => (Return a, w).
#[global] Instance W_bind : MBind W := fun A B k m w =>
  match m w with
  | (Return a, w') => k a w'
  | (Raise e, w') => (Raise e, w')
  end.

Definition lift {A} (m : outcome A) : W A := fun w => (m, w).

(** [try: body  except Exception as e: handler e] *)
Definition try_except {A} (body : W A) (handler : exn -> W A) : W A :=
  fun w =>
    match body w with
    | (Return a, w') => (Return a, w')
    | (Raise e, w') => if is_Exception e then handler e w' else (Raise e, w')
    end.

(** [time.perf_counter()] *)
Definition perf_counter : W R := fun w =>
  (Return (perf_clock w (perf_reads w)),
   mk_world (entropy w) (wall_clock w) (wall_reads w)
            (perf_clock w) (S (perf_reads w)) (server w) (requests w)).

(** [collection.insert_one(reading)]: the [inserted_id] of the result. *)
Definition insert_one (reading : gmap string value) : W value := fun w =>
  (server w (requests w) reading,
   mk_world (entropy w) (wall_clock w) (wall_reads w)
            (perf_clock w) (perf_reads w) (server w) (S (requests w))).

(** [simulator.generate_random_reading()], stamped with the next reading
    of the system clock. *)
Definition generate_random_reading (simulator : Simulator.SensorSimulator)
  : W (gmap string value) := fun w =>
  match Simulator.generate_random_reading simulator
          (wall_clock w (wall_reads w)) (entropy w) with
  | Return (reading, g) =>
      (Return reading,
       mk_world g (wall_clock w) (S (wall_reads w))
                (perf_clock w) (perf_reads w) (server w) (requests w))
  | Raise e => (Raise e, w)
  end.

End World.

(** ** metrics.py: class PerformanceMetrics *)

Module Metrics.

Import World.

(** The measuring object; [collection] is [None] until [connect]
    succeeds, then the handle the requests go through. *)
Record PerformanceMetrics : Type := mk_PerformanceMetrics {
  collection : option unit;
  simulator : Simulator.SensorSimulator
}.

Definition _percentile (data : list R) (percentile : R) : outcome R :=
  let sorted_data := sorted data in
  let index := (percentile / 100 * (IZR (Z.of_nat (length sorted_data)) - 1))%R in
  let lower := py_int index in
  let upper := (lower + 1)%Z in
  if (Z.of_nat (length sorted_data) <=? upper)%Z
  then list_getitem sorted_data (-1)
  else
    let weight := (index - IZR lower)%R in
    a ← list_getitem sorted_data lower;
    b ← list_getitem sorted_data upper;
    Return (a * (1 - weight) + b * weight)%R.

(** The three variables the insertion loop updates. *)
Record tally : Type := mk_tally {
  latencies : list R;
  successful_inserts : nat;
  failed_inserts : nat
}.

(** One turn of the loop. *)
Definition insertion_step (self : PerformanceMetrics) (t : tally) : W tally :=
  reading ← generate_random_reading (simulator self);
  start_time ← perf_counter;
  try_except
    (result ← insert_one reading;
     end_time ← perf_counter;
     if truthy result
     then
       let latency_ms := ((end_time - start_time) * 1000)%R in
       mret (mk_tally (latencies t ++ [latency_ms])
                      (S (successful_inserts t)) (failed_inserts t))
     else
       mret (mk_tally (latencies t) (successful_inserts t)
                      (S (failed_inserts t))))
    (fun _ =>
       mret (mk_tally (latencies t) (successful_inserts t)
                      (S (failed_inserts t)))).

(** [for i in range(n)] *)
Fixpoint insertion_loop (self : PerformanceMetrics) (n : nat) (t : tally)
  : W tally :=
  match n with
  | O => mret t
  | S n' => t' ← insertion_step self t; insertion_loop self n' t'
  end.

(** The dict [metrics]. *)
Definition insertion_metrics (num_inserts : Z) (t : tally)
  : outcome (gmap string value) :=
  ratio ← truediv (INR (successful_inserts t)) (IZR num_inserts);
  min_latency ← builtin_min (latencies t);
  max_latency ← builtin_max (latencies t);
  avg_latency ← statistics_mean (map VNum (latencies t));
  median_latency ← statistics_median (latencies t);
  std_deviation ← (if (1 <? length (latencies t))%nat
                   then statistics_stdev (map VNum (latencies t))
                   else Return 0%R);
  p95 ← _percentile (latencies t) 95;
  p99 ← _percentile (latencies t) 99;
  Return (dict_literal
    [("total_inserts", VNum (IZR num_inserts));
     ("successful_inserts", VNum (INR (successful_inserts t)));
     ("failed_inserts", VNum (INR (failed_inserts t)));
     ("success_rate", VNum (ratio * 100));
     ("min_latency_ms", VNum min_latency);
     ("max_latency_ms", VNum max_latency);
     ("avg_latency_ms", VNum avg_latency);
     ("median_latency_ms", VNum median_latency);
     ("std_deviation_ms", VNum std_deviation);
     ("p95_latency_ms", VNum p95);
     ("p99_latency_ms", VNum p99)]).

Definition measure_insertion_latency (self : PerformanceMetrics)
    (num_inserts : Z) : W (gmap string value) :=
  match collection self with
  | None => mret ∅
  | Some _ =>
      t ← insertion_loop self (Z.to_nat num_inserts) (mk_tally [] 0 0);
      match latencies t with
      | [] =>
          mret (dict_literal
            [("successful_inserts", VNum 0);
             ("failed_inserts", VNum (INR (failed_inserts t)));
             ("error", VStr "No se pudieron realizar inserciones exitosas")])
      | _ => lift (insertion_metrics num_inserts t)
      end
  end.

End Metrics.

(** ** medir_tiempo_subida.py: the batch of [medir_tiempo_lote] *)

Module Upload.

Import World.

(** [[simulator.generate_random_reading() for _ in range(n)]] *)
Fixpoint generate_batch (simulator : Simulator.SensorSimulator) (n : nat)
  : W (list (gmap string value)) :=
  match n with
  | O => mret []
  | S n' =>
      reading ← generate_random_reading simulator;
      rest ← generate_batch simulator n';
      mret (reading :: rest)
  end.

End Upload.

(** ** A date parser for the strings [isoformat] writes

    [YYYY-MM-DDTHH:MM:SS[.f...][Z|+HH:MM|-HH:MM]], to milliseconds since
    the epoch.  The server's own parser accepts more formats; this one
    instantiates [dateFromString] on the timestamps the simulator
    produces. *)

Module IsoParser.

Open Scope Z_scope.

Definition digit (a : ascii) : option Z :=
  let n := Z.of_nat (nat_of_ascii a) in
  if (48 <=? n) && (n <=? 57) then Some (n - 48) else None.

(** The leading digits of [l] as a number, with their count and the rest. *)
Fixpoint digits (l : list ascii) (acc : Z) (count : nat) : Z * nat * list ascii :=
  match l with
  | a :: l' =>
      match digit a with
      | Some d => digits l' (acc * 10 + d) (S count)
      | None => (acc, count, l)
      end
  | [] => (acc, count, [])
  end.

(** Exactly [w] digits, then the separator [sep]. *)
Definition field (w : nat) (sep : option ascii) (l : list ascii)
  : option (Z * list ascii) :=
  let '(n, count, rest) := digits (take w l) 0 0%nat in
  if negb (count =? w)%nat then None
  else
    match sep, drop w l with
    | None, rest => Some (n, rest)
    | Some c, c' :: rest => if Ascii.eqb c c' then Some (n, rest) else None
    | Some _, [] => None
    end.

Definition fraction_ms (l : list ascii) : option (Z * list ascii) :=
  match l with
  | "."%char :: l' =>
      let '(_, count, rest) := digits l' 0 0%nat in
      if (count =? 0)%nat then None
      else
        let '(ms, _, _) := digits (take 3 (take count l' ++ ["0"; "0"]%char)) 0 0%nat in
        Some (ms, rest)
  | _ => Some (0, l)
  end.

Definition offset_seconds (l : list ascii) : option Z :=
  match l with
  | [] => Some 0
  | ["Z"%char] => Some 0
  | sign :: l' =>
      if Ascii.eqb sign "+" || Ascii.eqb sign "-" then
        '(hh, l1) ← field 2 (Some ":"%char) l';
        '(mm, l2) ← field 2 None l1;
        match l2 with
        | [] =>
            if (hh <=? 23) && (mm <=? 59) then
              Some ((if Ascii.eqb sign "-" then -1 else 1) * (hh * 3600 + mm * 60))
            else None
        | _ => None
        end
      else None
  end.

Definition parse (s : string) : option Z :=
  '(y, l) ← field 4 (Some "-"%char) (list_ascii_of_string s);
  '(m, l) ← field 2 (Some "-"%char) l;
  '(d, l) ← field 2 (Some "T"%char) l;
  '(hh, l) ← field 2 (Some ":"%char) l;
  '(mm, l) ← field 2 (Some ":"%char) l;
  '(ss, l) ← field 2 None l;
  '(ms, l) ← fraction_ms l;
  off ← offset_seconds l;
  if (1 <=? y) && (1 <=? m) && (m <=? 12) && (1 <=? d)
     && (d <=? DateTime._days_in_month y m)
     && (hh <=? 23) && (mm <=? 59) && (ss <=? 59)
  then Some (((DateTime._ymd2ord y m d - DateTime.epoch_ordinal) * 86400
              + hh * 3600 + mm * 60 + ss - off) * 1000 + ms)
  else None.

Definition dateFromString (s : string) : outcome Z :=
  match parse s with
  | Some ms => Return ms
  | None => Raise Mongo.server_error
  end.

End IsoParser.

(** * Vocabulary of the properties

    The notions the properties below are stated with, and the concrete
    readings, vectors and clocks they are tried on. *)

Module Vocabulary.

Import Mongo Analysis.

(** Descending order in a key. *)
Definition key_ge {A : Type} (key : A -> R) (a b : A) : Prop :=
  (key b <= key a)%R.

(** The order of the outlier list: by the attached z_score, descending. *)
Definition z_score_ge (a b : document) : Prop :=
  exists za zb : R,
    a !! "z_score" = Some (VNum za) /\ b !! "z_score" = Some (VNum zb) /\
    (zb <= za)%R.

(** Grouping: the elements with key [k]. *)
Definition same_key {A K : Type} `{EqDecision K} (key : A -> K) (k : K) (x : A)
  : bool :=
  bool_decide (key x = k).

(** What [group_by] makes of a list: one entry per key, holding the
    elements with that key in their order. *)
Definition grouped {A K : Type} `{EqDecision K} (key : A -> K) (l : list A)
    (gs : list (K * list A)) : Prop :=
  NoDup (map fst gs)
  /\ (forall k xs, (k, xs) ∈ gs ->
        xs <> [] /\ xs = List.filter (same_key key k) l)
  /\ (forall x, x ∈ l -> key x ∈ map fst gs).

(** Order of the rows of a count: by the count under [f], descending. *)
Definition count_ge (f : string) (a b : document) : Prop :=
  exists na nb : nat,
    a !! f = Some (VNum (INR na)) /\ b !! f = Some (VNum (INR nb)) /\ nb <= na.

(** The rows of a per-device count of [docs], the count stored under
    [f]: the counts add up to the number of documents; no two rows have
    the same device_id; every document has the row of its device_id (null
    when it has none); every row holds the number of documents with its
    device_id, at least one; the rows are in descending order of the
    count. *)
Definition counts_by_device (f : string) (docs rows : list document) : Prop :=
  (exists counts : list nat,
     Forall2 (fun r n => r !! f = Some (VNum (INR n))) rows counts
     /\ sum_list counts = length docs)
  /\ NoDup (map (fun r => r !! "device_id") rows)
  /\ (forall d, d ∈ docs ->
        exists r, r ∈ rows /\ r !! "device_id" = Some (dict_get d "device_id"))
  /\ (forall r, r ∈ rows ->
        exists k : value,
          r !! "device_id" = Some k
          /\ r !! f = Some (VNum (INR (length
               (List.filter
                  (fun d => bool_decide (dict_get d "device_id" = k)) docs))))
          /\ exists d, d ∈ docs /\ dict_get d "device_id" = k)
  /\ Sorted (count_ge f) rows.

(** Hour of day (UTC) of an instant given in milliseconds since the
    epoch: the whole hours gone since the last midnight. *)
Definition hour_of_instant (ms : Z) : Z := ((ms mod 86400000) / 3600000)%Z.

Section HourlyNotions.

Variable dateFromString : string -> outcome Z.

(** A reading the pipeline can summarise: its timestamp is a string the
    server parses, its temperature is a number. *)
Definition summarisable (d : document) : Prop :=
  exists (s : string) (ms : Z) (t : R),
    d !! "timestamp" = Some (VStr s) /\ dateFromString s = Return ms
    /\ d !! "temperature" = Some (VNum t).

(** Hour of day (UTC) of the parsed timestamp. *)
Definition hour_of_day (d : document) : Z :=
  match d !! "timestamp" with
  | Some (VStr s) =>
      match dateFromString s with
      | Return ms => hour_of_instant ms
      | Raise _ => 0%Z
      end
  | _ => 0%Z
  end.

(** The temperature in Celsius: [(v - 32) / 1.8] for unit F, [v]
    otherwise. *)
Definition celsius (d : document) : R :=
  match d !! "temperature" with
  | Some (VNum t) =>
      if bool_decide (d !! "unit" = Some (VStr "F")) then ((t - 32) / 1.8)%R
      else t
  | _ => 0%R
  end.

(** The readings of [ds] with the hour of day and the sensor type of [d]. *)
Definition bucket (ds : list document) (d : document) : list document :=
  List.filter
    (fun d' => bool_decide (hour_of_day d' = hour_of_day d
                            /\ d' !! "type" = d !! "type")) ds.

(** Order of the hourly rows: by hour, then by sensor type. *)
Definition hourly_order (a b : document) : Prop :=
  exists ha hb : Z,
    a !! "hour" = Some (VNum (IZR ha)) /\ b !! "hour" = Some (VNum (IZR hb))
    /\ ((ha < hb)%Z
        \/ (ha = hb
            /\ bson_leb (dict_get a "sensor_type") (dict_get b "sensor_type")
               = true)).

(** What the first [$project] makes of a summarisable reading. *)
Definition projected_of (d : document) : projected :=
  mk_projected (VNum (IZR (hour_of_day d))) (Some (VNum (celsius d)))
               (d !! "type").

(** Least and greatest element of a non-empty list. *)
Definition list_min (xs : list R) : R :=
  match xs with
  | [] => 0%R
  | x :: l => fold_left Rmin l x
  end.

Definition list_max (xs : list R) : R :=
  match xs with
  | [] => 0%R
  | x :: l => fold_left Rmax l x
  end.

(** The row the pipeline writes for a bucket [b] of hour [h] and type [ty]. *)
Definition bucket_row (h : Z) (ty : option value) (b : list document)
  : document :=
  dict_optional
    [("hour", Some (VNum (IZR h)));
     ("sensor_type", ty);
     ("average_temperature_celsius",
       Some (VNum (round (mean (map celsius b)) 2)));
     ("min_temperature_celsius",
       Some (VNum (round (list_min (map celsius b)) 2)));
     ("max_temperature_celsius",
       Some (VNum (round (list_max (map celsius b)) 2)));
     ("readings_count", Some (VNum (INR (length b))))].

(** The readings the [$match] stage keeps. *)
Definition selected (start : string) (docs : list document) : list document :=
  List.filter (match_gte_str "timestamp" start) docs.

End HourlyNotions.

(** *** Concrete data *)

(** A stored reading with a Celsius temperature and nothing else. *)
Definition celsius_reading (t : R) : document :=
  dict_literal [("temperature", VNum t); ("unit", VStr "C")].

(** The two vectors of the specification. *)
Definition constant_vector : list R := [5; 5; 5; 5]%R.
Definition fixed_vector : list R := [10; 10; 10; 10; 100]%R.

(** A collection holding one Celsius reading per value, and what
    [detect_outliers] fetches from it. *)
Definition collection_of (xs : list R) : Collection :=
  Return (map celsius_reading xs).

Definition fetched (xs : list R) : list document :=
  map (projection ["temperature"; "device_id"; "type"; "timestamp"; "unit"])
      (map celsius_reading xs).

(** A stored reading with a Fahrenheit temperature and nothing else. *)
Definition fahrenheit_reading (t : R) : document :=
  dict_literal [("temperature", VNum t); ("unit", VStr "F")].

(** Four Celsius readings of 10 degrees and a Fahrenheit reading of 212
    degrees, which is 100 degrees Celsius: the fixed vector again. *)
Definition mixed_readings : list document :=
  map celsius_reading [10; 10; 10; 10]%R ++ [fahrenheit_reading 212].

(** A stored interior reading with the given device, Celsius temperature
    and timestamp. *)
Definition interior_doc (device : string) (t : R) (ts : string) : document :=
  dict_literal
    [("device_id", VStr device); ("type", VStr "interior");
     ("temperature", VNum t); ("unit", VStr "C"); ("timestamp", VStr ts)].

(** 2024-05-02 12:00:00 UTC, in microseconds since the epoch. *)
Definition noon : Z := 1714651200000000.

(** The same instant read on machines at UTC, UTC-3 and UTC+2. *)
Definition clock_utc : DateTime.clock := DateTime.mk_clock noon 0.
Definition clock_utc_minus_3 : DateTime.clock := DateTime.mk_clock noon (-10800).
Definition clock_utc_plus_2 : DateTime.clock := DateTime.mk_clock noon 7200.

(** The timestamp the simulator writes [h] hours and [m] minutes before
    noon, whatever the machine's zone. *)
Definition stamp_before (h m : Z) (offset : Z) : string :=
  DateTime.isoformat
    (DateTime.now_utc
       (DateTime.mk_clock (noon - (h * 3600 + m * 60) * 1000000) offset)).

(** A reading stamped 25 h 30 min before noon by a simulator at UTC-3,
    and one stamped 23 h before noon by a simulator at UTC+2. *)
Definition old_reading : document :=
  interior_doc "sensor_01" 20 (stamp_before 25 30 (-10800)).

Definition recent_reading : document :=
  interior_doc "sensor_01" 20 (stamp_before 23 0 7200).

(** Two interior readings on consecutive days, both between 10 and 11
    o'clock. *)
Definition two_days : list document :=
  [interior_doc "sensor_01" 20 "2024-05-01T10:30:00+00:00";
   interior_doc "sensor_03" 22 "2024-05-02T10:15:00.250000+00:00"].

(** A reading whose temperature is not a number. *)
Definition broken_reading : document :=
  dict_literal [("temperature", VStr "n/a"); ("unit", VStr "F")].

(** The tape that always answers 0: the first sensor, the lower end of
    every range, the first location. *)
Definition zero_tape : Random.rng := Random.mk_rng (fun _ => 0%Z) 0.

(** *** Rows of a temperature summary *)

(** The statistics of a row are in order: minimum, average and maximum
    are all null (no temperature in the group), or numbers with
    minimum <= average <= maximum. *)
Definition summary_ordered (r : document) : Prop :=
  (r !! "min_temperature_celsius" = Some VNone
   /\ r !! "average_temperature_celsius" = Some VNone
   /\ r !! "max_temperature_celsius" = Some VNone)
  \/ exists lo avg hi : R,
       r !! "min_temperature_celsius" = Some (VNum lo)
       /\ r !! "average_temperature_celsius" = Some (VNum avg)
       /\ r !! "max_temperature_celsius" = Some (VNum hi)
       /\ (lo <= avg <= hi)%R.

(** The counts the rows hold under [f] add up to [n]. *)
Definition counts_total (f : string) (rows : list document) (n : nat) : Prop :=
  exists counts : list nat,
    Forall2 (fun r k => r !! f = Some (VNum (INR k))) rows counts
    /\ sum_list counts = n.

(** *** Notions for the queries *)

(** A reading whose temperature is a number. *)
Definition numeric_temperature (d : document) : Prop :=
  exists t : R, d !! "temperature" = Some (VNum t).

(** The sensor type a reading is grouped under: null when it has none. *)
Definition type_of (d : document) : value := nullish (d !! "type").

(** The readings of [ds] with the sensor type of [d]. *)
Definition same_type (ds : list document) (d : document) : list document :=
  List.filter (fun d' => bool_decide (type_of d' = type_of d)) ds.

(** What the first [$project] of the per-type average makes of a
    reading with a numeric temperature. *)
Definition typed_of (d : document) : Queries.typed :=
  Queries.mk_typed (d !! "type") (Some (VNum (celsius d))).

(** The row the per-type average writes for the readings [b] of type
    [ty]. *)
Definition type_summary_row (ty : value) (b : list document) : document :=
  dict_literal
    [("sensor_type", ty);
     ("average_temperature_celsius", VNum (round (mean (map celsius b)) 2));
     ("min_temperature_celsius", VNum (round (list_min (map celsius b)) 2));
     ("max_temperature_celsius", VNum (round (list_max (map celsius b)) 2));
     ("total_readings", VNum (INR (length b)))].

(** Order of the per-type rows: by sensor type, ascending. *)
Definition type_order (a b : document) : Prop :=
  bson_leb (dict_get a "sensor_type") (dict_get b "sensor_type") = true.

(** Order of a cursor sorted by timestamp, descending: [a] is not older
    than [b].  A reading without timestamp counts as null, the oldest. *)
Definition newest_first (a b : document) : Prop :=
  bson_leb (dict_get b "timestamp") (dict_get a "timestamp") = true.

(** *** Notions for the measurements *)

(** The measuring object after a successful [connect]. *)
Definition connected_metrics : Metrics.PerformanceMetrics :=
  Metrics.mk_PerformanceMetrics (Some tt) Simulator.__init__.

(** The server answers every request with an id or with an
    [Exception]. *)
Definition answers_or_fails (w : World.world) : Prop :=
  forall (k : nat) (reading : document) (e : exn),
    World.server w k reading = Raise e -> is_Exception e = true.

(** [time.perf_counter] never goes back. *)
Definition monotonic_perf_counter (w : World.world) : Prop :=
  forall i j : nat, i <= j -> (World.perf_clock w i <= World.perf_clock w j)%R.

(** A world where the clock stands at noon, [perf_counter] advances by
    one second per call and every insert is acknowledged. *)
Definition steady_world : World.world :=
  World.mk_world zero_tape (fun _ => clock_utc) 0 INR 0
    (fun _ _ => Return (VStr "65d4f0a1")) 0.

(** A stored copy of a reading: the reading, possibly with the [_id]
    the store adds. *)
Definition stored_as (reading stored : document) : Prop :=
  forall k : string, k <> "_id" -> stored !! k = reading !! k.

(** *** Notions for the order of the stored readings *)

(** The value [detect_outliers] takes from a reading, if any. *)
Definition normalized_value (field : string) (r : document) : option value :=
  match r !! field with
  | Some raw =>
      match normalized field r raw with
      | Return v => Some v
      | Raise _ => None
      end
  | None => None
  end.

(** The outlier document of a reading whose z-score, against mean [m]
    and deviation [s], passes the threshold [t]. *)
Definition flagged (field : string) (t m s : R) (r : document)
  : option document :=
  match r !! field with
  | Some raw =>
      match normalized field r raw with
      | Return (VNum x) =>
          if Rlt_dec t (Rabs ((x - m) / s))
          then Some (outlier_doc field r raw x (Rabs ((x - m) / s)) m s)
          else None
      | _ => None
      end
  | None => None
  end.

(** *** Notions for the outliers in floating point *)

Section OutlierNotions.

(** The float an operation returns when its exact result is [x]. *)
Variable fl : R -> R.

(** The normalized value of a reading: the number it holds under
    [field]; for the temperature of a reading whose unit is "F", that
    number converted to Celsius, [(t - 32) / 1.8] in float arithmetic. *)
Definition normalized_number (field : string) (r : document) : option R :=
  match r !! field with
  | Some (VNum t) =>
      Some (if bool_decide (field = "temperature"
                            /\ r !! "unit" = Some (VStr "F"))
            then fl (fl (t - 32) / fl 1.8)
            else t)
  | _ => None
  end.

(** The normalized values of the readings that have the field, in
    their order. *)
Definition normalized_numbers (field : string) (rs : list document) : list R :=
  omap (normalized_number field) rs.

(** The z-score of a value [v] against the mean [m] and the deviation
    [s]: [|(v - m) / s|] in float arithmetic. *)
Definition float_z_score (v m s : R) : R := Rabs (fl (fl (v - m) / s)).

(** A reading that has the field holds a number there. *)
Definition numeric_field (field : string) (r : document) : Prop :=
  forall raw : value, r !! field = Some raw -> exists t : R, raw = VNum t.

End OutlierNotions.

(** Eight equal values and one apart. *)
Definition nine_values : list R := [0; 0; 0; 0; 0; 0; 0; 0; 9]%R.

(** *** The two kinds of reading *)

Definition interior_keys : gset string :=
  list_to_set ["device_id"; "type"; "temperature"; "humidity"; "light";
               "unit"; "location"; "timestamp"].

Definition exterior_keys : gset string :=
  list_to_set ["device_id"; "type"; "temperature"; "light"; "uv_index";
               "unit"; "location"; "timestamp"].

(** An interior reading: its keys, type and unit, a device and a
    location of the interior pools, a Celsius temperature in [18, 28]. *)
Definition interior_reading (r : document) : Prop :=
  dom r = interior_keys
  /\ r !! "type" = Some (VStr "interior")
  /\ r !! "unit" = Some (VStr "C")
  /\ (exists d : string, r !! "device_id" = Some (VStr d)
        /\ d ∈ Simulator.interior_sensors Simulator.__init__)
  /\ (exists loc : string, r !! "location" = Some (VStr loc)
        /\ loc ∈ Simulator.interior_locations Simulator.__init__)
  /\ (exists t : R, r !! "temperature" = Some (VNum t) /\ (18 <= t <= 28)%R).

(** An exterior reading: its keys, type and unit, a device and a
    location of the exterior pools, a Fahrenheit temperature whose
    Celsius equivalent lies in [5, 35]. *)
Definition exterior_reading (r : document) : Prop :=
  dom r = exterior_keys
  /\ r !! "type" = Some (VStr "exterior")
  /\ r !! "unit" = Some (VStr "F")
  /\ (exists d : string, r !! "device_id" = Some (VStr d)
        /\ d ∈ Simulator.exterior_sensors Simulator.__init__)
  /\ (exists loc : string, r !! "location" = Some (VStr loc)
        /\ loc ∈ Simulator.exterior_locations Simulator.__init__)
  /\ (exists f : R, r !! "temperature" = Some (VNum f)
        /\ (5 <= (f - 32) / 1.8 <= 35)%R).

End Vocabulary.

Import Vocabulary.

(** * Properties *)

(** ** Rounding *)

Section RoundFacts.

Local Open Scope R_scope.

Lemma Int_part_bounds (x : R) : IZR (Int_part x) <= x < IZR (Int_part x) + 1.
Proof. destruct (base_Int_part x). lra. Qed.

Lemma round_half_even_cases (x : R) :
  round_half_even x = Int_part x \/ round_half_even x = (Int_part x + 1)%Z.
Proof.
  unfold round_half_even.
  repeat destruct (Rlt_dec _ _); try destruct (Z.even _); auto.
Qed.

Lemma round_half_even_near (x : R) :
  IZR (round_half_even x) - 1 / 2 <= x <= IZR (round_half_even x) + 1 / 2.
Proof.
  pose proof (Int_part_bounds x) as Hb.
  unfold round_half_even.
  destruct (Rlt_dec _ _) as [Hlt | Hge].
  - lra.
  - destruct (Rlt_dec _ _) as [Hgt | Hle].
    + rewrite plus_IZR. lra.
    + destruct (Z.even _); [| rewrite plus_IZR]; lra.
Qed.

Lemma IZR_lt_succ (a b : Z) : IZR a < IZR b + 1 -> (a <= b)%Z.
Proof.
  intros H. apply Z.lt_succ_r, lt_IZR. rewrite succ_IZR. exact H.
Qed.

Lemma round_half_even_mono (x y : R) :
  x <= y -> (round_half_even x <= round_half_even y)%Z.
Proof.
  intros Hxy.
  pose proof (round_half_even_near x) as Hx.
  pose proof (round_half_even_near y) as Hy.
  destruct (Z_le_gt_dec (round_half_even x) (round_half_even y)) as [|Hgt];
    [assumption |].
  assert (Hs : (round_half_even y + 1 <= round_half_even x)%Z) by lia.
  apply IZR_le in Hs. rewrite plus_IZR in Hs.
  assert (x = y) by lra. subst y. lia.
Qed.

Lemma round_half_even_IZR (z : Z) : round_half_even (IZR z) = z.
Proof.
  pose proof (round_half_even_near (IZR z)) as [H1 H2].
  apply Z.le_antisymm; apply IZR_lt_succ; lra.
Qed.

Lemma round_half_even_between (a b : Z) (x : R) :
  IZR a <= x <= IZR b -> (a <= round_half_even x <= b)%Z.
Proof.
  intros [Ha Hb]. split.
  - rewrite <- (round_half_even_IZR a). now apply round_half_even_mono.
  - rewrite <- (round_half_even_IZR b). now apply round_half_even_mono.
Qed.

Lemma round_half_even_unique (x : R) (z : Z) :
  IZR z - 1 / 2 < x < IZR z + 1 / 2 -> round_half_even x = z.
Proof.
  intros [H1 H2].
  pose proof (round_half_even_near x) as [H3 H4].
  apply Z.le_antisymm; apply IZR_lt_succ; lra.
Qed.

Lemma Rabs_le_bounds (a b : R) : Rabs a <= b -> - b <= a <= b.
Proof. unfold Rabs. destruct (Rcase_abs a); lra. Qed.

Lemma pow10_pos (n : nat) : 0 < 10 ^ n.
Proof. apply pow_lt. lra. Qed.

(** [round(x, n)] is a whole number of 10^-n units, at most half a unit
    away from [x]. *)
Lemma round_decimal (x : R) (n : nat) :
  exists k : Z, round x n = IZR k / 10 ^ n /\ Rabs (round x n - x) <= / 2 / 10 ^ n.
Proof.
  exists (round_half_even (x * 10 ^ n)). split; [reflexivity |].
  pose proof (pow10_pos n) as Hp.
  pose proof (round_half_even_near (x * 10 ^ n)) as [H1 H2].
  unfold round.
  replace (IZR (round_half_even (x * 10 ^ n)) / 10 ^ n - x)
    with ((IZR (round_half_even (x * 10 ^ n)) - x * 10 ^ n) / 10 ^ n)
    by (field; lra).
  unfold Rdiv at 1. rewrite Rabs_mult, (Rabs_pos_eq (/ 10 ^ n)).
  - apply Rmult_le_compat_r.
    + left. now apply Rinv_0_lt_compat.
    + apply Rabs_le. lra.
  - left. now apply Rinv_0_lt_compat.
Qed.

(** Rounding keeps a value between two bounds that are themselves whole
    numbers of units. *)
Lemma round_between (a b : Z) (x : R) (n : nat) :
  IZR a / 10 ^ n <= x <= IZR b / 10 ^ n ->
  exists k : Z, round x n = IZR k / 10 ^ n /\ (a <= k <= b)%Z.
Proof.
  intros [Ha Hb]. pose proof (pow10_pos n) as Hp.
  exists (round_half_even (x * 10 ^ n)). split; [reflexivity |].
  apply round_half_even_between. split.
  - apply (Rmult_le_compat_r (10 ^ n)) in Ha; [| lra].
    unfold Rdiv in Ha. rewrite Rmult_assoc, Rinv_l, Rmult_1_r in Ha; lra.
  - apply (Rmult_le_compat_r (10 ^ n)) in Hb; [| lra].
    unfold Rdiv in Hb. rewrite Rmult_assoc, Rinv_l, Rmult_1_r in Hb; lra.
Qed.

End RoundFacts.

(** ** The random draws *)

Section RandomFacts.

Import Random.

Lemma bind_run {A B} (m : M A) (k : A -> M B) (g g' : rng) (a : A) :
  m g = Return (a, g') -> (x ← m; k x) g = k a g'.
Proof. intros H. unfold mbind, M_bind. now rewrite H. Qed.

Lemma random_unit (g : rng) :
  exists u : R, random g = Return (u, advance g) /\ (0 <= u < 1)%R.
Proof.
  eexists. split; [reflexivity |].
  assert (Hm : (0 <= tape g (pos g) mod 2 ^ 53 < 2 ^ 53)%Z)
    by (apply Z.mod_pos_bound; lia).
  assert (Hp : (0 < IZR (2 ^ 53))%R) by (apply IZR_lt; lia).
  destruct Hm as [H0 H1]. apply IZR_le in H0. apply IZR_lt in H1.
  split.
  - apply Rmult_le_pos; [exact H0 | left; now apply Rinv_0_lt_compat].
  - apply (Rmult_lt_reg_r (IZR (2 ^ 53))); [exact Hp |].
    unfold Rdiv. rewrite Rmult_assoc, Rinv_l, Rmult_1_r, Rmult_1_l; lra.
Qed.

Lemma randbelow_range (n : Z) (g : rng) :
  (0 < n)%Z ->
  exists i : Z, _randbelow n g = Return (i, advance g) /\ (0 <= i < n)%Z.
Proof.
  intros Hn. eexists. split; [reflexivity |]. now apply Z.mod_pos_bound.
Qed.

Lemma choice_elem {A} (x : A) (seq : list A) (g : rng) :
  exists y : A, choice (x :: seq) g = Return (y, advance g) /\ y ∈ x :: seq.
Proof.
  destruct (randbelow_range (Z.of_nat (length (x :: seq))) g) as (i & Hi & Hr);
    [simpl; lia |].
  exists (nth (Z.to_nat i) (x :: seq) x). split.
  - unfold choice. now rewrite (bind_run _ _ _ _ _ Hi).
  - apply list_elem_of_In, nth_In. lia.
Qed.

Lemma randint_range (a b : Z) (g : rng) :
  (a <= b)%Z ->
  exists v : Z, randint a b g = Return (v, advance g) /\ (a <= v <= b)%Z.
Proof.
  intros Hab.
  destruct (randbelow_range (b + 1 - a) g) as (i & Hi & Hr); [lia |].
  exists (a + i)%Z. split; [| lia].
  unfold randint. destruct (Z.ltb_spec 0 (b + 1 - a)); [| lia].
  now rewrite (bind_run _ _ _ _ _ Hi).
Qed.

Lemma uniform_range (a b : R) (g : rng) :
  (a <= b)%R ->
  exists v : R, uniform a b g = Return (v, advance g) /\ (a <= v <= b)%R.
Proof.
  intros Hab. destruct (random_unit g) as (u & Hu & Hr).
  exists (a + (b - a) * u)%R. split.
  - unfold uniform. now rewrite (bind_run _ _ _ _ _ Hu).
  - split; [nra | nra].
Qed.

End RandomFacts.

(** ** The simulator *)

Section SimulatorFacts.

Import Random Simulator.

(** C4.  A reading of [generate_interior_reading] called without a
    device id: the call returns; unit is "C"; humidity is an integer in
    [30, 70]; there is no uv_index; temperature lies in [18, 28] and is a
    whole number of tenths; light is an integer in [100, 500]; device_id
    and location come from the interior pools. *)
Theorem generate_interior_reading_fields (clk : DateTime.clock) (g : rng) :
  exists (reading : gmap string value) (g' : rng),
    generate_interior_reading __init__ clk None g = Return (reading, g') /\
    reading !! "unit" = Some (VStr "C") /\
    (exists h : Z, reading !! "humidity" = Some (VNum (IZR h)) /\ (30 <= h <= 70)%Z) /\
    reading !! "uv_index" = None /\
    (exists t : R, reading !! "temperature" = Some (VNum t) /\
       (18 <= t <= 28)%R /\ exists k : Z, t = (IZR k / 10 ^ 1)%R) /\
    (exists l : Z, reading !! "light" = Some (VNum (IZR l)) /\ (100 <= l <= 500)%Z) /\
    (exists d : string, reading !! "device_id" = Some (VStr d) /\
       d ∈ ["sensor_01"; "sensor_03"; "sensor_05"]) /\
    (exists loc : string, reading !! "location" = Some (VStr loc) /\
       loc ∈ ["Sala 1"; "Sala 2"; "Oficina A"; "Oficina B"]).
Proof.
  unfold generate_interior_reading. cbn [interior_sensors interior_temp_range
    interior_humidity_range interior_light_range interior_locations __init__ fst snd].
  destruct (choice_elem "sensor_01" ["sensor_03"; "sensor_05"] g) as (d & Hd & Hdin).
  rewrite (bind_run _ _ _ _ _ Hd).
  destruct (uniform_range 18 28 (advance g)) as (t & Ht & Htr); [lra |].
  rewrite (bind_run _ _ _ _ _ Ht).
  destruct (randint_range 30 70 (advance (advance g))) as (h & Hh & Hhr); [lia |].
  rewrite (bind_run _ _ _ _ _ Hh).
  destruct (randint_range 100 500 (advance (advance (advance g)))) as (l & Hl & Hlr); [lia |].
  rewrite (bind_run _ _ _ _ _ Hl).
  destruct (choice_elem "Sala 1" ["Sala 2"; "Oficina A"; "Oficina B"]
              (advance (advance (advance (advance g))))) as (loc & Hloc & Hlocin).
  rewrite (bind_run _ _ _ _ _ Hloc).
  eexists; eexists; split; [reflexivity |].
  split; [reflexivity |].
  split; [exists h; split; [reflexivity | exact Hhr] |].
  split; [reflexivity |].
  split.
  { exists (round t 1). split; [reflexivity |].
    destruct (round_between 180 280 t 1) as (k & Hk & Hkr).
    - simpl. lra.
    - rewrite Hk. split; [| now exists k].
      destruct Hkr as [Hk1 Hk2]. apply IZR_le in Hk1, Hk2. simpl. lra. }
  split; [exists l; split; [reflexivity | exact Hlr] |].
  split; [exists d; split; [reflexivity | exact Hdin] |].
  exists loc; split; [reflexivity | exact Hlocin].
Qed.

(** C5.  A reading of [generate_exterior_reading] called without a
    device id: the call returns; unit is "F"; uv_index lies in [0, 11]
    and is a whole number of tenths; there is no humidity; temperature is
    [round(c * 9 / 5 + 32, 1)] for a drawn [c] in [5, 35], and its Celsius
    equivalent [(f - 32) / 1.8] lies in [5, 35], within 1/36 of [c]; light
    is an integer in [200, 1000]; device_id comes from the exterior
    pool. *)
Theorem generate_exterior_reading_fields (clk : DateTime.clock) (g : rng) :
  exists (reading : gmap string value) (g' : rng),
    generate_exterior_reading __init__ clk None g = Return (reading, g') /\
    reading !! "unit" = Some (VStr "F") /\
    (exists uv : R, reading !! "uv_index" = Some (VNum uv) /\
       (0 <= uv <= 11)%R /\ exists k : Z, uv = (IZR k / 10 ^ 1)%R) /\
    reading !! "humidity" = None /\
    (exists c f : R, reading !! "temperature" = Some (VNum f) /\
       (5 <= c <= 35)%R /\ f = round (c * 9 / 5 + 32) 1 /\
       (5 <= (f - 32) / 1.8 <= 35)%R /\
       (Rabs ((f - 32) / 1.8 - c) <= 1 / 36)%R) /\
    (exists l : Z, reading !! "light" = Some (VNum (IZR l)) /\ (200 <= l <= 1000)%Z) /\
    (exists d : string, reading !! "device_id" = Some (VStr d) /\
       d ∈ ["sensor_02"; "sensor_04"; "sensor_06"]).
Proof.
  unfold generate_exterior_reading. cbn [exterior_sensors exterior_temp_range
    exterior_light_range uv_index_range exterior_locations __init__ fst snd].
  destruct (choice_elem "sensor_02" ["sensor_04"; "sensor_06"] g) as (d & Hd & Hdin).
  rewrite (bind_run _ _ _ _ _ Hd).
  destruct (uniform_range 5 35 (advance g)) as (c & Hc & Hcr); [lra |].
  rewrite (bind_run _ _ _ _ _ Hc).
  destruct (randint_range 200 1000 (advance (advance g))) as (l & Hl & Hlr); [lia |].
  rewrite (bind_run _ _ _ _ _ Hl).
  destruct (uniform_range 0 11 (advance (advance (advance g)))) as (u & Hu & Hur); [lra |].
  rewrite (bind_run _ _ _ _ _ Hu).
  destruct (choice_elem "Patio" ["Jardín"; "Terraza"; "Entrada"]
              (advance (advance (advance (advance g))))) as (loc & Hloc & Hlocin).
  rewrite (bind_run _ _ _ _ _ Hloc).
  eexists; eexists; split; [reflexivity |].
  split; [reflexivity |].
  split.
  { exists (round u 1). split; [reflexivity |].
    destruct (round_between 0 110 u 1) as (k & Hk & Hkr).
    - simpl. lra.
    - rewrite Hk. split; [| now exists k].
      destruct Hkr as [Hk1 Hk2]. apply IZR_le in Hk1, Hk2. simpl. lra. }
  split; [reflexivity |].
  split.
  { exists c, (_celsius_to_fahrenheit c). split; [reflexivity |].
    split; [exact Hcr |]. split; [reflexivity |].
    unfold _celsius_to_fahrenheit. split.
    - destruct (round_between 410 950 (c * 9 / 5 + 32) 1) as (k & Hk & Hkr).
      + simpl. lra.
      + rewrite Hk. destruct Hkr as [Hk1 Hk2]. apply IZR_le in Hk1, Hk2.
        simpl. lra.
    - destruct (round_decimal (c * 9 / 5 + 32) 1) as (k & _ & Hk).
      simpl in Hk. apply Rabs_le_bounds in Hk. apply Rabs_le. lra. }
  split; [exists l; split; [reflexivity | exact Hlr] |].
  exists d; split; [reflexivity | exact Hdin].
Qed.

(** C10.  A device id passed to either generator is stored as it is,
    for every string, in the pool or not: "sensor_99" is in neither pool
    and is stored all the same. *)
Theorem device_id_argument_verbatim (clk : DateTime.clock) (g : rng) (d : string) :
  (exists (reading : gmap string value) (g' : rng),
     generate_interior_reading __init__ clk (Some d) g = Return (reading, g') /\
     reading !! "device_id" = Some (VStr d)) /\
  (exists (reading : gmap string value) (g' : rng),
     generate_exterior_reading __init__ clk (Some d) g = Return (reading, g') /\
     reading !! "device_id" = Some (VStr d)) /\
  (exists (reading : gmap string value) (g' : rng),
     generate_interior_reading __init__ clk (Some "sensor_99") g
       = Return (reading, g') /\
     reading !! "device_id" = Some (VStr "sensor_99") /\
     "sensor_99" ∉ interior_sensors __init__) /\
  (exists (reading : gmap string value) (g' : rng),
     generate_exterior_reading __init__ clk (Some "sensor_99") g
       = Return (reading, g') /\
     reading !! "device_id" = Some (VStr "sensor_99") /\
     "sensor_99" ∉ exterior_sensors __init__).
Proof.
  assert (Hi : forall d0 : string,
    exists (reading : gmap string value) (g' : rng),
      generate_interior_reading __init__ clk (Some d0) g = Return (reading, g') /\
      reading !! "device_id" = Some (VStr d0)).
  { intros d0. unfold generate_interior_reading.
    cbn [interior_temp_range interior_humidity_range interior_light_range
         interior_locations __init__ fst snd].
    rewrite (bind_run (mret d0) _ g g d0 eq_refl).
    destruct (uniform_range 18 28 g) as (t & Ht & _); [lra |].
    rewrite (bind_run _ _ _ _ _ Ht).
    destruct (randint_range 30 70 (advance g)) as (h & Hh & _); [lia |].
    rewrite (bind_run _ _ _ _ _ Hh).
    destruct (randint_range 100 500 (advance (advance g))) as (l & Hl & _); [lia |].
    rewrite (bind_run _ _ _ _ _ Hl).
    destruct (choice_elem "Sala 1" ["Sala 2"; "Oficina A"; "Oficina B"]
                (advance (advance (advance g)))) as (loc & Hloc & _).
    rewrite (bind_run _ _ _ _ _ Hloc).
    eexists; eexists; split; reflexivity. }
  assert (He : forall d0 : string,
    exists (reading : gmap string value) (g' : rng),
      generate_exterior_reading __init__ clk (Some d0) g = Return (reading, g') /\
      reading !! "device_id" = Some (VStr d0)).
  { intros d0. unfold generate_exterior_reading.
    cbn [exterior_temp_range exterior_light_range uv_index_range
         exterior_locations __init__ fst snd].
    rewrite (bind_run (mret d0) _ g g d0 eq_refl).
    destruct (uniform_range 5 35 g) as (c & Hc & _); [lra |].
    rewrite (bind_run _ _ _ _ _ Hc).
    destruct (randint_range 200 1000 (advance g)) as (l & Hl & _); [lia |].
    rewrite (bind_run _ _ _ _ _ Hl).
    destruct (uniform_range 0 11 (advance (advance g))) as (u & Hu & _); [lra |].
    rewrite (bind_run _ _ _ _ _ Hu).
    destruct (choice_elem "Patio" ["Jardín"; "Terraza"; "Entrada"]
                (advance (advance (advance g)))) as (loc & Hloc & _).
    rewrite (bind_run _ _ _ _ _ Hloc).
    eexists; eexists; split; reflexivity. }
  split; [apply Hi |]. split; [apply He |]. split.
  - destruct (Hi "sensor_99") as (r & g' & H1 & H2).
    exists r, g'. repeat split; try assumption.
    cbn. rewrite !not_elem_of_cons. repeat split; try discriminate.
    apply not_elem_of_nil.
  - destruct (He "sensor_99") as (r & g' & H1 & H2).
    exists r, g'. repeat split; try assumption.
    cbn. rewrite !not_elem_of_cons. repeat split; try discriminate.
    apply not_elem_of_nil.
Qed.

(** One run, on the tape of zeros at noon. *)
Example generate_interior_reading_zero_tape :
  exists (reading : gmap string value) (g' : rng),
    generate_interior_reading __init__ clock_utc None zero_tape
      = Return (reading, g')
    /\ pos g' = 5
    /\ reading !! "device_id" = Some (VStr "sensor_01")
    /\ reading !! "type" = Some (VStr "interior")
    /\ reading !! "temperature" = Some (VNum 18)
    /\ reading !! "humidity" = Some (VNum 30)
    /\ reading !! "light" = Some (VNum 100)
    /\ reading !! "unit" = Some (VStr "C")
    /\ reading !! "location" = Some (VStr "Sala 1")
    /\ reading !! "timestamp" = Some (VStr "2024-05-02T12:00:00+00:00").
Proof.
  unfold generate_interior_reading.
  cbn [interior_sensors interior_temp_range interior_humidity_range
       interior_light_range interior_locations __init__ fst snd].
  assert (H1 : choice ["sensor_01"; "sensor_03"; "sensor_05"] zero_tape
               = Return ("sensor_01", advance zero_tape)) by reflexivity.
  assert (H2 : uniform 18 28 (advance zero_tape)
               = Return ((18 + (28 - 18) * (IZR (0 mod 2 ^ 53) / IZR (2 ^ 53)))%R,
                         advance (advance zero_tape))) by reflexivity.
  assert (H3 : randint 30 70 (advance (advance zero_tape))
               = Return (30%Z, advance (advance (advance zero_tape))))
    by reflexivity.
  assert (H4 : randint 100 500 (advance (advance (advance zero_tape)))
               = Return (100%Z, advance (advance (advance (advance zero_tape)))))
    by reflexivity.
  assert (H5 : choice ["Sala 1"; "Sala 2"; "Oficina A"; "Oficina B"]
                 (advance (advance (advance (advance zero_tape))))
               = Return ("Sala 1",
                         advance (advance (advance (advance (advance zero_tape))))))
    by reflexivity.
  rewrite (bind_run _ _ _ _ _ H1), (bind_run _ _ _ _ _ H2),
          (bind_run _ _ _ _ _ H3), (bind_run _ _ _ _ _ H4),
          (bind_run _ _ _ _ _ H5).
  eexists _, _. split; [reflexivity |].
  split; [reflexivity |]. split; [reflexivity |]. split; [reflexivity |].
  split.
  { change (Some (VNum (round (18 + (28 - 18) * (IZR (0 mod 2 ^ 53) / IZR (2 ^ 53))) 1))
            = Some (VNum 18)).
    do 2 f_equal. unfold round.
    rewrite (round_half_even_unique _ 180).
    - simpl. lra.
    - change (0 mod 2 ^ 53)%Z with 0%Z. simpl. unfold Rdiv. rewrite Rmult_0_l. lra. }
  split; [reflexivity |]. split; [reflexivity |]. split; [reflexivity |].
  split; [reflexivity |].
  change (Some (VStr (DateTime.isoformat (DateTime.now_utc clock_utc)))
          = Some (VStr "2024-05-02T12:00:00+00:00")).
  vm_compute. reflexivity.
Qed.

End SimulatorFacts.

(** ** Outcomes and traversals *)

Section OutcomeFacts.

Lemma bind_Return {A B} (m : outcome A) (k : A -> outcome B) (a : A) :
  m = Return a -> (x ← m; k x) = k a.
Proof. intros ->. reflexivity. Qed.

Lemma bind_Raise {A B} (m : outcome A) (k : A -> outcome B) (e : exn) :
  m = Raise e -> (x ← m; k x) = Raise e.
Proof. intros ->. reflexivity. Qed.

Lemma traverse_total {A B} (f : A -> outcome B) (g : A -> B) (l : list A) :
  (forall x, x ∈ l -> f x = Return (g x)) -> traverse f l = Return (map g l).
Proof.
  induction l as [| x l IH]; intros Hf; [reflexivity |].
  simpl. rewrite (bind_Return _ _ (g x)) by (apply Hf; left).
  rewrite (bind_Return _ _ (map g l)); [reflexivity |].
  apply IH. intros y Hy. apply Hf. now right.
Qed.

Lemma traverse_length {A B} (f : A -> outcome B) (l : list A) (l' : list B) :
  traverse f l = Return l' -> length l' = length l.
Proof.
  revert l'. induction l as [| x l IH]; intros l' H; simpl in H.
  - now inversion H.
  - destruct (f x) as [y |]; [| discriminate]. simpl in H.
    destruct (traverse f l) as [ys |]; [| discriminate]. simpl in H.
    inversion H. simpl. f_equal. now apply IH.
Qed.

Lemma traverse_to_num_VNum (xs : list R) :
  traverse to_num (map VNum xs) = Return xs.
Proof.
  rewrite (traverse_total to_num (fun v => match v with VNum x => x | _ => 0%R end)).
  - rewrite map_map. now rewrite map_id.
  - intros v Hv. apply list_elem_of_In, in_map_iff in Hv as (x & <- & _).
    reflexivity.
Qed.

Lemma traverse_to_num_inv (vs : list value) (xs : list R) :
  traverse to_num vs = Return xs -> vs = map VNum xs.
Proof.
  revert xs. induction vs as [| v vs IH]; intros xs H; simpl in H.
  - now inversion H.
  - destruct v as [| x | s]; try discriminate. simpl in H.
    destruct (traverse to_num vs) as [ys |]; [| discriminate]. simpl in H.
    inversion H. simpl. f_equal. now apply IH.
Qed.

End OutcomeFacts.

(** ** Python's sort *)

Section SortFacts.

Context {A : Type} (key : A -> R).

Local Abbreviation key_ge := (Vocabulary.key_ge key).

Lemma insert_desc_perm (x : A) (l : list A) :
  Permutation (insert_desc key x l) (x :: l).
Proof.
  induction l as [| y l IH]; simpl; [reflexivity |].
  destruct (Rlt_dec _ _); [| reflexivity].
  rewrite IH. apply perm_swap.
Qed.

Lemma sort_reverse_perm (l : list A) : Permutation (sort_reverse key l) l.
Proof.
  induction l as [| x l IH]; simpl; [reflexivity |].
  unfold sort_reverse in *. simpl. rewrite insert_desc_perm. now constructor.
Qed.

Lemma insert_desc_sorted (x : A) (l : list A) :
  Sorted key_ge l -> Sorted key_ge (insert_desc key x l).
Proof.
  induction l as [| y l IH]; intros Hs; simpl.
  - repeat constructor.
  - destruct (Rlt_dec (key x) (key y)) as [Hlt | Hge].
    + inversion Hs as [| ? ? Hs' Hhd]; subst.
      constructor; [now apply IH |].
      destruct l as [| z l]; simpl.
      * constructor. unfold key_ge. lra.
      * destruct (Rlt_dec (key x) (key z)).
        -- inversion Hhd; subst. now constructor.
        -- constructor. unfold key_ge. lra.
    + constructor; [exact Hs |]. constructor. unfold key_ge. lra.
Qed.

Lemma sort_reverse_sorted (l : list A) : Sorted key_ge (sort_reverse key l).
Proof.
  induction l as [| x l IH]; [constructor |].
  unfold sort_reverse in *. simpl. now apply insert_desc_sorted.
Qed.

End SortFacts.

(** ** detect_outliers *)

Section NormalizedFacts.

Import Mongo Analysis.

(** A Fahrenheit temperature is converted, anything else is kept. *)
Lemma normalized_fahrenheit (reading : document) (f : R) :
  dict_get reading "unit" = VStr "F" ->
  normalized "temperature" reading (VNum f) = Return (VNum ((f - 32) / 1.8)%R).
Proof.
  intros Hu. unfold normalized. rewrite Hu.
  now rewrite !bool_decide_eq_true_2.
Qed.

Lemma normalized_unchanged (field : string) (reading : document) (raw : value) :
  field <> "temperature" \/ dict_get reading "unit" <> VStr "F" ->
  normalized field reading raw = Return raw.
Proof.
  intros H. unfold normalized.
  destruct H as [H | H]; rewrite (bool_decide_eq_false_2 _ H);
    [reflexivity | now rewrite andb_false_r].
Qed.

End NormalizedFacts.

Section OutlierFacts.

Import Mongo Analysis.

Lemma projection_lookup (fields : list string) (d : document) (k : string) :
  k ∈ "_id" :: fields -> projection fields d !! k = d !! k.
Proof.
  intros Hk. unfold projection. rewrite map_lookup_filter.
  destruct (d !! k) as [v |]; [| reflexivity]. simpl.
  rewrite option_guard_True; done.
Qed.

Lemma statistics_mean_numbers (values : list value) (xs : list R) :
  traverse to_num values = Return xs -> xs <> [] ->
  statistics_mean values = Return (mean xs).
Proof.
  intros H Hne. unfold statistics_mean. rewrite (bind_Return _ _ _ H).
  destruct xs; [contradiction | reflexivity].
Qed.

Lemma statistics_stdev_numbers (values : list value) (xs : list R) :
  traverse to_num values = Return xs -> (2 <= length xs)%nat ->
  statistics_stdev values = Return (stdev xs).
Proof.
  intros H Hlen. unfold statistics_stdev. rewrite (bind_Return _ _ _ H).
  destruct (Nat.ltb_spec (length xs) 2); [lia | reflexivity].
Qed.

Lemma outlier_doc_stats (field : string) (reading : document) (raw : value)
    (x z m s : R) :
  outlier_doc field reading raw x z m s !! "z_score" = Some (VNum (round z 3)) /\
  outlier_doc field reading raw x z m s !! "mean" = Some (VNum (round m 2)) /\
  outlier_doc field reading raw x z m s !! "std_dev" = Some (VNum (round s 2)).
Proof.
  unfold outlier_doc, dict_literal. simpl.
  repeat split.
  - rewrite !(lookup_insert_ne _ _ "z_score") by done. apply lookup_insert_eq.
  - rewrite !(lookup_insert_ne _ _ "mean") by done. apply lookup_insert_eq.
  - apply lookup_insert_eq.
Qed.

Lemma outlier_doc_value_celsius (field : string) (reading : document)
    (raw : value) (x z m s : R) :
  field <> "temperature" ->
  outlier_doc field reading raw x z m s !! "value_celsius" = Some (VNum x).
Proof.
  intros Hf. unfold outlier_doc, dict_literal. simpl.
  rewrite !(lookup_insert_ne _ _ "value_celsius") by done.
  rewrite lookup_insert_eq. now rewrite bool_decide_eq_false_2.
Qed.

Lemma outlier_doc_temperature (reading : document) (raw : value) (x z m s : R) :
  outlier_doc "temperature" reading raw x z m s !! "temperature" = Some raw /\
  outlier_doc "temperature" reading raw x z m s !! "unit"
    = Some (dict_get reading "unit").
Proof.
  unfold outlier_doc, dict_literal. simpl. split.
  - rewrite !(lookup_insert_ne _ _ "temperature") by done. apply lookup_insert_eq.
  - rewrite !(lookup_insert_ne _ _ "unit") by done. apply lookup_insert_eq.
Qed.

Lemma collect_outliers_spec (field : string) (t m s : R)
    (readings : list document) (values : list value) (xs : list R) :
  s <> 0%R ->
  collect_values field readings = Return values ->
  traverse to_num values = Return xs ->
  exists outliers : list document,
    collect_outliers field t m s readings = Return outliers /\
    forall o : document,
      o ∈ outliers <->
      exists (reading : document) (raw : value) (x : R),
        reading ∈ readings /\ reading !! field = Some raw /\
        normalized field reading raw = Return (VNum x) /\
        (t < Rabs ((x - m) / s))%R /\
        o = outlier_doc field reading raw x (Rabs ((x - m) / s)) m s.
Proof.
  intros Hs. revert values xs.
  induction readings as [| reading rest IH]; intros values xs Hv Hx.
  - exists []. split; [reflexivity |]. intros o. split.
    + intros H. inversion H.
    + intros (r & raw & x & H & _). inversion H.
  - simpl in Hv |- *.
    destruct (reading !! field) as [raw |] eqn:Hraw.
    + destruct (normalized field reading raw) as [v |] eqn:Hn; [| discriminate].
      simpl in Hv.
      destruct (collect_values field rest) as [vs |] eqn:Hvs; [| discriminate].
      simpl in Hv. injection Hv as <-. simpl in Hx.
      destruct v as [| x | str]; try discriminate. simpl in Hx.
      destruct (traverse to_num vs) as [xs' |] eqn:Hxs'; [| discriminate].
      destruct (IH vs xs' eq_refl Hxs') as (outs & Houts & Hspec).
      simpl. unfold truediv. destruct (Req_dec_T s 0) as [| _]; [contradiction |].
      simpl. rewrite Houts. simpl.
      destruct (Rlt_dec t (Rabs ((x - m) / s))) as [Hlt | Hnlt].
      * eexists. split; [reflexivity |]. intros o. rewrite elem_of_cons, Hspec.
        split.
        -- intros [-> | (r & raw' & x' & Hin & H)].
           ++ exists reading, raw, x. rewrite elem_of_cons. auto 10.
           ++ exists r, raw', x'. rewrite elem_of_cons. auto 10.
        -- intros (r & raw' & x' & Hin & Hr & Hn' & Hlt' & ->).
           apply elem_of_cons in Hin as [-> | Hin].
           ++ left. rewrite Hraw in Hr. injection Hr as <-.
              rewrite Hn in Hn'. injection Hn' as <-. reflexivity.
           ++ right. exists r, raw', x'. auto 10.
      * exists outs. split; [reflexivity |]. intros o. rewrite Hspec. split.
        -- intros (r & raw' & x' & Hin & H). exists r, raw', x'.
           rewrite elem_of_cons. auto 10.
        -- intros (r & raw' & x' & Hin & Hr & Hn' & Hlt' & ->).
           apply elem_of_cons in Hin as [-> | Hin].
           ++ rewrite Hraw in Hr. injection Hr as <-.
              rewrite Hn in Hn'. injection Hn' as <-. contradiction.
           ++ exists r, raw', x'. auto 10.
    + destruct (IH values xs Hv Hx) as (outs & Houts & Hspec).
      exists outs. split; [exact Houts |]. intros o. rewrite Hspec. split.
      * intros (r & raw' & x' & Hin & H). exists r, raw', x'.
        rewrite elem_of_cons. auto 10.
      * intros (r & raw' & x' & Hin & Hr & H).
        apply elem_of_cons in Hin as [-> | Hin]; [congruence |].
        exists r, raw', x'. auto 10.
Qed.

Lemma Sorted_map_snd {A} (g : A -> R) (l : list (R * A)) :
  Sorted (key_ge fst) l -> Forall (fun p => p.1 = g p.2) l ->
  Sorted (key_ge g) (map snd l).
Proof.
  induction 1 as [| p l Hs IH Hhd]; intros Hall; simpl; [constructor |].
  inversion Hall as [| ? ? Hp Hl]; subst.
  constructor; [now apply IH |].
  destruct Hhd as [| q l Hpq]; simpl; constructor.
  inversion Hl; subst. unfold key_ge in *. simpl in *. congruence.
Qed.

Lemma Sorted_weaken {A} (P : A -> Prop) (R1 R2 : A -> A -> Prop) (l : list A) :
  (forall a b, P a -> P b -> R1 a b -> R2 a b) ->
  Forall P l -> Sorted R1 l -> Sorted R2 l.
Proof.
  intros Himp Hall Hs. induction Hs as [| a l Hs IH Hhd]; [constructor |].
  inversion Hall; subst. constructor; [now apply IH |].
  destruct Hhd as [| b l Hab]; constructor.
  inversion H2; subst. now apply Himp.
Qed.

Lemma list_sort_key_reverse_spec {A} (key : A -> outcome R) (g : A -> R)
    (l : list A) :
  (forall x, x ∈ l -> key x = Return (g x)) ->
  exists l' : list A,
    list_sort_key_reverse key l = Return l' /\ Permutation l' l /\
    Sorted (key_ge g) l'.
Proof.
  intros Hkey. unfold list_sort_key_reverse.
  rewrite (bind_Return _ _ (map (fun x => (g x, x)) l)).
  - eexists. split; [reflexivity |]. split.
    + rewrite (sort_reverse_perm fst), map_map. simpl. now rewrite map_id.
    + apply Sorted_map_snd; [apply sort_reverse_sorted |].
      eapply Permutation_Forall; [symmetry; apply sort_reverse_perm |].
      apply Forall_forall. intros p Hp.
      apply list_elem_of_In, in_map_iff in Hp as (x & <- & _). reflexivity.
  - apply traverse_total. intros x Hx. now rewrite (Hkey x Hx).
Qed.

Lemma stdev_nonneg (xs : list R) : (0 <= stdev xs)%R.
Proof. apply sqrt_pos. Qed.

Lemma Rabs_div_pos (a s : R) : (0 < s)%R -> Rabs (a / s) = (Rabs a / s)%R.
Proof.
  intros Hs. unfold Rdiv. rewrite Rabs_mult, (Rabs_pos_eq (/ s)); [reflexivity |].
  left. now apply Rinv_0_lt_compat.
Qed.

(** What the [try] block computes on numeric readings with dispersion. *)
Lemma detect_outliers_try_run (c : Collection) (field : string)
    (z_threshold : R) (all_readings : list document) (values : list value)
    (xs : list R) :
  find c [field; "device_id"; "type"; "timestamp"; "unit"] = Return all_readings ->
  collect_values field all_readings = Return values ->
  traverse to_num values = Return xs ->
  (2 <= length xs)%nat ->
  stdev xs <> 0%R ->
  exists outliers : list document,
    detect_outliers_try c field z_threshold = Return outliers /\
    (forall o : document,
       o ∈ outliers <->
       exists (reading : document) (raw : value) (x : R),
         reading ∈ all_readings /\ reading !! field = Some raw /\
         normalized field reading raw = Return (VNum x) /\
         (z_threshold < Rabs (x - mean xs) / stdev xs)%R /\
         o = outlier_doc field reading raw x (Rabs (x - mean xs) / stdev xs)
               (mean xs) (stdev xs)) /\
    Sorted z_score_ge outliers.
Proof.
  intros Hfind Hvals Hnum Hlen Hsd.
  assert (Hpos : (0 < stdev xs)%R) by (pose proof (stdev_nonneg xs); lra).
  assert (Hz : forall x, Rabs ((x - mean xs) / stdev xs)
                         = (Rabs (x - mean xs) / stdev xs)%R)
    by (intros x; now apply Rabs_div_pos).
  pose proof (traverse_length _ _ _ Hnum) as Hlen'.
  destruct (collect_outliers_spec field z_threshold (mean xs) (stdev xs)
              all_readings values xs Hsd Hvals Hnum) as (outs & Houts & Hspec).
  assert (Hspec' : forall o : document,
       o ∈ outs <->
       exists (reading : document) (raw : value) (x : R),
         reading ∈ all_readings /\ reading !! field = Some raw /\
         normalized field reading raw = Return (VNum x) /\
         (z_threshold < Rabs (x - mean xs) / stdev xs)%R /\
         o = outlier_doc field reading raw x (Rabs (x - mean xs) / stdev xs)
               (mean xs) (stdev xs)).
  { intros o. rewrite Hspec. split;
      intros (r & raw & x & H); exists r, raw, x;
      [rewrite <- Hz | rewrite Hz]; exact H. }
  clear Hspec.
  set (g := fun o : document =>
              match o !! "z_score" with Some (VNum z) => z | _ => 0%R end).
  assert (Hkey : forall o, o ∈ outs ->
            (z ← getitem o "z_score"; to_num z) = Return (g o)).
  { intros o Ho. apply Hspec' in Ho as (r & raw & x & _ & _ & _ & _ & ->).
    destruct (outlier_doc_stats field r raw x (Rabs (x - mean xs) / stdev xs)
                (mean xs) (stdev xs)) as (Hzs & _ & _).
    unfold g, getitem. now rewrite Hzs. }
  destruct (list_sort_key_reverse_spec _ g outs Hkey) as (res & Hres & Hperm & Hsorted).
  exists res. split; [| split].
  - unfold detect_outliers_try. rewrite (bind_Return _ _ _ Hfind).
    destruct all_readings as [| r0 rest].
    { simpl in Hvals. injection Hvals as <-. simpl in Hnum.
      injection Hnum as <-. simpl in Hlen. lia. }
    rewrite (bind_Return _ _ _ Hvals).
    destruct (Nat.ltb_spec (length values) 2); [lia |].
    rewrite (bind_Return _ _ (mean xs))
      by (apply statistics_mean_numbers;
          [assumption | destruct xs; simpl in *; [lia | discriminate]]).
    destruct (Nat.ltb_spec 1 (length values)); [| lia].
    rewrite (bind_Return _ _ (stdev xs))
      by (now apply statistics_stdev_numbers).
    destruct (Req_dec_T (stdev xs) 0) as [| _]; [contradiction |].
    rewrite (bind_Return _ _ _ Houts). exact Hres.
  - intros o. now rewrite Hperm.
  - apply (Sorted_weaken (fun o => o ∈ outs) (key_ge g)); [| | exact Hsorted].
    + intros a b Ha Hb Hab.
      apply Hspec' in Ha as (ra & rawa & xa & _ & _ & _ & _ & ->).
      apply Hspec' in Hb as (rb & rawb & xb & _ & _ & _ & _ & ->).
      destruct (outlier_doc_stats field ra rawa xa (Rabs (xa - mean xs) / stdev xs)
                  (mean xs) (stdev xs)) as (Ha & _ & _).
      destruct (outlier_doc_stats field rb rawb xb (Rabs (xb - mean xs) / stdev xs)
                  (mean xs) (stdev xs)) as (Hb & _ & _).
      unfold key_ge, g in Hab. rewrite Ha, Hb in Hab.
      eexists _, _. eauto.
    + apply Forall_forall. intros o Ho. now rewrite <- Hperm.
Qed.

End OutlierFacts.

(** ** detect_outliers in floating point *)

Section RoundedOutlierFacts.

Import Mongo Analysis.

Variable fl : R -> R.

Local Abbreviation normalized_number := (Vocabulary.normalized_number fl).
Local Abbreviation normalized_numbers := (Vocabulary.normalized_numbers fl).
Local Abbreviation float_z_score := (Vocabulary.float_z_score fl).

Lemma unit_is_F (r : document) :
  bool_decide (dict_get r "unit" = VStr "F")
  = bool_decide (r !! "unit" = Some (VStr "F")).
Proof.
  apply bool_decide_ext. unfold dict_get.
  destruct (r !! "unit") as [v |]; simpl; split; congruence.
Qed.

(** The code's normalization is the conversion of the specification. *)
Lemma rounded_normalized_number (field : string) (r : document) (t : R) :
  r !! field = Some (VNum t) ->
  exists v : R,
    normalized_number field r = Some v
    /\ Rounded.normalized fl field r (VNum t) = Return (VNum v).
Proof.
  intros Hraw. unfold Vocabulary.normalized_number, Rounded.normalized.
  rewrite Hraw, unit_is_F. eexists. split; [reflexivity |].
  destruct (decide (field = "temperature")) as [Hf | Hf];
    destruct (decide (r !! "unit" = Some (VStr "F"))) as [Hu | Hu].
  - rewrite !bool_decide_eq_true_2 by auto. reflexivity.
  - rewrite (bool_decide_eq_false_2 (r !! "unit" = Some (VStr "F"))) by auto.
    rewrite (bool_decide_eq_false_2 (field = "temperature" /\ _))
      by (intros [? ?]; contradiction).
    rewrite andb_false_r. reflexivity.
  - rewrite (bool_decide_eq_false_2 (field = "temperature")) by auto.
    rewrite (bool_decide_eq_false_2 (field = "temperature" /\ _))
      by (intros [? ?]; contradiction).
    reflexivity.
  - rewrite (bool_decide_eq_false_2 (field = "temperature")) by auto.
    rewrite (bool_decide_eq_false_2 (field = "temperature" /\ _))
      by (intros [? ?]; contradiction).
    reflexivity.
Qed.

Lemma rounded_collect_values (field : string) (rs : list document) :
  Forall (numeric_field field) rs ->
  Rounded.collect_values fl field rs
  = Return (map VNum (normalized_numbers field rs)).
Proof.
  induction 1 as [| r rs Hr _ IH]; [reflexivity |].
  cbn [Rounded.collect_values]. unfold Vocabulary.normalized_numbers.
  cbn [omap list_omap].
  destruct (r !! field) as [raw |] eqn:Hraw.
  - destruct (Hr raw Hraw) as (t & ->).
    destruct (rounded_normalized_number field r t Hraw) as (v & Hv & Hn).
    rewrite Hv, (bind_Return _ _ _ Hn), (bind_Return _ _ _ IH). reflexivity.
  - unfold Vocabulary.normalized_number at 1. rewrite Hraw. exact IH.
Qed.

Lemma rounded_statistics_mean (xs : list R) :
  xs <> [] -> Rounded.statistics_mean fl (map VNum xs) = Return (fl (mean xs)).
Proof.
  intros Hne. unfold Rounded.statistics_mean.
  rewrite (bind_Return _ _ _ (traverse_to_num_VNum xs)).
  destruct xs; [contradiction | reflexivity].
Qed.

Lemma rounded_statistics_stdev (xs : list R) :
  (2 <= length xs)%nat ->
  Rounded.statistics_stdev fl (map VNum xs) = Return (fl (stdev xs)).
Proof.
  intros Hlen. unfold Rounded.statistics_stdev.
  rewrite (bind_Return _ _ _ (traverse_to_num_VNum xs)).
  destruct (Nat.ltb_spec (length xs) 2); [lia | reflexivity].
Qed.

Lemma rounded_outlier_doc_stats (field : string) (reading : document)
    (raw : value) (x z m s : R) :
  Rounded.outlier_doc fl field reading raw x z m s !! "z_score"
    = Some (VNum (fl (round z 3)))
  /\ Rounded.outlier_doc fl field reading raw x z m s !! "mean"
     = Some (VNum (fl (round m 2)))
  /\ Rounded.outlier_doc fl field reading raw x z m s !! "std_dev"
     = Some (VNum (fl (round s 2))).
Proof.
  unfold Rounded.outlier_doc, dict_literal. simpl.
  repeat split.
  - rewrite !(lookup_insert_ne _ _ "z_score") by done. apply lookup_insert_eq.
  - rewrite !(lookup_insert_ne _ _ "mean") by done. apply lookup_insert_eq.
  - apply lookup_insert_eq.
Qed.

Lemma rounded_outlier_doc_value_celsius (field : string) (reading : document)
    (raw : value) (x z m s : R) :
  field <> "temperature" ->
  Rounded.outlier_doc fl field reading raw x z m s !! "value_celsius"
  = Some (VNum x).
Proof.
  intros Hf. unfold Rounded.outlier_doc, dict_literal. simpl.
  rewrite !(lookup_insert_ne _ _ "value_celsius") by done.
  rewrite lookup_insert_eq. now rewrite bool_decide_eq_false_2.
Qed.

Lemma rounded_outlier_doc_temperature (reading : document) (raw : value)
    (x z m s : R) :
  Rounded.outlier_doc fl "temperature" reading raw x z m s !! "temperature"
    = Some raw
  /\ Rounded.outlier_doc fl "temperature" reading raw x z m s !! "unit"
     = Some (dict_get reading "unit").
Proof.
  unfold Rounded.outlier_doc, dict_literal. simpl. split.
  - rewrite !(lookup_insert_ne _ _ "temperature") by done. apply lookup_insert_eq.
  - rewrite !(lookup_insert_ne _ _ "unit") by done. apply lookup_insert_eq.
Qed.

(** The outlier record determines the normalized value of its reading. *)
Lemma rounded_outlier_doc_value_inj (field : string) (r r' : document)
    (raw raw' : value) (x x' z z' m s : R) :
  r !! field = Some raw -> r' !! field = Some raw' ->
  normalized_number field r = Some x ->
  normalized_number field r' = Some x' ->
  Rounded.outlier_doc fl field r raw x z m s
  = Rounded.outlier_doc fl field r' raw' x' z' m s ->
  x = x'.
Proof.
  intros Hraw Hraw' Hn Hn' Heq.
  destruct (decide (field = "temperature")) as [-> | Hf].
  - destruct (rounded_outlier_doc_temperature r raw x z m s) as [H1 H2].
    destruct (rounded_outlier_doc_temperature r' raw' x' z' m s) as [H1' H2'].
    rewrite Heq in H1, H2. rewrite H1 in H1'. rewrite H2 in H2'.
    injection H1' as ->. injection H2' as Hu.
    unfold Vocabulary.normalized_number in Hn, Hn'.
    rewrite Hraw in Hn. rewrite Hraw' in Hn'.
    destruct raw' as [| t |]; try discriminate.
    assert (Hb : bool_decide ("temperature" = "temperature"
                              /\ r !! "unit" = Some (VStr "F"))
                 = bool_decide ("temperature" = "temperature"
                                /\ r' !! "unit" = Some (VStr "F"))).
    { apply bool_decide_ext. unfold dict_get in Hu.
      destruct (r !! "unit") as [u |], (r' !! "unit") as [u' |];
        simpl in Hu; subst; split; intros [? ?]; split; congruence. }
    rewrite Hb in Hn. congruence.
  - pose proof (rounded_outlier_doc_value_celsius field r raw x z m s Hf) as H1.
    pose proof (rounded_outlier_doc_value_celsius field r' raw' x' z' m s Hf) as H1'.
    rewrite Heq in H1. congruence.
Qed.

Lemma rounded_collect_outliers (field : string) (t m s : R)
    (readings : list document) :
  s <> 0%R ->
  Forall (numeric_field field) readings ->
  exists outliers : list document,
    Rounded.collect_outliers fl field t m s readings = Return outliers /\
    forall o : document,
      o ∈ outliers <->
      exists (reading : document) (raw : value) (v : R),
        reading ∈ readings /\ reading !! field = Some raw /\
        normalized_number field reading = Some v /\
        (t < float_z_score v m s)%R /\
        o = Rounded.outlier_doc fl field reading raw v (float_z_score v m s) m s.
Proof.
  intros Hs. induction 1 as [| reading rest Hr _ IH].
  - exists []. split; [reflexivity |]. intros o. split.
    + intros H. inversion H.
    + intros (r & raw & x & H & _). inversion H.
  - destruct IH as (outs & Houts & Hspec).
    cbn [Rounded.collect_outliers].
    destruct (reading !! field) as [raw |] eqn:Hraw.
    + destruct (Hr raw Hraw) as (x & ->).
      destruct (rounded_normalized_number field reading x Hraw) as (v & Hv & Hn).
      rewrite (bind_Return _ _ _ Hn). cbn [to_num].
      rewrite (bind_Return (Return v) _ v eq_refl).
      unfold Rounded.truediv, Rounded.sub.
      destruct (Req_dec_T s 0) as [| _]; [contradiction |].
      rewrite (bind_Return (Return (fl (fl (v - m) / s))) _ _ eq_refl).
      rewrite (bind_Return _ _ _ Houts).
      fold (Vocabulary.float_z_score fl v m s).
      destruct (Rlt_dec t (float_z_score v m s)) as [Hlt | Hnlt].
      * eexists. split; [reflexivity |]. intros o. rewrite elem_of_cons, Hspec.
        split.
        -- intros [-> | (r & raw' & x' & Hin & H)].
           ++ exists reading, (VNum x), v. rewrite elem_of_cons. auto 10.
           ++ exists r, raw', x'. rewrite elem_of_cons. auto 10.
        -- intros (r & raw' & x' & Hin & Hr' & Hn' & Hlt' & ->).
           apply elem_of_cons in Hin as [-> | Hin].
           ++ left. rewrite Hraw in Hr'. injection Hr' as <-.
              rewrite Hv in Hn'. injection Hn' as <-. reflexivity.
           ++ right. exists r, raw', x'. auto 10.
      * exists outs. split; [reflexivity |]. intros o. rewrite Hspec. split.
        -- intros (r & raw' & x' & Hin & H). exists r, raw', x'.
           rewrite elem_of_cons. auto 10.
        -- intros (r & raw' & x' & Hin & Hr' & Hn' & Hlt' & ->).
           apply elem_of_cons in Hin as [-> | Hin].
           ++ rewrite Hv in Hn'. injection Hn' as <-. contradiction.
           ++ exists r, raw', x'. auto 10.
    + exists outs. split; [exact Houts |]. intros o. rewrite Hspec. split.
      * intros (r & raw' & x' & Hin & H). exists r, raw', x'.
        rewrite elem_of_cons. auto 10.
      * intros (r & raw' & x' & Hin & Hr' & H).
        apply elem_of_cons in Hin as [-> | Hin]; [congruence |].
        exists r, raw', x'. auto 10.
Qed.

(** C1.  Whatever the rounding [fl] of float arithmetic: on fetched
    readings that hold numbers under the field, with at least two
    normalized values (Fahrenheit temperatures converted to Celsius,
    anything else as stored) and a nonzero sample standard deviation,
    [detect_outliers] returns a list that contains the record of a
    reading exactly when [|(v - mean) / std_dev| > z_threshold] for its
    normalized value [v], the mean and the sample standard deviation of
    the normalized values, and the difference and the quotient of float
    arithmetic; every record carries the z-score rounded to 3 decimals
    and the mean and standard deviation rounded to 2; the list is in
    descending order of the attached z_score. *)
Theorem detect_outliers_flags_by_z_score (c : Collection) (field : string)
    (z_threshold : R) (all_readings : list document) :
  let xs := normalized_numbers field all_readings in
  let m := fl (mean xs) in
  let s := fl (stdev xs) in
  find c [field; "device_id"; "type"; "timestamp"; "unit"] = Return all_readings ->
  Forall (numeric_field field) all_readings ->
  (2 <= length xs)%nat ->
  s <> 0%R ->
  exists outliers : list document,
    Rounded.detect_outliers fl (mk_AdvancedAnalysis (Some c)) field z_threshold
      = Return outliers /\
    (forall (reading : document) (raw : value) (v : R),
       reading ∈ all_readings -> reading !! field = Some raw ->
       normalized_number field reading = Some v ->
       (z_threshold < float_z_score v m s)%R <->
       Rounded.outlier_doc fl field reading raw v (float_z_score v m s) m s
         ∈ outliers) /\
    (forall o : document, o ∈ outliers ->
       exists (reading : document) (raw : value) (v : R),
         reading ∈ all_readings /\ reading !! field = Some raw /\
         normalized_number field reading = Some v /\
         (z_threshold < float_z_score v m s)%R /\
         o = Rounded.outlier_doc fl field reading raw v (float_z_score v m s)
               m s /\
         o !! "z_score" = Some (VNum (fl (round (float_z_score v m s) 3))) /\
         o !! "mean" = Some (VNum (fl (round m 2))) /\
         o !! "std_dev" = Some (VNum (fl (round s 2)))) /\
    Sorted z_score_ge outliers.
Proof.
  intros xs m s Hfind Hnum Hlen Hsd.
  pose proof (rounded_collect_values field all_readings Hnum) as Hvals.
  fold xs in Hvals.
  destruct (rounded_collect_outliers field z_threshold m s all_readings Hsd Hnum)
    as (outs & Houts & Hspec).
  set (g := fun o : document =>
              match o !! "z_score" with Some (VNum z) => z | _ => 0%R end).
  assert (Hkey : forall o, o ∈ outs ->
            (z ← getitem o "z_score"; to_num z) = Return (g o)).
  { intros o Ho. apply Hspec in Ho as (r & raw & x & _ & _ & _ & _ & ->).
    destruct (rounded_outlier_doc_stats field r raw x (float_z_score x m s) m s)
      as (Hzs & _ & _).
    unfold g, getitem. now rewrite Hzs. }
  destruct (list_sort_key_reverse_spec _ g outs Hkey)
    as (res & Hres & Hperm & Hsorted).
  assert (Hrun : Rounded.detect_outliers_try fl c field z_threshold = Return res).
  { unfold Rounded.detect_outliers_try. rewrite (bind_Return _ _ _ Hfind).
    destruct all_readings as [| r0 rest]; [simpl in Hlen; lia |].
    rewrite (bind_Return _ _ _ Hvals). rewrite length_map.
    destruct (Nat.ltb_spec (length xs) 2); [lia |].
    rewrite (bind_Return _ _ m)
      by (apply rounded_statistics_mean; intros Hnil; rewrite Hnil in Hlen;
          simpl in Hlen; lia).
    destruct (Nat.ltb_spec 1 (length xs)); [| lia].
    rewrite (bind_Return _ _ s) by (now apply rounded_statistics_stdev).
    destruct (Req_dec_T s 0) as [| _]; [contradiction |].
    rewrite (bind_Return _ _ _ Houts). exact Hres. }
  exists res. split; [| split; [| split]].
  - unfold Rounded.detect_outliers. cbn [collection]. now rewrite Hrun.
  - intros reading raw v Hin Hraw Hn. rewrite Hperm, Hspec. split.
    + intros Hlt. exists reading, raw, v. auto 10.
    + intros (r' & raw' & v' & _ & Hraw' & Hn' & Hlt & Heq).
      now rewrite (rounded_outlier_doc_value_inj _ _ _ _ _ _ _ _ _ _ _
                     Hraw Hraw' Hn Hn' Heq).
  - intros o Ho. rewrite Hperm in Ho.
    apply Hspec in Ho as (r & raw & v & Hin & Hraw & Hn & Hlt & ->).
    exists r, raw, v.
    destruct (rounded_outlier_doc_stats field r raw v (float_z_score v m s) m s)
      as (H1 & H2 & H3).
    auto 12.
  - apply (Sorted_weaken (fun o => o ∈ outs) (key_ge g)); [| | exact Hsorted].
    + intros a b Ha Hb Hab.
      apply Hspec in Ha as (ra & rawa & xa & _ & _ & _ & _ & ->).
      apply Hspec in Hb as (rb & rawb & xb & _ & _ & _ & _ & ->).
      destruct (rounded_outlier_doc_stats field ra rawa xa
                  (float_z_score xa m s) m s) as (Ha & _ & _).
      destruct (rounded_outlier_doc_stats field rb rawb xb
                  (float_z_score xb m s) m s) as (Hb & _ & _).
      unfold key_ge, g in Hab. rewrite Ha, Hb in Hab.
      eexists _, _. eauto.
    + apply Forall_forall. intros o Ho. now rewrite <- Hperm.
Qed.

End RoundedOutlierFacts.

Section RoundedExact.

Import Mongo Analysis.

(** Without rounding, the definitions of [Rounded] are those of
    [Analysis]. *)
Lemma rounded_detect_outliers_exact (self : AdvancedAnalysis) (field : string)
    (t : R) :
  Rounded.detect_outliers (fun x => x) self field t = detect_outliers self field t.
Proof. reflexivity. Qed.

End RoundedExact.

Section DegenerateFacts.

Import Mongo Analysis.

Lemma fsum_repeat (x : R) (n : nat) : fsum (repeat x n) = (INR n * x)%R.
Proof.
  induction n as [| n IH]; [simpl; lra |].
  change (repeat x (S n)) with (x :: repeat x n).
  unfold fsum in *. simpl fold_right. rewrite IH, S_INR. lra.
Qed.

Lemma fsum_zero (xs : list R) : Forall (fun x => x = 0%R) xs -> fsum xs = 0%R.
Proof.
  induction 1 as [| x xs Hx _ IH]; [reflexivity |].
  unfold fsum in *. simpl. rewrite IH, Hx. lra.
Qed.

Lemma mean_repeat (x : R) (n : nat) : n <> 0%nat -> mean (repeat x n) = x.
Proof.
  intros Hn. unfold mean. rewrite fsum_repeat, repeat_length.
  field. now apply not_0_INR.
Qed.

(** A constant vector has no dispersion. *)
Lemma stdev_repeat (x : R) (n : nat) : stdev (repeat x n) = 0%R.
Proof.
  unfold stdev, variance.
  assert (H : sum_sq_dev (repeat x n) = 0%R).
  { unfold sum_sq_dev. apply fsum_zero, Forall_forall. intros y Hy.
    apply list_elem_of_In, in_map_iff in Hy as (z & <- & Hz).
    destruct n as [| n]; [inversion Hz |].
    apply repeat_spec in Hz. subst z.
    rewrite mean_repeat by discriminate. lra. }
  rewrite H. unfold Rdiv. rewrite Rmult_0_l. apply sqrt_0.
Qed.

(** C2.  With fewer than two normalized values, or with a sample
    standard deviation of exactly 0, in particular on a constant vector,
    the [try] block of [detect_outliers] itself returns the empty list,
    for every threshold: no exception is raised on the way, so no
    division by zero is attempted, and [detect_outliers] returns the
    empty list. *)
Theorem detect_outliers_degenerate_empty (c : Collection) (field : string)
    (z_threshold : R) (all_readings : list document) (values : list value) :
  find c [field; "device_id"; "type"; "timestamp"; "unit"] = Return all_readings ->
  collect_values field all_readings = Return values ->
  (length values < 2)%nat
  \/ (exists xs : list R, traverse to_num values = Return xs /\ stdev xs = 0%R)
  \/ (exists (x : R) (n : nat), values = repeat (VNum x) n) ->
  detect_outliers_try c field z_threshold = Return [] /\
  detect_outliers (mk_AdvancedAnalysis (Some c)) field z_threshold = Return [].
Proof.
  intros Hfind Hvals Hcase.
  assert (Htry : detect_outliers_try c field z_threshold = Return []).
  { unfold detect_outliers_try. rewrite (bind_Return _ _ _ Hfind).
    destruct all_readings as [| r0 rest]; [reflexivity |].
    rewrite (bind_Return _ _ _ Hvals).
    destruct (Nat.ltb_spec (length values) 2) as [| Hlen]; [reflexivity |].
    assert (Hzero : exists xs : list R,
              traverse to_num values = Return xs /\ stdev xs = 0%R).
    { destruct Hcase as [Hlt | [Hex | (x & n & ->)]]; [lia | exact Hex |].
      exists (repeat x n). split; [| apply stdev_repeat].
      rewrite <- traverse_to_num_VNum. f_equal. symmetry. apply map_repeat. }
    destruct Hzero as (xs & Hnum & Hsd).
    pose proof (traverse_length _ _ _ Hnum) as Hlen'.
    rewrite (bind_Return _ _ (mean xs))
      by (apply statistics_mean_numbers;
          [assumption | destruct xs; simpl in *; [lia | discriminate]]).
    destruct (Nat.ltb_spec 1 (length values)); [| lia].
    rewrite (bind_Return _ _ (stdev xs))
      by (apply statistics_stdev_numbers; [assumption | lia]).
    destruct (Req_dec_T (stdev xs) 0) as [| Hne]; [reflexivity | contradiction]. }
  split; [exact Htry |].
  unfold detect_outliers. cbn [collection]. now rewrite Htry.
Qed.

End DegenerateFacts.

(** ** Two fixed vectors *)

Section FixedVectors.

Import Mongo Analysis.

Lemma fetched_values (xs : list R) :
  collect_values "temperature" (fetched xs) = Return (map VNum xs).
Proof.
  induction xs as [| x xs IH]; [reflexivity |].
  unfold fetched in *. simpl map. simpl collect_values.
  rewrite projection_lookup by (rewrite !elem_of_cons; auto).
  assert (Hu : dict_get (projection ["temperature"; "device_id"; "type";
                 "timestamp"; "unit"] (celsius_reading x)) "unit" = VStr "C").
  { unfold dict_get. rewrite projection_lookup by (rewrite !elem_of_cons; auto 10).
    reflexivity. }
  change (celsius_reading x !! "temperature") with (Some (VNum x)).
  unfold normalized. rewrite Hu.
  rewrite (bool_decide_eq_false_2 (VStr "C" = VStr "F")) by discriminate.
  rewrite andb_false_r. simpl. rewrite IH. reflexivity.
Qed.

Lemma fetched_normalized (xs : list R) (reading : document) (raw : value) (x : R) :
  reading ∈ fetched xs -> reading !! "temperature" = Some raw ->
  normalized "temperature" reading raw = Return (VNum x) -> x ∈ xs.
Proof.
  unfold fetched. rewrite map_map. intros Hin Hraw Hn.
  apply list_elem_of_In, in_map_iff in Hin as (y & <- & Hy).
  rewrite projection_lookup in Hraw by (rewrite !elem_of_cons; auto).
  change (celsius_reading y !! "temperature") with (Some (VNum y)) in Hraw.
  injection Hraw as <-.
  unfold normalized, dict_get in Hn.
  rewrite projection_lookup in Hn by (rewrite !elem_of_cons; auto 10).
  change (celsius_reading y !! "unit") with (Some (VStr "C")) in Hn.
  cbn [default] in Hn.
  rewrite (bool_decide_eq_false_2 (VStr "C" = VStr "F")) in Hn by discriminate.
  rewrite andb_false_r in Hn. injection Hn as <-.
  now apply list_elem_of_In.
Qed.

Local Open Scope R_scope.

Lemma sqrt_between (a b x : R) :
  0 <= a -> 0 <= b -> a * a < x < b * b -> a < sqrt x < b.
Proof.
  intros Ha Hb [H1 H2]. split.
  - rewrite <- (sqrt_square a Ha). apply sqrt_lt_1_alt. nra.
  - rewrite <- (sqrt_square b Hb). apply sqrt_lt_1_alt. nra.
Qed.

Lemma mean_fixed_vector : mean fixed_vector = 28.
Proof. unfold mean, fixed_vector, fsum. simpl. field. Qed.

Lemma variance_fixed_vector : variance fixed_vector = 1620.
Proof.
  unfold variance, sum_sq_dev. rewrite mean_fixed_vector.
  unfold fixed_vector, fsum. simpl. field.
Qed.

Lemma stdev_fixed_vector : 40.245 < stdev fixed_vector < 40.255.
Proof.
  unfold stdev. rewrite variance_fixed_vector.
  apply sqrt_between; lra.
Qed.

Lemma z_score_100_fixed_vector :
  1.7885 < Rabs (100 - mean fixed_vector) / stdev fixed_vector < 1.7895.
Proof.
  rewrite mean_fixed_vector. pose proof stdev_fixed_vector as [H1 H2].
  replace (100 - 28) with 72 by lra. rewrite Rabs_pos_eq by lra.
  split.
  - apply (Rmult_lt_reg_r (stdev fixed_vector)); [lra |].
    unfold Rdiv. rewrite Rmult_assoc, Rinv_l by lra. lra.
  - apply (Rmult_lt_reg_r (stdev fixed_vector)); [lra |].
    unfold Rdiv. rewrite Rmult_assoc, Rinv_l by lra. lra.
Qed.

Lemma z_score_fixed_vector_small (x : R) :
  x ∈ fixed_vector ->
  Rabs (x - mean fixed_vector) / stdev fixed_vector < 1.7895.
Proof.
  intros Hx. pose proof stdev_fixed_vector as [H1 H2].
  pose proof z_score_100_fixed_vector as [_ H100].
  unfold fixed_vector in Hx. rewrite !elem_of_cons in Hx.
  destruct Hx as [-> | [-> | [-> | [-> | [-> | Hx]]]]];
    try exact H100; try (now apply elem_of_nil in Hx).
  all: rewrite mean_fixed_vector; replace (10 - 28) with (- (18)) by lra;
    rewrite Rabs_Ropp, Rabs_pos_eq by lra;
    apply (Rmult_lt_reg_r (stdev fixed_vector)); [lra |];
    unfold Rdiv; rewrite Rmult_assoc, Rinv_l by lra; lra.
Qed.

Lemma round_stdev_fixed_vector : round (stdev fixed_vector) 2 = 40.25.
Proof.
  pose proof stdev_fixed_vector as [H1 H2]. unfold round.
  rewrite (round_half_even_unique _ 4025) by (simpl; lra).
  simpl. lra.
Qed.

Lemma detect_outliers_fixed_vector :
  detect_outliers (mk_AdvancedAnalysis (Some (collection_of fixed_vector)))
    default_field default_z_threshold = Return [].
Proof.
  pose proof stdev_fixed_vector as [H1 H2].
  destruct (detect_outliers_try_run (collection_of fixed_vector) "temperature"
              default_z_threshold (fetched fixed_vector)
              (map VNum fixed_vector) fixed_vector eq_refl
              (fetched_values _) (traverse_to_num_VNum _))
    as (res & Htry & Hspec & _); [simpl; lia | lra |].
  unfold detect_outliers, default_field. cbn [collection]. rewrite Htry.
  destruct res as [| o rest]; [reflexivity |]. exfalso.
  destruct (proj1 (Hspec o)) as (r & raw & x & Hin & Hraw & Hn & Hlt & _);
    [left |].
  pose proof (z_score_fixed_vector_small x
                (fetched_normalized _ _ _ _ Hin Hraw Hn)).
  unfold default_z_threshold in Hlt. lra.
Qed.

(** C3, as the code has it.  On [10, 10, 10, 10, 100]: the mean is 28,
    the sample variance (divisor n - 1) is 1620, the sample standard
    deviation lies between 40.245 and 40.255 and is reported as 40.25,
    the value 100 has a z-score between 1.7885 and 1.7895, reported as
    1.789 and 1.8 at one decimal, and with the default threshold 2.5
    nothing is flagged. *)
Theorem fixed_vector_statistics :
  mean fixed_vector = 28 /\
  variance fixed_vector = 1620 /\
  stdev fixed_vector = sqrt 1620 /\
  40.245 < stdev fixed_vector < 40.255 /\
  round (stdev fixed_vector) 2 = 40.25 /\
  1.7885 < Rabs (100 - mean fixed_vector) / stdev fixed_vector < 1.7895 /\
  round (Rabs (100 - mean fixed_vector) / stdev fixed_vector) 3 = 1.789 /\
  round (Rabs (100 - mean fixed_vector) / stdev fixed_vector) 1 = 1.8 /\
  collect_values default_field (fetched fixed_vector)
    = Return (map VNum fixed_vector) /\
  detect_outliers (mk_AdvancedAnalysis (Some (collection_of fixed_vector)))
    default_field default_z_threshold = Return [].
Proof.
  pose proof z_score_100_fixed_vector as [Hz1 Hz2].
  split; [exact mean_fixed_vector |].
  split; [exact variance_fixed_vector |].
  split; [unfold stdev; now rewrite variance_fixed_vector |].
  split; [exact stdev_fixed_vector |].
  split; [exact round_stdev_fixed_vector |].
  split; [exact z_score_100_fixed_vector |].
  split.
  { unfold round. rewrite (round_half_even_unique _ 1789) by (simpl; lra).
    simpl. lra. }
  split.
  { unfold round. rewrite (round_half_even_unique _ 18) by (simpl; lra).
    simpl. lra. }
  split; [apply fetched_values | exact detect_outliers_fixed_vector].
Qed.

(** C3, as stated: the reported standard deviation of the fixed vector
    is 40.25, more than a tenth away from 40.12. *)
Lemma fixed_vector_stdev_is_not_40_12 :
  round (stdev fixed_vector) 2 = 40.25 /\
  round (stdev fixed_vector) 2 <> 40.12 /\
  0.12 < Rabs (stdev fixed_vector - 40.12).
Proof.
  pose proof stdev_fixed_vector as [H1 H2].
  split; [exact round_stdev_fixed_vector |]. split.
  - rewrite round_stdev_fixed_vector. lra.
  - rewrite Rabs_pos_eq; lra.
Qed.

(** The constant vector of the specification. *)
Lemma detect_outliers_degenerate_empty_witness :
  detect_outliers_try (collection_of constant_vector) "temperature" 2.5
    = Return [] /\
  detect_outliers (mk_AdvancedAnalysis (Some (collection_of constant_vector)))
    "temperature" 2.5 = Return [].
Proof.
  apply (detect_outliers_degenerate_empty (collection_of constant_vector)
           "temperature" 2.5 (fetched constant_vector)
           (map VNum constant_vector) eq_refl (fetched_values _)).
  right; right. exists 5, 4%nat. reflexivity.
Defined.

End FixedVectors.

(** ** A Fahrenheit reading among Celsius readings *)

Section MixedReadings.

Import Mongo Analysis.

Local Open Scope R_scope.

Local Abbreviation fetch :=
  (projection ["temperature"; "device_id"; "type"; "timestamp"; "unit"]).

Lemma normalized_number_celsius_reading (fl : R -> R) (x : R) :
  normalized_number fl "temperature" (fetch (celsius_reading x)) = Some x.
Proof.
  unfold normalized_number.
  rewrite !projection_lookup by (rewrite !elem_of_cons; auto 10).
  change (celsius_reading x !! "temperature") with (Some (VNum x)).
  change (celsius_reading x !! "unit") with (Some (VStr "C")).
  rewrite bool_decide_eq_false_2; [reflexivity |].
  intros [_ H]. discriminate.
Qed.

Lemma normalized_number_fahrenheit_reading (fl : R -> R) (t : R) :
  normalized_number fl "temperature" (fetch (fahrenheit_reading t))
  = Some (fl (fl (t - 32) / fl 1.8)).
Proof.
  unfold normalized_number.
  rewrite !projection_lookup by (rewrite !elem_of_cons; auto 10).
  change (fahrenheit_reading t !! "temperature") with (Some (VNum t)).
  change (fahrenheit_reading t !! "unit") with (Some (VStr "F")).
  rewrite bool_decide_eq_true_2; [reflexivity |]. split; reflexivity.
Qed.

Lemma mixed_readings_numbers :
  normalized_numbers (fun x => x) "temperature" (map fetch mixed_readings)
  = fixed_vector.
Proof.
  unfold normalized_numbers, mixed_readings. simpl map.
  cbn [omap list_omap app].
  rewrite !normalized_number_celsius_reading,
          normalized_number_fahrenheit_reading.
  cbv beta. replace ((212 - 32) / 1.8) with 100 by lra. reflexivity.
Qed.

Lemma mixed_readings_numeric :
  Forall (numeric_field "temperature") (map fetch mixed_readings).
Proof.
  unfold mixed_readings. simpl map. cbn [app].
  repeat constructor; intros raw;
    rewrite projection_lookup by (rewrite !elem_of_cons; auto 10);
    intros H; injection H as <-; eexists; reflexivity.
Qed.

(** The Fahrenheit reading of [mixed_readings] is flagged at threshold
    1: its z-score is about 1.789. *)
Lemma detect_outliers_flags_by_z_score_witness :
  exists (outliers : list document) (o : document),
    Rounded.detect_outliers (fun x => x)
      (mk_AdvancedAnalysis (Some (Return mixed_readings))) "temperature" 1
      = Return outliers
    /\ o ∈ outliers
    /\ o !! "temperature" = Some (VNum 212)
    /\ o !! "unit" = Some (VStr "F")
    /\ Sorted z_score_ge outliers.
Proof.
  pose proof stdev_fixed_vector as [Hs1 Hs2].
  pose proof z_score_100_fixed_vector as [Hz _].
  destruct (detect_outliers_flags_by_z_score (fun x => x)
              (Return mixed_readings) "temperature" 1
              (map fetch mixed_readings) eq_refl mixed_readings_numeric)
    as (outliers & Hrun & Hiff & _ & Hsorted).
  - rewrite mixed_readings_numbers. simpl. lia.
  - rewrite mixed_readings_numbers. lra.
  - exists outliers. eexists. split; [exact Hrun |]. split.
    + apply (Hiff (fetch (fahrenheit_reading 212)) (VNum 212)
               ((212 - 32) / 1.8)).
      * unfold mixed_readings. simpl map. cbn [app].
        rewrite !elem_of_cons. auto 10.
      * rewrite projection_lookup by (rewrite !elem_of_cons; auto 10).
        reflexivity.
      * apply (normalized_number_fahrenheit_reading (fun x => x)).
      * rewrite mixed_readings_numbers. unfold float_z_score.
        replace ((212 - 32) / 1.8) with 100 by lra.
        rewrite Rabs_div_pos by lra. lra.
    + destruct (rounded_outlier_doc_temperature (fun x => x)
                  (fetch (fahrenheit_reading 212)) (VNum 212)
                  ((212 - 32) / 1.8)
                  (float_z_score (fun x => x) ((212 - 32) / 1.8)
                     (mean (normalized_numbers (fun x => x) "temperature"
                              (map fetch mixed_readings)))
                     (stdev (normalized_numbers (fun x => x) "temperature"
                               (map fetch mixed_readings))))
                  (mean (normalized_numbers (fun x => x) "temperature"
                           (map fetch mixed_readings)))
                  (stdev (normalized_numbers (fun x => x) "temperature"
                            (map fetch mixed_readings))))
        as [H1 H2].
      split; [exact H1 |]. split; [| exact Hsorted].
      rewrite H2. unfold dict_get.
      rewrite projection_lookup by (rewrite !elem_of_cons; auto 10).
      reflexivity.
Defined.

End MixedReadings.

(** ** Grouping and sorting on the server *)

Section GroupFacts.

Import Mongo.

Context {A K : Type} `{EqDecision K} (key : A -> K).

Local Abbreviation same_key := (Vocabulary.same_key key).
Local Abbreviation grouped := (Vocabulary.grouped key).

Lemma group_by_snoc (l : list A) (x : A) :
  group_by key (l ++ [x]) = add_to_group (key x) x (group_by key l).
Proof. unfold group_by. now rewrite fold_left_app. Qed.

Lemma add_to_group_keys (k : K) (x : A) (gs : list (K * list A)) :
  map fst (add_to_group k x gs)
  = if decide (k ∈ map fst gs) then map fst gs else map fst gs ++ [k].
Proof.
  induction gs as [| [k' xs] gs IH]; simpl.
  - destruct (decide (k ∈ [])) as [Hin |]; [inversion Hin | reflexivity].
  - destruct (decide (k = k')) as [-> | Hne]; simpl.
    + destruct (decide (k' ∈ k' :: map fst gs)) as [| Hn]; [reflexivity |].
      exfalso. apply Hn. left.
    + rewrite IH.
      destruct (decide (k ∈ map fst gs)) as [Hin | Hnin];
        destruct (decide (k ∈ k' :: map fst gs)) as [Hin' | Hnin'];
        try reflexivity.
      * exfalso. apply Hnin'. now right.
      * exfalso. apply elem_of_cons in Hin' as [? | ?]; contradiction.
Qed.

Lemma add_to_group_entries (k : K) (x : A) (gs : list (K * list A))
    (k' : K) (xs' : list A) :
  NoDup (map fst gs) ->
  (k', xs') ∈ add_to_group k x gs ->
  (k' <> k /\ (k', xs') ∈ gs)
  \/ (k' = k /\ exists xs, (k, xs) ∈ gs /\ xs' = xs ++ [x])
  \/ (k' = k /\ (k ∉ map fst gs) /\ xs' = [x]).
Proof.
  induction gs as [| [k0 xs0] gs IH]; simpl; intros Hnd Hin.
  - apply list_elem_of_singleton in Hin. injection Hin as -> ->.
    right; right. repeat split. apply not_elem_of_nil.
  - apply NoDup_cons in Hnd as [Hk0 Hnd].
    destruct (decide (k = k0)) as [<- | Hne].
    + apply elem_of_cons in Hin as [Heq | Hin].
      * injection Heq as -> ->. right; left. split; [reflexivity |].
        exists xs0. split; [left | reflexivity].
      * left. split; [| now right].
        intros ->. apply Hk0.
        apply list_elem_of_fmap. exists (k, xs'). split; [reflexivity | exact Hin].
    + apply elem_of_cons in Hin as [Heq | Hin].
      * injection Heq as -> ->. left. split; [congruence | left].
      * destruct (IH Hnd Hin) as [[H1 H2] | [[H1 (xs & H2 & H3)] | (H1 & H2 & H3)]].
        -- left. split; [exact H1 | now right].
        -- right; left. split; [exact H1 |]. exists xs. split; [now right | exact H3].
        -- right; right. repeat split; try assumption.
           rewrite not_elem_of_cons. split; assumption.
Qed.

Lemma filter_same_key_none (k : K) (l : list A) :
  (forall x, x ∈ l -> key x <> k) -> List.filter (same_key k) l = [].
Proof.
  induction l as [| y l IH]; intros Hl; [reflexivity |]. simpl.
  unfold same_key at 1. rewrite bool_decide_eq_false_2 by (apply Hl; left).
  apply IH. intros x Hx. apply Hl. now right.
Qed.

Lemma grouped_step (l : list A) (x : A) (gs : list (K * list A)) :
  grouped l gs -> grouped (l ++ [x]) (add_to_group (key x) x gs).
Proof.
  intros (Hnd & Hent & Hcov). split; [| split].
  - rewrite add_to_group_keys. destruct (decide _) as [| Hnin]; [exact Hnd |].
    apply NoDup_app. split; [exact Hnd |]. split.
    + intros k Hk Hk'. apply list_elem_of_singleton in Hk'. now subst.
    + apply NoDup_singleton.
  - intros k xs Hin. rewrite List.filter_app. simpl. unfold same_key at 2.
    destruct (add_to_group_entries _ _ _ _ _ Hnd Hin)
      as [[Hne Hin'] | [[-> (xs0 & Hin' & ->)] | (-> & Hnin & ->)]].
    + destruct (Hent _ _ Hin') as [Hne' Heq].
      rewrite bool_decide_eq_false_2 by congruence.
      rewrite app_nil_r. split; assumption.
    + destruct (Hent _ _ Hin') as [Hne' Heq].
      rewrite bool_decide_eq_true_2 by reflexivity.
      split; [now destruct xs0 | now rewrite <- Heq].
    + rewrite bool_decide_eq_true_2 by reflexivity.
      split; [discriminate |].
      rewrite filter_same_key_none; [reflexivity |].
      intros y Hy Heq. apply Hnin. rewrite <- Heq. now apply Hcov.
  - intros y Hy. rewrite add_to_group_keys.
    apply elem_of_app in Hy as [Hy | Hy].
    + destruct (decide _); [now apply Hcov |].
      apply elem_of_app. left. now apply Hcov.
    + apply list_elem_of_singleton in Hy. subst y.
      destruct (decide _) as [Hin | Hnin]; [exact Hin |].
      apply elem_of_app. right. left.
Qed.

Lemma group_by_grouped (l : list A) : grouped l (group_by key l).
Proof.
  induction l as [| x l IH] using rev_ind.
  - split; [constructor |]. split.
    + intros k xs Hin. inversion Hin.
    + intros x Hx. inversion Hx.
  - rewrite group_by_snoc. now apply grouped_step.
Qed.

(** Every element lands in exactly one group. *)
Lemma group_by_sizes (l : list A) :
  sum_list (map (fun g => length g.2) (group_by key l)) = length l.
Proof.
  induction l as [| x l IH] using rev_ind; [reflexivity |].
  rewrite group_by_snoc, length_app, <- IH. simpl.
  generalize (group_by key l) as gs. intros gs.
  induction gs as [| [k xs] gs IHgs]; simpl; [lia |].
  destruct (decide (key x = k)); simpl.
  - rewrite length_app. simpl. lia.
  - rewrite IHgs. lia.
Qed.

End GroupFacts.

Section ServerSortFacts.

Import Mongo.

Context {A : Type} (leb : A -> A -> bool).

Lemma insert_by_perm (x : A) (l : list A) :
  Permutation (insert_by leb x l) (x :: l).
Proof.
  induction l as [| y l IH]; simpl; [reflexivity |].
  destruct (leb x y); [reflexivity |].
  rewrite IH. apply perm_swap.
Qed.

Lemma sort_by_perm (l : list A) : Permutation (sort_by leb l) l.
Proof.
  induction l as [| x l IH]; [reflexivity |].
  unfold sort_by in *. simpl. rewrite insert_by_perm. now constructor.
Qed.

Hypothesis leb_total : forall a b, leb a b = true \/ leb b a = true.

Lemma insert_by_sorted (x : A) (l : list A) :
  Sorted (fun a b => leb a b = true) l ->
  Sorted (fun a b => leb a b = true) (insert_by leb x l).
Proof.
  induction l as [| y l IH]; intros Hs; simpl.
  - repeat constructor.
  - destruct (leb x y) eqn:Hxy.
    + constructor; [exact Hs |]. now constructor.
    + inversion Hs as [| ? ? Hs' Hhd]; subst.
      constructor; [now apply IH |].
      destruct (leb_total x y) as [Hc | Hyx]; [congruence |].
      destruct l as [| z l]; simpl.
      * now constructor.
      * destruct (leb x z); constructor; [exact Hyx |].
        now inversion Hhd.
Qed.

Lemma sort_by_sorted (l : list A) :
  Sorted (fun a b => leb a b = true) (sort_by leb l).
Proof.
  induction l as [| x l IH]; [constructor |].
  unfold sort_by in *. simpl. now apply insert_by_sorted.
Qed.

End ServerSortFacts.

Section BsonOrder.

Import Mongo.

Lemma bson_leb_total (a b : value) : bson_leb a b = true \/ bson_leb b a = true.
Proof.
  destruct a as [| x | s], b as [| y | t]; simpl; auto.
  - destruct (Rle_dec x y); [now left |].
    destruct (Rle_dec y x); [now right | lra].
  - apply String.leb_total.
Qed.

End BsonOrder.

(** ** Counting readings per sensor *)

Section CountFacts.

Import Mongo Analysis.

Lemma desc_by_total (f : string) (a b : document) :
  desc_by f a b = true \/ desc_by f b a = true.
Proof. unfold desc_by. apply bson_leb_total. Qed.

Lemma count_rows_spec (f : string) (mk_row : value * list document -> document)
    (docs : list document) :
  (forall g, mk_row g !! f = Some (VNum (INR (length g.2)))) ->
  (forall g, mk_row g !! "device_id" = Some g.1) ->
  counts_by_device f docs
    (sort_by (desc_by f) (map mk_row (group_by device_key docs))).
Proof.
  intros Hcount Hdev.
  pose proof (group_by_grouped device_key docs) as (Hnd & Hent & Hcov).
  pose proof (group_by_sizes device_key docs) as Hsum.
  pose proof (sort_by_sorted (desc_by f) (desc_by_total f)
                (map mk_row (group_by device_key docs))) as Hsorted.
  destruct (Permutation_map_inv mk_row _
              (sort_by_perm (desc_by f) (map mk_row (group_by device_key docs))))
    as (gs & Hrows & Hperm).
  rewrite Hrows in *. clear Hrows.
  split; [| split; [| split; [| split]]].
  - exists (map (fun g => length g.2) gs). split.
    + clear -Hcount. induction gs as [| g gs IH]; simpl; constructor; auto.
    + rewrite <- Hsum. now rewrite Hperm.
  - rewrite map_map.
    rewrite (map_ext _ (fun g => Some g.1)) by (intros g; apply Hdev).
    rewrite <- (map_map fst Some). apply (NoDup_fmap_2 Some).
    now rewrite <- Hperm.
  - intros d Hd. apply Hcov in Hd.
    rewrite Hperm in Hd. apply list_elem_of_fmap in Hd as (g & Hk & Hg).
    exists (mk_row g). split.
    + apply list_elem_of_fmap. now exists g.
    + rewrite Hdev. unfold device_key in Hk. now rewrite Hk.
  - intros r Hr. apply list_elem_of_fmap in Hr as ([k xs] & -> & Hg).
    rewrite <- Hperm in Hg. destruct (Hent _ _ Hg) as [Hne Heq].
    exists k. split; [apply Hdev |]. split.
    + rewrite Hcount. simpl. now rewrite Heq at 1.
    + destruct xs as [| d xs]; [contradiction |]. exists d.
      assert (Hd : In d (List.filter (same_key device_key k) docs))
        by (rewrite <- Heq; now left).
      apply filter_In in Hd as [Hd1 Hd2].
      split; [now apply list_elem_of_In |].
      unfold same_key in Hd2. now apply bool_decide_eq_true in Hd2.
  - apply (Sorted_weaken (fun r => exists g, r = mk_row g)
             (fun a b => desc_by f a b = true)); [| | exact Hsorted].
    + intros a b [ga ->] [gb ->] Hab. unfold desc_by, dict_get in Hab.
      rewrite !Hcount in Hab. simpl in Hab.
      destruct (Rle_dec _ _) as [Hle |]; [| discriminate].
      exists (length ga.2), (length gb.2).
      rewrite !Hcount. repeat split. now apply INR_le.
    + apply Forall_forall. intros r Hr.
      apply list_elem_of_fmap in Hr as (g & -> & _). now exists g.
Qed.

(** C9.  Both per-sensor counting queries return one row per device_id
    found in the documents (null for the documents without one), each
    with the number of documents that have this device_id; the counts
    add up to the number of documents, and the rows are in descending
    order of the count. *)
Theorem per_sensor_counts_sum_to_total (docs : list document) :
  (exists rows : list document,
     count_readings_by_sensor (mk_AdvancedAnalysis (Some (Return docs)))
       = Return rows
     /\ counts_by_device "total_readings" docs rows)
  /\ (exists rows : list document,
        Queries.get_readings_count_by_sensor
          (Queries.mk_IoTQueries (Some (Return docs))) = Return rows
        /\ counts_by_device "readings_count" docs rows).
Proof.
  split; eexists; (split; [reflexivity |]); apply count_rows_spec;
    intros g; reflexivity.
Qed.

End CountFacts.

(** ** The hourly temperature summary *)

Section HourlyFacts.

Import Mongo Analysis.

Variable dateFromString : string -> outcome Z.

Local Abbreviation summarisable := (Vocabulary.summarisable dateFromString).
Local Abbreviation hour_of_day := (Vocabulary.hour_of_day dateFromString).
Local Abbreviation bucket := (Vocabulary.bucket dateFromString).
Local Abbreviation projected_of := (Vocabulary.projected_of dateFromString).

(** The server's [$hour] is the hour of day of the instant. *)
Lemma hour_of_date_instant (ms : Z) : hour_of_date ms = hour_of_instant ms.
Proof.
  unfold hour_of_date, hour_of_instant. Z.div_mod_to_equations. lia.
Qed.

Lemma project_stage_summarisable (d : document) :
  summarisable d -> project_stage dateFromString d = Return (projected_of d).
Proof.
  intros (s & ms & t & Hts & Hp & Ht).
  unfold project_stage, projected_of, hour_of_day, celsius, hour_expr.
  rewrite Hts, Ht. simpl. rewrite Hp. simpl. rewrite hour_of_date_instant.
  destruct (bool_decide (d !! "unit" = Some (VStr "F"))); simpl.
  - unfold Rminus at 1. rewrite Ropp_0, Rplus_0_r. reflexivity.
  - reflexivity.
Qed.

Lemma hour_of_date_range (ms : Z) : (0 <= hour_of_date ms <= 23)%Z.
Proof.
  unfold hour_of_date.
  pose proof (Z.mod_pos_bound (ms / 3600000) 24). lia.
Qed.

Lemma hour_of_date_days (ms n : Z) :
  hour_of_date (ms + n * 86400000) = hour_of_date ms.
Proof.
  unfold hour_of_date.
  replace (ms + n * 86400000)%Z with (ms + (n * 24) * 3600000)%Z by lia.
  rewrite Z.div_add by lia. rewrite Z.add_mod by lia.
  rewrite Z.mod_mul by lia. rewrite Z.add_0_r. apply Z.mod_mod. lia.
Qed.

Lemma hour_of_day_range (d : document) : (0 <= hour_of_day d <= 23)%Z.
Proof.
  unfold hour_of_day.
  destruct (d !! "timestamp") as [[| | s] |]; try lia.
  destruct (dateFromString s); [| lia].
  rewrite <- hour_of_date_instant. apply hour_of_date_range.
Qed.

Lemma same_group_bucket (d d' : document) :
  same_key group_key (group_key (projected_of d)) (projected_of d')
  = bool_decide (hour_of_day d' = hour_of_day d /\ d' !! "type" = d !! "type").
Proof.
  unfold same_key, group_key, projected_of. simpl.
  apply bool_decide_ext. split.
  - intros H. injection H as H1 H2. apply eq_IZR in H1. auto.
  - intros [-> ->]. reflexivity.
Qed.

Lemma filter_map_comm {X Y} (f : Y -> bool) (g : X -> Y) (l : list X) :
  List.filter f (map g l) = map g (List.filter (fun x => f (g x)) l).
Proof.
  induction l as [| x l IH]; [reflexivity |]. simpl.
  destruct (f (g x)); simpl; now rewrite IH.
Qed.

Lemma numbers_VNum (xs : list R) :
  numbers (map (fun x => Some (VNum x)) xs) = xs.
Proof. induction xs as [| x xs IH]; [reflexivity |]. simpl. now rewrite IH. Qed.

Lemma non_null_VNum (xs : list R) :
  non_null (map (fun x => Some (VNum x)) xs) = map VNum xs.
Proof. induction xs as [| x xs IH]; [reflexivity |]. simpl. now rewrite IH. Qed.

Lemma fold_bson_min_VNum (l : list R) (x : R) :
  fold_left bson_min (map VNum l) (VNum x) = VNum (fold_left Rmin l x).
Proof.
  revert x. induction l as [| y l IH]; intros x; [reflexivity |].
  simpl. rewrite <- IH. f_equal.
  unfold bson_min, Rmin. simpl. now destruct (Rle_dec x y).
Qed.

Lemma fold_bson_max_VNum (l : list R) (x : R) :
  fold_left bson_max (map VNum l) (VNum x) = VNum (fold_left Rmax l x).
Proof.
  revert x. induction l as [| y l IH]; intros x; [reflexivity |].
  simpl. rewrite <- IH. f_equal.
  unfold bson_max, Rmax. simpl. now destruct (Rle_dec x y).
Qed.

Lemma fold_Rmin_least (l : list R) (x : R) :
  fold_left Rmin l x ∈ x :: l
  /\ forall y, y ∈ x :: l -> (fold_left Rmin l x <= y)%R.
Proof.
  revert x. induction l as [| z l IH]; intros x; simpl.
  - split; [left |]. intros y Hy. apply list_elem_of_singleton in Hy. subst. lra.
  - destruct (IH (Rmin x z)) as [Hin Hle]. split.
    + apply elem_of_cons in Hin as [-> | Hin].
      * unfold Rmin. destruct (Rle_dec x z); [left | right; left].
      * right. now right.
    + intros y Hy.
      assert (H0 : (fold_left Rmin l (Rmin x z) <= Rmin x z)%R)
        by (apply Hle; left).
      rewrite !elem_of_cons in Hy. destruct Hy as [-> | [-> | Hy]].
      * pose proof (Rmin_l x z). lra.
      * pose proof (Rmin_r x z). lra.
      * apply Hle. now right.
Qed.

Lemma fold_Rmax_greatest (l : list R) (x : R) :
  fold_left Rmax l x ∈ x :: l
  /\ forall y, y ∈ x :: l -> (y <= fold_left Rmax l x)%R.
Proof.
  revert x. induction l as [| z l IH]; intros x; simpl.
  - split; [left |]. intros y Hy. apply list_elem_of_singleton in Hy. subst. lra.
  - destruct (IH (Rmax x z)) as [Hin Hle]. split.
    + apply elem_of_cons in Hin as [-> | Hin].
      * unfold Rmax. destruct (Rle_dec x z); [right; left | left].
      * right. now right.
    + intros y Hy.
      assert (H0 : (Rmax x z <= fold_left Rmax l (Rmax x z))%R)
        by (apply Hle; left).
      rewrite !elem_of_cons in Hy. destruct Hy as [-> | [-> | Hy]].
      * pose proof (Rmax_l x z). lra.
      * pose proof (Rmax_r x z). lra.
      * apply Hle. now right.
Qed.

Lemma hourly_row_bucket (h : Z) (ty : option value) (b : list document) :
  b <> [] ->
  hourly_row ((VNum (IZR h), ty), map projected_of b)
  = Return (bucket_row h ty b).
Proof.
  intros Hb. unfold hourly_row, bucket_row. cbn [fst snd].
  rewrite map_map. cbn [p_temperature_celsius projected_of].
  rewrite <- (map_map celsius (fun x => Some (VNum x))).
  unfold acc_avg, acc_min, acc_max.
  rewrite numbers_VNum, non_null_VNum, !length_map.
  destruct b as [| d b]; [contradiction |]. simpl map. cbv iota.
  rewrite fold_bson_min_VNum, fold_bson_max_VNum.
  reflexivity.
Qed.

Lemma bucket_row_fields (h : Z) (ty : option value) (b : list document) :
  bucket_row h ty b !! "hour" = Some (VNum (IZR h))
  /\ bucket_row h ty b !! "sensor_type" = ty
  /\ bucket_row h ty b !! "readings_count" = Some (VNum (INR (length b)))
  /\ bucket_row h ty b !! "average_temperature_celsius"
     = Some (VNum (round (mean (map celsius b)) 2))
  /\ bucket_row h ty b !! "min_temperature_celsius"
     = Some (VNum (round (list_min (map celsius b)) 2))
  /\ bucket_row h ty b !! "max_temperature_celsius"
     = Some (VNum (round (list_max (map celsius b)) 2)).
Proof. destruct ty; repeat split; reflexivity. Qed.

Lemma hourly_leb_total (a b : document) :
  hourly_leb a b = true \/ hourly_leb b a = true.
Proof.
  unfold hourly_leb.
  destruct (bson_leb (dict_get a "hour") (dict_get b "hour")) eqn:H1,
           (bson_leb (dict_get b "hour") (dict_get a "hour")) eqn:H2; auto.
  - apply bson_leb_total.
  - destruct (bson_leb_total (dict_get a "hour") (dict_get b "hour"));
      congruence.
Qed.

Lemma bucket_self (ds : list document) (d : document) :
  d ∈ ds -> d ∈ bucket ds d.
Proof.
  intros Hd. apply list_elem_of_In, filter_In. split.
  - now apply list_elem_of_In.
  - now apply bool_decide_eq_true.
Qed.

Lemma groups_are_buckets (ds : list document) (g : (value * option value) * list projected) :
  g ∈ group_by group_key (map projected_of ds) ->
  exists d, d ∈ ds
    /\ g = (group_key (projected_of d), map projected_of (bucket ds d)).
Proof.
  intros Hg. destruct g as [k ps].
  destruct (group_by_grouped group_key (map projected_of ds)) as (_ & Hent & _).
  destruct (Hent _ _ Hg) as [Hne Heq].
  destruct ps as [| p ps]; [contradiction |].
  assert (Hp : In p (List.filter (same_key group_key k) (map projected_of ds)))
    by (rewrite <- Heq; now left).
  apply filter_In in Hp as [Hp Hk].
  apply in_map_iff in Hp as (d & <- & Hd).
  unfold same_key in Hk. apply bool_decide_eq_true in Hk. subst k.
  exists d. split; [now apply list_elem_of_In |]. f_equal.
  rewrite Heq, filter_map_comm. f_equal. unfold bucket.
  apply filter_ext. intros d'. apply same_group_bucket.
Qed.

Lemma hourly_pipeline_rows (start : string) (docs : list document) :
  Forall summarisable (selected start docs) ->
  exists rows : list document,
    hourly_pipeline dateFromString start docs = Return rows
    /\ NoDup (map (fun r => (r !! "hour", r !! "sensor_type")) rows)
    /\ (forall d, d ∈ selected start docs ->
          bucket_row (hour_of_day d) (d !! "type")
                     (bucket (selected start docs) d) ∈ rows)
    /\ (forall row, row ∈ rows ->
          exists d, d ∈ selected start docs
            /\ row = bucket_row (hour_of_day d) (d !! "type")
                                (bucket (selected start docs) d))
    /\ Sorted hourly_order rows.
Proof.
  intros Hsum. set (sel := selected start docs) in *.
  set (gs := group_by group_key (map projected_of sel)).
  set (row_fun := fun g => match hourly_row g with
                           | Return r => r
                           | Raise _ => ∅
                           end).
  assert (Hrow : forall g, g ∈ gs ->
            exists d, d ∈ sel
              /\ g = (group_key (projected_of d), map projected_of (bucket sel d))
              /\ hourly_row g
                 = Return (bucket_row (hour_of_day d) (d !! "type") (bucket sel d))
              /\ row_fun g
                 = bucket_row (hour_of_day d) (d !! "type") (bucket sel d)).
  { intros g Hg. destruct (groups_are_buckets sel g Hg) as (d & Hd & ->).
    exists d. split; [exact Hd |]. split; [reflexivity |].
    assert (Hne : bucket sel d <> []).
    { intros Hnil. pose proof (bucket_self sel d Hd) as Hin.
      rewrite Hnil in Hin. inversion Hin. }
    unfold row_fun.
    change (group_key (projected_of d))
      with (VNum (IZR (hour_of_day d)), d !! "type").
    rewrite (hourly_row_bucket _ _ _ Hne). split; reflexivity. }
  destruct (Permutation_map_inv row_fun _
              (sort_by_perm hourly_leb (map row_fun gs)))
    as (gs' & Hrows & Hperm).
  exists (sort_by hourly_leb (map row_fun gs)). split; [| split; [| split; [| split]]].
  - unfold hourly_pipeline. fold (selected start docs). fold sel.
    rewrite (bind_Return _ _ (map projected_of sel)).
    + fold gs. rewrite (bind_Return _ _ (map row_fun gs)); [reflexivity |].
      apply traverse_total. intros g Hg.
      destruct (Hrow g Hg) as (d & _ & _ & H1 & H2). now rewrite H2.
    + apply traverse_total. intros d Hd.
      apply project_stage_summarisable.
      rewrite Forall_forall in Hsum. now apply Hsum.
  - rewrite Hrows, map_map.
    rewrite (map_ext_in _ (fun g => (Some g.1.1, g.1.2))).
    + rewrite <- (map_map fst (fun k : value * option value => (Some k.1, k.2))).
      apply NoDup_fmap_2.
      * intros [a b] [a' b'] H. simpl in H. congruence.
      * rewrite <- Hperm.
        now destruct (group_by_grouped group_key (map projected_of sel)).
    + intros g Hg. apply list_elem_of_In in Hg. rewrite <- Hperm in Hg.
      destruct (Hrow g Hg) as (d & _ & -> & _ & ->).
      destruct (bucket_row_fields (hour_of_day d) (d !! "type") (bucket sel d))
        as (-> & -> & _). reflexivity.
  - intros d Hd. rewrite sort_by_perm.
    destruct (group_by_grouped group_key (map projected_of sel)) as (_ & _ & Hcov).
    assert (Hk : group_key (projected_of d) ∈ map fst gs).
    { apply Hcov. apply list_elem_of_fmap. now exists d. }
    apply list_elem_of_fmap in Hk as (g & Hk & Hg).
    destruct (Hrow g Hg) as (d' & Hd' & Hgeq & _ & Hrf).
    apply list_elem_of_fmap. exists g. split; [| exact Hg].
    rewrite Hrf. rewrite Hgeq in Hk. simpl in Hk.
    unfold group_key, projected_of in Hk. simpl in Hk.
    injection Hk as Hh Hty. apply eq_IZR in Hh.
    rewrite Hh, Hty. f_equal. unfold bucket. apply filter_ext.
    intros x. now rewrite Hh, Hty.
  - intros row Hrowin. rewrite sort_by_perm in Hrowin.
    apply list_elem_of_fmap in Hrowin as (g & -> & Hg).
    destruct (Hrow g Hg) as (d & Hd & _ & _ & Hrf). now exists d.
  - apply (Sorted_weaken
             (fun r => exists h ty b, r = bucket_row h ty b)
             (fun a b => hourly_leb a b = true)).
    + intros a b (ha & ta & ba & ->) (hb & tb & bb & ->) Hab.
      destruct (bucket_row_fields ha ta ba) as (Ha & _).
      destruct (bucket_row_fields hb tb bb) as (Hb & _).
      exists ha, hb. split; [exact Ha |]. split; [exact Hb |].
      unfold hourly_leb in Hab. unfold dict_get at 1 2 3 4 in Hab.
      rewrite Ha, Hb in Hab. simpl in Hab.
      destruct (Rle_dec (IZR ha) (IZR hb)) as [Hle |]; [| discriminate].
      apply le_IZR in Hle.
      destruct (Rle_dec (IZR hb) (IZR ha)) as [Hle' | Hnle].
      * apply le_IZR in Hle'. right. split; [lia | exact Hab].
      * left. destruct (Z.lt_ge_cases ha hb) as [| Hge]; [assumption |].
        exfalso. apply Hnle. now apply IZR_le.
    + apply Forall_forall. intros r Hr. rewrite sort_by_perm in Hr.
      apply list_elem_of_fmap in Hr as (g & -> & Hg).
      destruct (Hrow g Hg) as (d & _ & _ & _ & ->). eauto.
    + apply sort_by_sorted, hourly_leb_total.
Qed.

Lemma list_min_least (xs : list R) :
  xs <> [] -> list_min xs ∈ xs /\ forall x, x ∈ xs -> (list_min xs <= x)%R.
Proof. destruct xs; [contradiction |]. intros _. apply fold_Rmin_least. Qed.

Lemma list_max_greatest (xs : list R) :
  xs <> [] -> list_max xs ∈ xs /\ forall x, x ∈ xs -> (x <= list_max xs)%R.
Proof. destruct xs; [contradiction |]. intros _. apply fold_Rmax_greatest. Qed.


End HourlyFacts.

(** ** The time window of the hourly summary, on concrete clocks *)

Section WindowExamples.

Import Mongo Analysis.

Lemma match_gte_str_interior_doc (device : string) (t : R) (ts start : string) :
  match_gte_str "timestamp" start (interior_doc device t ts)
  = String.leb start ts.
Proof. reflexivity. Qed.

Lemma summarisable_interior_doc (device : string) (t : R) (ts : string) (ms : Z) :
  IsoParser.dateFromString ts = Return ms ->
  summarisable IsoParser.dateFromString (interior_doc device t ts).
Proof.
  intros H. exists ts, ms, t.
  split; [reflexivity |]. split; [exact H | reflexivity].
Qed.

Lemma hour_of_day_interior_doc (device : string) (t : R) (ts : string) (ms : Z) :
  IsoParser.dateFromString ts = Return ms ->
  hour_of_day IsoParser.dateFromString (interior_doc device t ts)
  = hour_of_instant ms.
Proof.
  intros H. unfold hour_of_day.
  change (interior_doc device t ts !! "timestamp") with (Some (VStr ts)).
  cbv beta iota. now rewrite H.
Qed.

(** The window start is [isoformat] of the local wall clock minus the
    hours. *)
Lemma window_start (clk : DateTime.clock) (hours_back : Z)
    (start_time : DateTime.datetime) (docs : list document) :
  (delta ← DateTime.timedelta_hours hours_back;
   DateTime.sub_timedelta (DateTime.now clk) delta) = Return start_time ->
  average_temperature_by_hour IsoParser.dateFromString
    (mk_AdvancedAnalysis (Some (Return docs))) clk hours_back
  = try_except_Exception
      (hourly_pipeline IsoParser.dateFromString
         (DateTime.isoformat start_time) docs)
      (fun _ => Return []).
Proof.
  intros H. unfold average_temperature_by_hour, average_temperature_by_hour_try.
  cbn [collection].
  destruct (DateTime.timedelta_hours hours_back) as [delta |]; [| discriminate].
  rewrite (bind_Return _ _ delta eq_refl) in H.
  rewrite (bind_Return _ _ delta eq_refl), (bind_Return _ _ _ H).
  now rewrite (bind_Return (Return docs) _ docs eq_refl).
Qed.

Lemma hourly_pipeline_single (start : string) (d : document) :
  match_gte_str "timestamp" start d = true ->
  summarisable IsoParser.dateFromString d ->
  hourly_pipeline IsoParser.dateFromString start [d]
  = Return [bucket_row
              (hour_of_day IsoParser.dateFromString d) (d !! "type") [d]].
Proof.
  intros Hm Hs. unfold hourly_pipeline. simpl List.filter. rewrite Hm.
  simpl traverse. rewrite (project_stage_summarisable _ _ Hs).
  change (Return (projected_of IsoParser.dateFromString d)
            ≫= (fun y => Return [] ≫= (fun ys => Return (y :: ys))))
    with (Return [projected_of IsoParser.dateFromString d]
          : outcome (list projected)).
  rewrite (bind_Return _ _ [projected_of IsoParser.dateFromString d] eq_refl).
  unfold group_by. simpl fold_left. simpl traverse. reflexivity.
Qed.

Lemma hourly_pipeline_none (start : string) (d : document) :
  match_gte_str "timestamp" start d = false ->
  hourly_pipeline IsoParser.dateFromString start [d] = Return [].
Proof. intros Hm. unfold hourly_pipeline. simpl List.filter. now rewrite Hm. Qed.

(** C7 on a machine at UTC-3: a reading stamped 25 h 30 min before the
    call, outside the 24-hour window, is summarised all the same; on a
    machine at UTC+2 a reading stamped 23 h before the call, inside the
    window, is left out; on a machine at UTC both are treated as the
    window says. *)
Theorem hourly_window_follows_local_clock :
  stamp_before 25 30 (-10800) = "2024-05-01T10:30:00+00:00"
  /\ stamp_before 23 0 7200 = "2024-05-01T13:00:00+00:00"
  /\ IsoParser.parse (stamp_before 25 30 (-10800))
     = Some (noon / 1000 - (25 * 3600 + 30 * 60) * 1000)%Z
  /\ IsoParser.parse (stamp_before 23 0 7200)
     = Some (noon / 1000 - 23 * 3600 * 1000)%Z
  /\ average_temperature_by_hour IsoParser.dateFromString
       (mk_AdvancedAnalysis (Some (Return [old_reading]))) clock_utc_minus_3 24
     = Return [bucket_row 10
                 (Some (VStr "interior")) [old_reading]]
  /\ bucket_row 10 (Some (VStr "interior")) [old_reading]
       !! "readings_count" = Some (VNum (INR 1))
  /\ average_temperature_by_hour IsoParser.dateFromString
       (mk_AdvancedAnalysis (Some (Return [recent_reading]))) clock_utc_plus_2 24
     = Return []
  /\ average_temperature_by_hour IsoParser.dateFromString
       (mk_AdvancedAnalysis (Some (Return [old_reading]))) clock_utc 24
     = Return []
  /\ average_temperature_by_hour IsoParser.dateFromString
       (mk_AdvancedAnalysis (Some (Return [recent_reading]))) clock_utc 24
     = Return [bucket_row 13
                 (Some (VStr "interior")) [recent_reading]].
Proof.
  unfold old_reading, recent_reading.
  assert (Hold : stamp_before 25 30 (-10800) = "2024-05-01T10:30:00+00:00")
    by (vm_compute; reflexivity).
  assert (Hrecent : stamp_before 23 0 7200 = "2024-05-01T13:00:00+00:00")
    by (vm_compute; reflexivity).
  rewrite Hold, Hrecent.
  assert (Hp1 : IsoParser.dateFromString "2024-05-01T10:30:00+00:00"
                = Return 1714559400000%Z) by (vm_compute; reflexivity).
  assert (Hp2 : IsoParser.dateFromString "2024-05-01T13:00:00+00:00"
                = Return 1714568400000%Z) by (vm_compute; reflexivity).
  split; [reflexivity |]. split; [reflexivity |].
  split; [vm_compute; reflexivity |]. split; [vm_compute; reflexivity |].
  split.
  { rewrite (window_start clock_utc_minus_3 24
               (DateTime.mk_datetime 2024 5 1 9 0 0 0 None))
      by (vm_compute; reflexivity).
    rewrite hourly_pipeline_single.
    - rewrite (hour_of_day_interior_doc _ _ _ _ Hp1). reflexivity.
    - rewrite match_gte_str_interior_doc. vm_compute. reflexivity.
    - exact (summarisable_interior_doc _ _ _ _ Hp1). }
  split; [reflexivity |].
  split.
  { rewrite (window_start clock_utc_plus_2 24
               (DateTime.mk_datetime 2024 5 1 14 0 0 0 None))
      by (vm_compute; reflexivity).
    rewrite hourly_pipeline_none; [reflexivity |].
    rewrite match_gte_str_interior_doc. vm_compute. reflexivity. }
  split.
  { rewrite (window_start clock_utc 24
               (DateTime.mk_datetime 2024 5 1 12 0 0 0 None))
      by (vm_compute; reflexivity).
    rewrite hourly_pipeline_none; [reflexivity |].
    rewrite match_gte_str_interior_doc. vm_compute. reflexivity. }
  rewrite (window_start clock_utc 24
             (DateTime.mk_datetime 2024 5 1 12 0 0 0 None))
    by (vm_compute; reflexivity).
  rewrite hourly_pipeline_single.
  - rewrite (hour_of_day_interior_doc _ _ _ _ Hp2). reflexivity.
  - rewrite match_gte_str_interior_doc. vm_compute. reflexivity.
  - exact (summarisable_interior_doc _ _ _ _ Hp2).
Qed.

End WindowExamples.

(** ** The hourly summary on two days *)

Section HourlyWitness.

Import Mongo Analysis.

Lemma two_days_selected :
  selected
    (DateTime.isoformat (DateTime.mk_datetime 2024 4 30 12 0 0 0 None))
    two_days = two_days.
Proof.
  unfold selected, two_days. simpl List.filter.
  rewrite !match_gte_str_interior_doc.
  replace (DateTime.isoformat (DateTime.mk_datetime 2024 4 30 12 0 0 0 None))
    with "2024-04-30T12:00:00" by (vm_compute; reflexivity).
  change (String.leb "2024-04-30T12:00:00" "2024-05-01T10:30:00+00:00")
    with true.
  change (String.leb "2024-04-30T12:00:00" "2024-05-02T10:15:00.250000+00:00")
    with true.
  reflexivity.
Qed.

Lemma two_days_parse :
  IsoParser.dateFromString "2024-05-01T10:30:00+00:00"
    = Return 1714559400000%Z
  /\ IsoParser.dateFromString "2024-05-02T10:15:00.250000+00:00"
     = Return 1714644900250%Z.
Proof. split; vm_compute; reflexivity. Qed.

Lemma two_days_bucket :
  bucket IsoParser.dateFromString two_days
    (interior_doc "sensor_01" 20 "2024-05-01T10:30:00+00:00") = two_days.
Proof.
  destruct two_days_parse as [H1 H2].
  unfold bucket, two_days. simpl List.filter.
  rewrite (hour_of_day_interior_doc "sensor_01" 20 _ _ H1),
          (hour_of_day_interior_doc "sensor_03" 22 _ _ H2).
  rewrite !bool_decide_eq_true_2; [reflexivity | |]; split; reflexivity.
Qed.


End HourlyWitness.

(** ** Errors never leave the analyzer *)

Section ErrorFacts.

Import Mongo Analysis.

Variable dateFromString : string -> outcome Z.

Lemma try_except_caught {A} (body : outcome (list A)) (e : exn) :
  body = Raise e -> is_Exception e = true ->
  try_except_Exception body (fun _ => Return []) = Return [].
Proof. intros -> He. unfold try_except_Exception. now rewrite He. Qed.

Lemma try_except_no_escape {A} (body : outcome (list A)) (e : exn) :
  is_Exception e = true ->
  try_except_Exception body (fun _ => Return []) <> Raise e.
Proof.
  intros He. unfold try_except_Exception.
  destruct body as [l | e']; [discriminate |].
  destruct (is_Exception e') eqn:He'; [discriminate |].
  intros H. injection H as ->. congruence.
Qed.

Lemma datetime_errors_are_Exceptions (clk : DateTime.clock) (hours_back : Z)
    (e : exn) :
  (delta ← DateTime.timedelta_hours hours_back;
   DateTime.sub_timedelta (DateTime.now clk) delta) = Raise e ->
  is_Exception e = true.
Proof.
  unfold DateTime.timedelta_hours, DateTime.sub_timedelta, DateTime.add_timedelta.
  destruct (Z.leb _ _); [| intros H; injection H as <-; reflexivity].
  rewrite (bind_Return _ _ _ eq_refl).
  destruct (andb _ _).
  - destruct (DateTime._ord2ymd _) as [[y m] d]. discriminate.
  - intros H; injection H as <-; reflexivity.
Qed.

Lemma average_temperature_by_hour_store_error (clk : DateTime.clock)
    (hours_back : Z) (e : exn) :
  is_Exception e = true ->
  average_temperature_by_hour dateFromString
    (mk_AdvancedAnalysis (Some (Raise e))) clk hours_back = Return [].
Proof.
  intros He. unfold average_temperature_by_hour, average_temperature_by_hour_try.
  cbn [collection].
  pose proof (datetime_errors_are_Exceptions clk hours_back) as Hdt.
  destruct (DateTime.timedelta_hours hours_back) as [delta | e1] eqn:Hd.
  - rewrite (bind_Return _ _ delta eq_refl).
    destruct (DateTime.sub_timedelta (DateTime.now clk) delta) as [st | e2] eqn:Hs.
    + rewrite (bind_Return _ _ st eq_refl).
      now apply (try_except_caught _ e).
    + apply (try_except_caught _ e2); [reflexivity |].
      apply Hdt. now rewrite (bind_Return _ _ delta eq_refl).
  - apply (try_except_caught _ e1); [reflexivity | now apply Hdt].
Qed.

(** C8.  Each of the three analyzer operations returns the empty list
    when no connection was established, when the store raises an error,
    and whenever its [try] block raises an error (a computation error
    included); and none of them ever ends in an [Exception]. *)
Theorem analyzer_operations_degrade_to_empty (clk : DateTime.clock)
    (hours_back : Z) (field : string) (z_threshold : R) :
  (average_temperature_by_hour dateFromString (mk_AdvancedAnalysis None)
     clk hours_back = Return []
   /\ count_readings_by_sensor (mk_AdvancedAnalysis None) = Return []
   /\ detect_outliers (mk_AdvancedAnalysis None) field z_threshold = Return [])
  /\ (forall e : exn, is_Exception e = true ->
        average_temperature_by_hour dateFromString
          (mk_AdvancedAnalysis (Some (Raise e))) clk hours_back = Return []
        /\ count_readings_by_sensor (mk_AdvancedAnalysis (Some (Raise e)))
           = Return []
        /\ detect_outliers (mk_AdvancedAnalysis (Some (Raise e))) field
             z_threshold = Return [])
  /\ (forall (c : Collection) (e : exn), is_Exception e = true ->
        (average_temperature_by_hour_try dateFromString c clk hours_back
           = Raise e ->
         average_temperature_by_hour dateFromString
           (mk_AdvancedAnalysis (Some c)) clk hours_back = Return [])
        /\ (count_readings_by_sensor_try c = Raise e ->
            count_readings_by_sensor (mk_AdvancedAnalysis (Some c)) = Return [])
        /\ (detect_outliers_try c field z_threshold = Raise e ->
            detect_outliers (mk_AdvancedAnalysis (Some c)) field z_threshold
              = Return []))
  /\ (forall (self : AdvancedAnalysis) (e : exn), is_Exception e = true ->
        average_temperature_by_hour dateFromString self clk hours_back
          <> Raise e
        /\ count_readings_by_sensor self <> Raise e
        /\ detect_outliers self field z_threshold <> Raise e).
Proof.
  split; [repeat split |]. split; [| split].
  - intros e He. split; [now apply average_temperature_by_hour_store_error |].
    split; now apply (try_except_caught _ e).
  - intros c e He. unfold average_temperature_by_hour, count_readings_by_sensor,
      detect_outliers. cbn [collection].
    repeat split; intros H; now apply (try_except_caught _ e).
  - intros [[c |]] e He; unfold average_temperature_by_hour,
      count_readings_by_sensor, detect_outliers; cbn [collection].
    + repeat split; now apply try_except_no_escape.
    + repeat split; discriminate.
Qed.

End ErrorFacts.

Section ErrorWitness.

Import Mongo Analysis.

Lemma detect_outliers_try_broken :
  detect_outliers_try (Return [broken_reading; broken_reading]) "temperature" 2.5
  = Raise TypeError.
Proof. reflexivity. Qed.

(** An unreachable server, and a reading that breaks the arithmetic. *)
Lemma analyzer_operations_degrade_to_empty_witness :
  average_temperature_by_hour IsoParser.dateFromString
    (mk_AdvancedAnalysis (Some (Raise (PyMongoError "ServerSelectionTimeoutError"))))
    clock_utc 24 = Return []
  /\ detect_outliers
       (mk_AdvancedAnalysis (Some (Return [broken_reading; broken_reading])))
       "temperature" 2.5 = Return [].
Proof.
  destruct (analyzer_operations_degrade_to_empty IsoParser.dateFromString
              clock_utc 24 "temperature" 2.5) as (_ & Hstore & Htry & _).
  split.
  - exact (proj1 (Hstore (PyMongoError "ServerSelectionTimeoutError") eq_refl)).
  - exact (proj2 (proj2 (Htry (Return [broken_reading; broken_reading])
                           TypeError eq_refl))
             detect_outliers_try_broken).
Defined.

End ErrorWitness.

(** ** A random reading *)

Section RandomReadingFacts.

Import Random Simulator.

Lemma generate_interior_reading_run (clk : DateTime.clock) (g : rng) :
  exists (d loc : string) (t : R) (h l : Z),
    generate_interior_reading __init__ clk None g
    = Return (dict_literal
        [("device_id", VStr d); ("type", VStr "interior");
         ("temperature", VNum (round t 1)); ("humidity", VNum (IZR h));
         ("light", VNum (IZR l)); ("unit", VStr "C");
         ("location", VStr loc);
         ("timestamp", VStr (DateTime.isoformat (DateTime.now_utc clk)))],
        advance (advance (advance (advance (advance g)))))
    /\ d ∈ interior_sensors __init__ /\ loc ∈ interior_locations __init__
    /\ (18 <= t <= 28)%R /\ (30 <= h <= 70)%Z /\ (100 <= l <= 500)%Z.
Proof.
  unfold generate_interior_reading. cbn [interior_sensors interior_temp_range
    interior_humidity_range interior_light_range interior_locations __init__ fst snd].
  destruct (choice_elem "sensor_01" ["sensor_03"; "sensor_05"] g) as (d & Hd & Hdin).
  rewrite (bind_run _ _ _ _ _ Hd).
  destruct (uniform_range 18 28 (advance g)) as (t & Ht & Htr); [lra |].
  rewrite (bind_run _ _ _ _ _ Ht).
  destruct (randint_range 30 70 (advance (advance g))) as (h & Hh & Hhr); [lia |].
  rewrite (bind_run _ _ _ _ _ Hh).
  destruct (randint_range 100 500 (advance (advance (advance g)))) as (l & Hl & Hlr); [lia |].
  rewrite (bind_run _ _ _ _ _ Hl).
  destruct (choice_elem "Sala 1" ["Sala 2"; "Oficina A"; "Oficina B"]
              (advance (advance (advance (advance g))))) as (loc & Hloc & Hlocin).
  rewrite (bind_run _ _ _ _ _ Hloc).
  exists d, loc, t, h, l. split; [reflexivity |]. tauto.
Qed.

Lemma generate_exterior_reading_run (clk : DateTime.clock) (g : rng) :
  exists (d loc : string) (c u : R) (l : Z),
    generate_exterior_reading __init__ clk None g
    = Return (dict_literal
        [("device_id", VStr d); ("type", VStr "exterior");
         ("temperature", VNum (_celsius_to_fahrenheit c));
         ("light", VNum (IZR l)); ("uv_index", VNum (round u 1));
         ("unit", VStr "F"); ("location", VStr loc);
         ("timestamp", VStr (DateTime.isoformat (DateTime.now_utc clk)))],
        advance (advance (advance (advance (advance g)))))
    /\ d ∈ exterior_sensors __init__ /\ loc ∈ exterior_locations __init__
    /\ (5 <= c <= 35)%R /\ (0 <= u <= 11)%R /\ (200 <= l <= 1000)%Z.
Proof.
  unfold generate_exterior_reading. cbn [exterior_sensors exterior_temp_range
    exterior_light_range uv_index_range exterior_locations __init__ fst snd].
  destruct (choice_elem "sensor_02" ["sensor_04"; "sensor_06"] g) as (d & Hd & Hdin).
  rewrite (bind_run _ _ _ _ _ Hd).
  destruct (uniform_range 5 35 (advance g)) as (c & Hc & Hcr); [lra |].
  rewrite (bind_run _ _ _ _ _ Hc).
  destruct (randint_range 200 1000 (advance (advance g))) as (l & Hl & Hlr); [lia |].
  rewrite (bind_run _ _ _ _ _ Hl).
  destruct (uniform_range 0 11 (advance (advance (advance g)))) as (u & Hu & Hur); [lra |].
  rewrite (bind_run _ _ _ _ _ Hu).
  destruct (choice_elem "Patio" ["Jardín"; "Terraza"; "Entrada"]
              (advance (advance (advance (advance g))))) as (loc & Hloc & Hlocin).
  rewrite (bind_run _ _ _ _ _ Hloc).
  exists d, loc, c, u, l. split; [reflexivity |]. tauto.
Qed.

Lemma interior_dict_dom (d loc ts : string) (t h l : R) :
  dom (dict_literal
        [("device_id", VStr d); ("type", VStr "interior");
         ("temperature", VNum t); ("humidity", VNum h);
         ("light", VNum l); ("unit", VStr "C");
         ("location", VStr loc); ("timestamp", VStr ts)])
  = (list_to_set ["device_id"; "type"; "temperature"; "humidity"; "light";
                  "unit"; "location"; "timestamp"] : gset string).
Proof.
  unfold dict_literal. cbn [fold_left fst snd list_to_set].
  rewrite !dom_insert_L, dom_empty_L. set_solver.
Qed.

Lemma exterior_dict_dom (d loc ts : string) (t l u : R) :
  dom (dict_literal
        [("device_id", VStr d); ("type", VStr "exterior");
         ("temperature", VNum t); ("light", VNum l);
         ("uv_index", VNum u); ("unit", VStr "F");
         ("location", VStr loc); ("timestamp", VStr ts)])
  = (list_to_set ["device_id"; "type"; "temperature"; "light"; "uv_index";
                  "unit"; "location"; "timestamp"] : gset string).
Proof.
  unfold dict_literal. cbn [fold_left fst snd list_to_set].
  rewrite !dom_insert_L, dom_empty_L. set_solver.
Qed.

Lemma celsius_to_fahrenheit_near (c : R) :
  (Rabs (_celsius_to_fahrenheit c - (c * 9 / 5 + 32)) <= 1 / 20)%R.
Proof.
  unfold _celsius_to_fahrenheit.
  destruct (round_decimal (c * 9 / 5 + 32) 1) as (k & _ & Hk).
  simpl in Hk. eapply Rle_trans; [exact Hk | lra].
Qed.

Lemma celsius_to_fahrenheit_range (c : R) :
  (5 <= c <= 35)%R ->
  (5 <= (_celsius_to_fahrenheit c - 32) / 1.8 <= 35)%R.
Proof.
  intros Hc. unfold _celsius_to_fahrenheit.
  destruct (round_between 410 950 (c * 9 / 5 + 32) 1) as (k & Hk & Hkr).
  - simpl. lra.
  - rewrite Hk. destruct Hkr as [Hk1 Hk2]. apply IZR_le in Hk1, Hk2.
    simpl. lra.
Qed.

Lemma round_range_tenths (a b : Z) (x : R) :
  (IZR a / 10 <= x <= IZR b / 10)%R -> (IZR a / 10 <= round x 1 <= IZR b / 10)%R.
Proof.
  intros H. destruct (round_between a b x 1) as (k & Hk & Hkr).
  - simpl. lra.
  - rewrite Hk. destruct Hkr as [Hk1 Hk2]. apply IZR_le in Hk1, Hk2.
    simpl. lra.
Qed.

Lemma generate_interior_reading_shape (clk : DateTime.clock) (g : rng) :
  exists reading : gmap string value,
    generate_interior_reading __init__ clk None g
    = Return (reading, advance (advance (advance (advance (advance g)))))
    /\ interior_reading reading
    /\ reading !! "timestamp"
       = Some (VStr (DateTime.isoformat (DateTime.now_utc clk))).
Proof.
  destruct (generate_interior_reading_run clk g)
    as (d & loc & t & h & l & Hrun & Hd & Hloc & Ht & _ & _).
  eexists. split; [exact Hrun |]. split; [| reflexivity].
  split; [apply interior_dict_dom |].
  split; [reflexivity |]. split; [reflexivity |].
  split; [exists d; split; [reflexivity | exact Hd] |].
  split; [exists loc; split; [reflexivity | exact Hloc] |].
  exists (round t 1). split; [reflexivity |].
  pose proof (round_range_tenths 180 280 t) as H. lra.
Qed.

Lemma generate_exterior_reading_shape (clk : DateTime.clock) (g : rng) :
  exists reading : gmap string value,
    generate_exterior_reading __init__ clk None g
    = Return (reading, advance (advance (advance (advance (advance g)))))
    /\ exterior_reading reading
    /\ reading !! "timestamp"
       = Some (VStr (DateTime.isoformat (DateTime.now_utc clk))).
Proof.
  destruct (generate_exterior_reading_run clk g)
    as (d & loc & c & u & l & Hrun & Hd & Hloc & Hc & _ & _).
  eexists. split; [exact Hrun |]. split; [| reflexivity].
  split; [apply exterior_dict_dom |].
  split; [reflexivity |]. split; [reflexivity |].
  split; [exists d; split; [reflexivity | exact Hd] |].
  split; [exists loc; split; [reflexivity | exact Hloc] |].
  exists (_celsius_to_fahrenheit c). split; [reflexivity |].
  now apply celsius_to_fahrenheit_range.
Qed.

Lemma generate_random_reading_cases (clk : DateTime.clock) (g : rng) :
  exists reading : gmap string value,
    generate_random_reading __init__ clk g
    = Return (reading,
              advance (advance (advance (advance (advance (advance g))))))
    /\ reading !! "timestamp"
       = Some (VStr (DateTime.isoformat (DateTime.now_utc clk)))
    /\ (((tape g (pos g)) mod 2 = 0)%Z /\ interior_reading reading
        \/ ((tape g (pos g)) mod 2 = 1)%Z /\ exterior_reading reading).
Proof.
  unfold generate_random_reading.
  assert (Hc : choice ["interior"; "exterior"] g
               = Return (nth (Z.to_nat (tape g (pos g) mod 2))
                             ["interior"; "exterior"] "interior", advance g))
    by reflexivity.
  rewrite (bind_run _ _ _ _ _ Hc).
  assert (Hm : (0 <= tape g (pos g) mod 2 < 2)%Z) by (apply Z.mod_pos_bound; lia).
  assert (Hcase : (tape g (pos g) mod 2 = 0 \/ tape g (pos g) mod 2 = 1)%Z) by lia.
  destruct Hcase as [H0 | H1].
  - rewrite H0. cbn [Z.to_nat nth String.eqb]. 
    change ("interior" =? "interior")%string with true. cbn iota.
    destruct (generate_interior_reading_shape clk (advance g)) as (r & Hr & Hs & Ht).
    exists r. split; [exact Hr |]. split; [exact Ht |]. left. now split.
  - rewrite H1. 
    change (nth (Z.to_nat 1) ["interior"; "exterior"] "interior") with "exterior".
    change ("exterior" =? "interior")%string with false. cbn iota.
    destruct (generate_exterior_reading_shape clk (advance g)) as (r & Hr & Hs & Ht).
    exists r. split; [exact Hr |]. split; [exact Ht |]. right. now split.
Qed.

(** X1.  [generate_random_reading] always returns, after six draws from
    the generator; the parity of the first draw decides the kind; the
    reading carries the UTC instant of the call and is a well-formed
    interior reading (a humidity, no uv_index) or a well-formed exterior
    reading (a uv_index, no humidity), never a mixture. *)
Theorem generate_random_reading_kinds (clk : DateTime.clock) (g : rng) :
  exists (reading : gmap string value) (g' : rng),
    generate_random_reading __init__ clk g = Return (reading, g')
    /\ tape g' = tape g /\ pos g' = (pos g + 6)%nat
    /\ reading !! "timestamp"
       = Some (VStr (DateTime.isoformat (DateTime.now_utc clk)))
    /\ (((tape g (pos g)) mod 2 = 0)%Z /\ interior_reading reading
          /\ reading !! "uv_index" = None /\ is_Some (reading !! "humidity")
        \/ ((tape g (pos g)) mod 2 = 1)%Z /\ exterior_reading reading
          /\ reading !! "humidity" = None /\ is_Some (reading !! "uv_index")).
Proof.
  destruct (generate_random_reading_cases clk g) as (r & Hr & Ht & Hk).
  exists r, (advance (advance (advance (advance (advance (advance g)))))).
  split; [exact Hr |]. split; [reflexivity |].
  split; [cbn; lia |]. split; [exact Ht |].
  destruct Hk as [[H0 Hi] | [H1 He]]; [left | right].
  - split; [exact H0 |]. split; [exact Hi |]. destruct Hi as (Hdom & _).
    split.
    + apply not_elem_of_dom. rewrite Hdom. unfold interior_keys.
      rewrite elem_of_list_to_set, list_elem_of_In. simpl. intuition discriminate.
    + apply elem_of_dom. rewrite Hdom. unfold interior_keys.
      rewrite elem_of_list_to_set, list_elem_of_In. simpl. tauto.
  - split; [exact H1 |]. split; [exact He |]. destruct He as (Hdom & _).
    split.
    + apply not_elem_of_dom. rewrite Hdom. unfold exterior_keys.
      rewrite elem_of_list_to_set, list_elem_of_In. simpl. intuition discriminate.
    + apply elem_of_dom. rewrite Hdom. unfold exterior_keys.
      rewrite elem_of_list_to_set, list_elem_of_In. simpl. tauto.
Qed.

End RandomReadingFacts.

(** ** The cases of detect_outliers *)

Section ThresholdFacts.

Import Mongo Analysis.

Lemma normalized_raise (field : string) (reading : document) (raw : value) (e : exn) :
  normalized field reading raw = Raise e -> e = TypeError.
Proof.
  unfold normalized.
  destruct (bool_decide (field = "temperature")
            && bool_decide (dict_get reading "unit" = VStr "F")); [| discriminate].
  destruct raw; simpl; intros H; congruence.
Qed.

Lemma collect_values_raise (field : string) (rs : list document) (e : exn) :
  collect_values field rs = Raise e -> e = TypeError.
Proof.
  induction rs as [| r rs IH]; simpl; [discriminate |].
  destruct (r !! field) as [raw |]; [| exact IH].
  destruct (normalized field r raw) as [v | e'] eqn:Hn.
  - simpl. destruct (collect_values field rs) as [vs | e'']; simpl.
    + discriminate.
    + intros H. injection H as <-. now apply IH.
  - simpl. intros H. injection H as <-. now apply normalized_raise in Hn.
Qed.

Lemma collect_values_elem (field : string) (rs : list document) (vs : list value)
    (r : document) (raw v : value) :
  collect_values field rs = Return vs -> r ∈ rs -> r !! field = Some raw ->
  normalized field r raw = Return v -> v ∈ vs.
Proof.
  revert vs. induction rs as [| r0 rs IH]; simpl; intros vs H Hin Hraw Hn.
  - inversion Hin.
  - apply elem_of_cons in Hin as [<- | Hin].
    + rewrite Hraw, Hn in H. simpl in H.
      destruct (collect_values field rs) as [vs' |]; [| discriminate].
      simpl in H. injection H as <-. left.
    + destruct (r0 !! field) as [raw0 |].
      * destruct (normalized field r0 raw0) as [v0 |]; [| discriminate].
        simpl in H.
        destruct (collect_values field rs) as [vs' |]; [| discriminate].
        simpl in H. injection H as <-. right. now apply (IH vs').
      * now apply IH.
Qed.

Lemma traverse_to_num_raise (vs : list value) (e : exn) :
  traverse to_num vs = Raise e -> e = TypeError.
Proof.
  induction vs as [| v vs IH]; simpl; [discriminate |].
  destruct v; simpl; try (intros H; congruence).
  destruct (traverse to_num vs) as [xs | e']; simpl; [discriminate |].
  intros H. injection H as <-. now apply IH.
Qed.

Local Abbreviation fetch_fields field :=
  (projection [field; "device_id"; "type"; "timestamp"; "unit"]).

(** The ways [detect_outliers_try] ends on a collection that answers. *)
Lemma detect_outliers_try_cases (docs : list document) (field : string) :
  (forall t, detect_outliers_try (Return docs) field t = Return [])
  \/ (forall t, detect_outliers_try (Return docs) field t = Raise TypeError)
  \/ exists (values : list value) (xs : list R),
       collect_values field (map (fetch_fields field) docs) = Return values
       /\ traverse to_num values = Return xs
       /\ (2 <= length xs)%nat /\ stdev xs <> 0%R.
Proof.
  remember (map (fetch_fields field) docs) as rs eqn:Hrs.
  assert (Hfind : find (Return docs) [field; "device_id"; "type"; "timestamp"; "unit"]
                  = Return rs) by (subst rs; reflexivity).
  unfold detect_outliers_try.
  destruct rs as [| r0 rest].
  { left. intros t. now rewrite (bind_Return _ _ _ Hfind). }
  destruct (collect_values field (r0 :: rest)) as [values | e] eqn:Hvals.
  2:{ right; left. intros t. rewrite (bind_Return _ _ _ Hfind).
      apply collect_values_raise in Hvals as Hte. subst e.
      now rewrite (bind_Raise _ _ _ Hvals). }
  destruct (Nat.ltb_spec (length values) 2) as [Hlt | Hlen].
  { left. intros t. rewrite (bind_Return _ _ _ Hfind), (bind_Return _ _ _ Hvals).
    destruct (Nat.ltb_spec (length values) 2); [reflexivity | lia]. }
  destruct (traverse to_num values) as [xs | e] eqn:Hnum.
  2:{ right; left. intros t.
      rewrite (bind_Return _ _ _ Hfind), (bind_Return _ _ _ Hvals).
      destruct (Nat.ltb_spec (length values) 2); [lia |].
      apply traverse_to_num_raise in Hnum as Hte. subst e.
      rewrite (bind_Raise _ _ TypeError); [reflexivity |].
      unfold statistics_mean. now rewrite (bind_Raise _ _ _ Hnum). }
  pose proof (traverse_length _ _ _ Hnum) as Hlen'.
  destruct (Req_dec_T (stdev xs) 0) as [Hz | Hnz].
  { left. intros t.
    rewrite (bind_Return _ _ _ Hfind), (bind_Return _ _ _ Hvals).
    destruct (Nat.ltb_spec (length values) 2); [lia |].
    rewrite (bind_Return _ _ (mean xs))
      by (apply statistics_mean_numbers;
          [assumption | destruct xs; simpl in *; [lia | discriminate]]).
    destruct (Nat.ltb_spec 1 (length values)); [| lia].
    rewrite (bind_Return _ _ (stdev xs))
      by (apply statistics_stdev_numbers; [assumption | lia]).
    destruct (Req_dec_T (stdev xs) 0); [reflexivity | contradiction]. }
  right; right. exists values, xs. repeat split; try assumption. lia.
Qed.

End ThresholdFacts.

Section NineValues.

Import Mongo Analysis.

Local Open Scope R_scope.

Lemma mean_nine_values : mean nine_values = 1.
Proof. unfold mean, nine_values, fsum. simpl. field. Qed.

Lemma stdev_nine_values : stdev nine_values = 3.
Proof.
  unfold stdev.
  replace (variance nine_values) with (3 * 3).
  - apply sqrt_square. lra.
  - unfold variance, sum_sq_dev. rewrite mean_nine_values.
    unfold nine_values, fsum. simpl. field.
Qed.

End NineValues.

(** ** The threshold of detect_outliers *)

Section ThresholdOrder.

Import Mongo Analysis.

Lemma collect_outliers_sublist (field : string) (t1 t2 m s : R)
    (rs : list document) :
  (t1 <= t2)%R ->
  match collect_outliers field t1 m s rs, collect_outliers field t2 m s rs with
  | Return o1, Return o2 => sublist o2 o1
  | Raise e1, Raise e2 => e1 = e2
  | _, _ => False
  end.
Proof.
  intros Ht. induction rs as [| r rs IH]; simpl; [constructor |].
  destruct (r !! field) as [raw |]; [| exact IH].
  destruct (normalized field r raw) as [v | e]; simpl; [| reflexivity].
  destruct (to_num v) as [x | e]; simpl; [| reflexivity].
  destruct (truediv (x - m) s) as [q | e]; simpl; [| reflexivity].
  destruct (collect_outliers field t1 m s rs) as [o1 | e1],
           (collect_outliers field t2 m s rs) as [o2 | e2];
    simpl; try exact IH; try (exfalso; exact IH).
  destruct (Rlt_dec t1 (Rabs q)), (Rlt_dec t2 (Rabs q)).
  - now apply sublist_skip.
  - now apply sublist_cons.
  - exfalso. lra.
  - exact IH.
Qed.

Lemma traverse_decorate {A} (key : A -> outcome R) (l : list A)
    (ks : list (R * A)) :
  traverse (fun x => k ← key x; Return (k, x)) l = Return ks -> map snd ks = l.
Proof.
  revert ks. induction l as [| x l IH]; simpl; intros ks H.
  - now injection H as <-.
  - destruct (key x) as [k |]; [| discriminate]. simpl in H.
    destruct (traverse (fun x => k ← key x; Return (k, x)) l) as [ks' |];
      [| discriminate].
    simpl in H. injection H as <-. simpl. f_equal. now apply IH.
Qed.

Lemma list_sort_key_reverse_perm {A} (key : A -> outcome R) (l l' : list A) :
  list_sort_key_reverse key l = Return l' -> Permutation l' l.
Proof.
  unfold list_sort_key_reverse. intros H.
  destruct (traverse (fun x => k ← key x; Return (k, x)) l) as [ks |] eqn:Hks;
    [| discriminate].
  simpl in H. injection H as <-.
  rewrite <- (traverse_decorate _ _ _ Hks).
  apply Permutation_map, sort_reverse_perm.
Qed.

Local Abbreviation fetch_fields field :=
  (projection [field; "device_id"; "type"; "timestamp"; "unit"]).

Lemma detect_outliers_try_normal (docs : list document) (field : string)
    (t : R) (values : list value) (xs : list R) :
  collect_values field (map (fetch_fields field) docs) = Return values ->
  traverse to_num values = Return xs ->
  (2 <= length xs)%nat -> stdev xs <> 0%R ->
  detect_outliers_try (Return docs) field t
  = (outliers ← collect_outliers field t (mean xs) (stdev xs)
                  (map (fetch_fields field) docs);
     list_sort_key_reverse (fun x => z ← getitem x "z_score"; to_num z) outliers).
Proof.
  intros Hvals Hnum Hlen Hsd.
  pose proof (traverse_length _ _ _ Hnum) as Hlen'.
  unfold detect_outliers_try.
  rewrite (bind_Return _ _ (map (fetch_fields field) docs)) by reflexivity.
  destruct (map (fetch_fields field) docs) as [| r0 rest] eqn:Hrs.
  { simpl in Hvals. injection Hvals as <-. simpl in Hnum.
    injection Hnum as <-. simpl in Hlen. lia. }
  rewrite (bind_Return _ _ _ Hvals).
  destruct (Nat.ltb_spec (length values) 2); [lia |].
  rewrite (bind_Return _ _ (mean xs))
    by (apply statistics_mean_numbers;
        [assumption | destruct xs; simpl in *; [lia | discriminate]]).
  destruct (Nat.ltb_spec 1 (length values)); [| lia].
  rewrite (bind_Return _ _ (stdev xs))
    by (now apply statistics_stdev_numbers).
  destruct (Req_dec_T (stdev xs) 0) as [| _]; [contradiction |].
  reflexivity.
Qed.

(** X3.  Raising the threshold only removes outliers: when
    [detect_outliers] returns for two thresholds [t1 <= t2] on the same
    analyzer and field, the outliers for [t2] are among those for [t1],
    counted with multiplicity. *)
Theorem detect_outliers_threshold_monotone (self : AdvancedAnalysis)
    (field : string) (t1 t2 : R) (out1 out2 : list document) :
  (t1 <= t2)%R ->
  detect_outliers self field t1 = Return out1 ->
  detect_outliers self field t2 = Return out2 ->
  out2 ⊆+ out1 /\ (length out2 <= length out1)%nat.
Proof.
  intros Ht H1 H2.
  enough (Hsub : out2 ⊆+ out1) by (split; [exact Hsub | now apply submseteq_length]).
  destruct self as [[[docs | e] |]]; unfold detect_outliers in H1, H2;
    cbn [collection] in H1, H2.
  - destruct (detect_outliers_try_cases docs field)
      as [H | [H | (values & xs & Hvals & Hnum & Hlen & Hsd)]].
    + rewrite H in H1, H2. simpl in H1, H2. injection H2 as <-.
      apply submseteq_nil_l.
    + rewrite H in H1, H2. simpl in H1, H2. injection H2 as <-.
      apply submseteq_nil_l.
    + rewrite (detect_outliers_try_normal docs field t1 values xs) in H1
        by assumption.
      rewrite (detect_outliers_try_normal docs field t2 values xs) in H2
        by assumption.
      pose proof (collect_outliers_sublist field t1 t2 (mean xs) (stdev xs)
                    (map (fetch_fields field) docs) Ht) as Hs.
      destruct (collect_outliers_spec field t1 (mean xs) (stdev xs) _ values xs
                  Hsd Hvals Hnum) as (o1 & Ho1 & _).
      destruct (collect_outliers_spec field t2 (mean xs) (stdev xs) _ values xs
                  Hsd Hvals Hnum) as (o2 & Ho2 & _).
      rewrite Ho1, Ho2 in Hs.
      rewrite (bind_Return _ _ _ Ho1) in H1. rewrite (bind_Return _ _ _ Ho2) in H2.
      destruct (list_sort_key_reverse _ o1) as [r1 | e1] eqn:Hr1.
      * destruct (list_sort_key_reverse _ o2) as [r2 | e2] eqn:Hr2.
        -- simpl in H1, H2. injection H1 as <-. injection H2 as <-.
           apply list_sort_key_reverse_perm in Hr1, Hr2.
           rewrite Hr1, Hr2. now apply sublist_submseteq.
        -- simpl in H2. destruct (is_Exception e2); [| discriminate].
           injection H2 as <-. apply submseteq_nil_l.
      * exfalso.
        destruct (detect_outliers_try_run (Return docs) field t1 _ values xs
                    eq_refl Hvals Hnum Hlen Hsd) as (res & Htry & _).
        rewrite (detect_outliers_try_normal docs field t1 values xs) in Htry
          by assumption.
        rewrite (bind_Return _ _ _ Ho1), Hr1 in Htry. discriminate.
  - change (detect_outliers_try (Raise e) field t1) with (@Raise (list document) e) in H1.
    change (detect_outliers_try (Raise e) field t2) with (@Raise (list document) e) in H2.
    rewrite H1 in H2. injection H2 as <-. reflexivity.
  - injection H1 as <-. injection H2 as <-. reflexivity.
Qed.

End ThresholdOrder.

Section ThresholdOrderWitness.

Import Mongo Analysis.

(** On [nine_values], thresholds 1 and 2.5. *)
Lemma detect_outliers_threshold_monotone_witness :
  exists out1 out2 : list document,
    detect_outliers (mk_AdvancedAnalysis (Some (collection_of nine_values)))
      "temperature" 1 = Return out1
    /\ detect_outliers (mk_AdvancedAnalysis (Some (collection_of nine_values)))
         "temperature" 2.5 = Return out2
    /\ out2 ⊆+ out1 /\ (length out2 <= length out1)%nat.
Proof.
  assert (Hsd : stdev nine_values <> 0%R) by (rewrite stdev_nine_values; lra).
  destruct (detect_outliers_try_run (collection_of nine_values) "temperature"
              1 (fetched nine_values) (map VNum nine_values) nine_values
              eq_refl (fetched_values _) (traverse_to_num_VNum _))
    as (out1 & H1 & _); [simpl; lia | exact Hsd |].
  destruct (detect_outliers_try_run (collection_of nine_values) "temperature"
              2.5 (fetched nine_values) (map VNum nine_values) nine_values
              eq_refl (fetched_values _) (traverse_to_num_VNum _))
    as (out2 & H2 & _); [simpl; lia | exact Hsd |].
  assert (R1 : detect_outliers
                 (mk_AdvancedAnalysis (Some (collection_of nine_values)))
                 "temperature" 1 = Return out1)
    by (unfold detect_outliers; cbn [collection]; now rewrite H1).
  assert (R2 : detect_outliers
                 (mk_AdvancedAnalysis (Some (collection_of nine_values)))
                 "temperature" 2.5 = Return out2)
    by (unfold detect_outliers; cbn [collection]; now rewrite H2).
  exists out1, out2. split; [exact R1 |]. split; [exact R2 |].
  apply (detect_outliers_threshold_monotone
           (mk_AdvancedAnalysis (Some (collection_of nine_values)))
           "temperature" 1 2.5 out1 out2);
    [lra | exact R1 | exact R2].
Defined.

End ThresholdOrderWitness.

(** ** Rows of a summary: counts and statistics *)

Section SummaryFacts.

Import Mongo Analysis.

Lemma traverse_Forall2 {A B} (f : A -> outcome B) (l : list A) (l' : list B) :
  traverse f l = Return l' -> Forall2 (fun x y => f x = Return y) l l'.
Proof.
  revert l'. induction l as [| x l IH]; simpl; intros l' H.
  - injection H as <-. constructor.
  - destruct (f x) as [y |] eqn:Hy; [| discriminate]. simpl in H.
    destruct (traverse f l) as [ys |]; [| discriminate].
    simpl in H. injection H as <-. constructor; auto.
Qed.

Lemma Forall2_Permutation_r {A B} (P : A -> B -> Prop) (l : list A)
    (k k' : list B) :
  Forall2 P l k -> Permutation k k' ->
  exists l', Permutation l l' /\ Forall2 P l' k'.
Proof.
  intros HF Hp. revert l HF.
  induction Hp as [| y k k' Hp IH | y z k | k1 k2 k3 Hp1 IH1 Hp2 IH2]; intros l HF.
  - inversion HF; subst. exists []. split; constructor.
  - inversion HF as [| x ? l0 ? Hxy HF']; subst.
    destruct (IH l0 HF') as (l' & Hl & HF'').
    exists (x :: l'). split; [now constructor | now constructor].
  - inversion HF as [| x1 ? l1 ? H1 HF1]; subst.
    inversion HF1 as [| x2 ? l2 ? H2 HF2]; subst.
    exists (x2 :: x1 :: l2). split; [apply perm_swap |].
    repeat constructor; assumption.
  - destruct (IH1 l HF) as (l1 & Hl1 & HF1).
    destruct (IH2 l1 HF1) as (l2 & Hl2 & HF2).
    exists l2. split; [now transitivity l1 | assumption].
Qed.

(** The rows of [$group] + [$project] + [$sort]: one per group. *)
Lemma grouped_rows {P K : Type} `{EqDecision K} (key : P -> K)
    (row_fn : K * list P -> outcome document)
    (leb : document -> document -> bool) (ps : list P) (rows0 : list document) :
  traverse row_fn (group_by key ps) = Return rows0 ->
  exists gs : list (K * list P),
    Permutation (group_by key ps) gs
    /\ Forall2 (fun g r => row_fn g = Return r) gs (sort_by leb rows0).
Proof.
  intros H. apply traverse_Forall2 in H.
  apply (Forall2_Permutation_r _ _ _ (sort_by leb rows0)) in H; [exact H |].
  symmetry. apply sort_by_perm.
Qed.

Lemma counts_total_rows {P K : Type} `{EqDecision K} (key : P -> K)
    (f : string) (ps : list P) (gs : list (K * list P)) (rows : list document) :
  Permutation (group_by key ps) gs ->
  Forall2 (fun g r => r !! f = Some (VNum (INR (length g.2)))) gs rows ->
  counts_total f rows (length ps).
Proof.
  intros Hp HF. exists (map (fun g => length g.2) gs). split.
  - clear Hp. induction HF; simpl; constructor; auto.
  - rewrite <- (group_by_sizes key ps). now rewrite Hp.
Qed.

Local Open Scope R_scope.

Lemma round_mono (x y : R) (n : nat) : x <= y -> round x n <= round y n.
Proof.
  intros H. unfold round. pose proof (pow10_pos n) as Hp.
  apply Rmult_le_compat_r; [left; now apply Rinv_0_lt_compat |].
  apply IZR_le, round_half_even_mono. nra.
Qed.

Lemma fsum_bounds (lo hi : R) (xs : list R) :
  (forall x, x ∈ xs -> lo <= x <= hi) ->
  INR (length xs) * lo <= fsum xs <= INR (length xs) * hi.
Proof.
  induction xs as [| x xs IH]; intros H.
  - simpl. lra.
  - cbn [length fsum fold_right]. fold (fsum xs). rewrite S_INR.
    destruct (H x) as [H1 H2]; [left |].
    destruct IH as [H3 H4]; [intros y Hy; apply H; now right |]. lra.
Qed.

Lemma mean_between (lo hi : R) (xs : list R) :
  xs <> [] -> (forall x, x ∈ xs -> lo <= x <= hi) -> lo <= mean xs <= hi.
Proof.
  intros Hne H. pose proof (fsum_bounds lo hi xs H) as [H1 H2].
  assert (Hn : 0 < INR (length xs)).
  { destruct xs; [contradiction |]. rewrite length_cons, S_INR.
    pose proof (pos_INR (length xs)). lra. }
  unfold mean. split.
  - apply (Rmult_le_reg_r (INR (length xs))); [exact Hn |].
    unfold Rdiv. rewrite Rmult_assoc, Rinv_l by lra. lra.
  - apply (Rmult_le_reg_r (INR (length xs))); [exact Hn |].
    unfold Rdiv. rewrite Rmult_assoc, Rinv_l by lra. lra.
Qed.

Lemma fold_bson_max_str (l : list value) (v : value) :
  (exists s, VStr s ∈ v :: l) -> exists s, fold_left bson_max l v = VStr s.
Proof.
  revert v. induction l as [| w l IH]; intros v (s & Hs).
  - apply list_elem_of_singleton in Hs. subst. now exists s.
  - simpl. apply IH.
    apply elem_of_cons in Hs as [<- | Hs].
    + unfold bson_max. destruct w as [| y | t]; simpl.
      * exists s. left.
      * exists s. left.
      * destruct (String.leb s t); eexists; left.
    + apply elem_of_cons in Hs as [<- | Hs].
      * unfold bson_max. destruct v as [| y | t]; simpl.
        -- exists s. left.
        -- exists s. left.
        -- destruct (String.leb t s); eexists; left.
      * exists s. now right.
Qed.

Lemma non_null_shape (temps : list (option value)) :
  Forall (fun v => v <> VNone) (non_null temps).
Proof.
  induction temps as [| o temps IH]; [constructor |].
  unfold non_null in *. simpl. destruct o as [[| x | s] |]; simpl; auto;
    constructor; auto; discriminate.
Qed.

Lemma non_null_numbers (temps : list (option value)) (xs : list R) :
  non_null temps = map VNum xs -> numbers temps = xs.
Proof.
  revert xs. induction temps as [| o temps IH]; intros xs H.
  - destruct xs; [reflexivity | discriminate].
  - unfold non_null, numbers in *. simpl in *.
    destruct o as [[| x | s] |]; simpl in *; auto.
    + destruct xs as [| y xs]; [discriminate |]. simpl in H.
      injection H as -> H. f_equal. now apply IH.
    + destruct xs; discriminate.
Qed.

Lemma all_numbers (l : list value) :
  Forall (fun v => v <> VNone) l -> (forall s, VStr s ∉ l) ->
  exists xs, l = map VNum xs.
Proof.
  induction l as [| v l IH]; intros Hn Hs.
  - now exists [].
  - inversion Hn as [| ? ? Hv Hl]; subst.
    destruct IH as (xs & ->); [assumption | |].
    { intros s Hin. apply (Hs s). now right. }
    destruct v as [| x | s].
    + contradiction.
    + now exists (x :: xs).
    + exfalso. apply (Hs s). left.
Qed.

Lemma round_expr_Return (v r : value) (n : nat) :
  round_expr v n = Return r ->
  (v = VNone /\ r = VNone) \/ exists x, v = VNum x /\ r = VNum (round x n).
Proof.
  destruct v as [| x | s]; simpl; intros H; [| | discriminate].
  - injection H as <-. now left.
  - injection H as <-. right. now exists x.
Qed.

(** The three statistics of a group, after rounding. *)
Lemma acc_stats_ordered (temps : list (option value)) (lo a hi : value) :
  round_expr (acc_min temps) 2 = Return lo ->
  round_expr (acc_avg temps) 2 = Return a ->
  round_expr (acc_max temps) 2 = Return hi ->
  (lo = VNone /\ a = VNone /\ hi = VNone)
  \/ exists x y z : R,
       lo = VNum x /\ a = VNum y /\ hi = VNum z /\ x <= y <= z.
Proof.
  intros Hlo Ha Hhi.
  destruct (non_null temps) as [| v l] eqn:Hnn.
  - left. unfold acc_min, acc_avg, acc_max in *. rewrite Hnn in *.
    rewrite (non_null_numbers temps [] Hnn) in Ha.
    simpl in *. injection Hlo as <-. injection Ha as <-. injection Hhi as <-.
    auto.
  - right.
    assert (Hstr : forall s, VStr s ∉ v :: l).
    { intros s Hin. destruct (fold_bson_max_str l v) as (s' & Hs'); [now exists s |].
      unfold acc_max in Hhi. rewrite Hnn, Hs' in Hhi. discriminate. }
    pose proof (non_null_shape temps) as Hshape. rewrite Hnn in Hshape.
    destruct (all_numbers _ Hshape Hstr) as (xs & Hxs).
    destruct xs as [| x xs]; [discriminate |]. simpl in Hxs.
    injection Hxs as -> ->.
    assert (Hnum : numbers temps = x :: xs) by (now apply non_null_numbers).
    unfold acc_min, acc_avg, acc_max in *. rewrite Hnn in *. rewrite Hnum in Ha.
    rewrite fold_bson_min_VNum in Hlo. rewrite fold_bson_max_VNum in Hhi.
    simpl in Hlo, Ha, Hhi.
    injection Hlo as <-. injection Ha as <-. injection Hhi as <-.
    eexists _, _, _. split; [reflexivity |]. split; [reflexivity |].
    split; [reflexivity |].
    destruct (fold_Rmin_least xs x) as [_ Hmin].
    destruct (fold_Rmax_greatest xs x) as [_ Hmax].
    assert (Hb : fold_left Rmin xs x <= mean (x :: xs) <= fold_left Rmax xs x).
    { apply mean_between; [discriminate |]. intros y Hy. split; auto. }
    unfold mean in Hb. split; apply round_mono; apply Hb.
Qed.

End SummaryFacts.

Section HourlyTotals.

Import Mongo Analysis.

Variable dateFromString : string -> outcome Z.

Lemma hourly_row_fields (g : (value * option value) * list projected)
    (r : document) :
  hourly_row g = Return r ->
  r !! "readings_count" = Some (VNum (INR (length g.2)))
  /\ summary_ordered r.
Proof.
  unfold hourly_row. cbv zeta.
  destruct (round_expr (acc_avg (map p_temperature_celsius g.2)) 2)
    as [a |] eqn:Ha; [| discriminate].
  rewrite (bind_Return _ _ a eq_refl).
  destruct (round_expr (acc_min (map p_temperature_celsius g.2)) 2)
    as [lo |] eqn:Hlo; [| discriminate].
  rewrite (bind_Return _ _ lo eq_refl).
  destruct (round_expr (acc_max (map p_temperature_celsius g.2)) 2)
    as [hi |] eqn:Hhi; [| discriminate].
  rewrite (bind_Return _ _ hi eq_refl).
  intros H. injection H as <-.
  pose proof (acc_stats_ordered _ _ _ _ Hlo Ha Hhi) as Hord.
  destruct g as [[h ty] ps]. cbn [fst snd].
  split.
  - destruct ty; reflexivity.
  - destruct Hord as [(-> & -> & ->) | (x & y & z & -> & -> & -> & Hxyz)].
    + left. destruct ty; repeat split; reflexivity.
    + right. exists x, y, z. destruct ty; repeat split; try reflexivity; apply Hxyz.
Qed.

Lemma group_by_nil_inv {A K} `{EqDecision K} (key : A -> K) (l : list A) :
  group_by key l = [] -> l = [].
Proof.
  intros H. destruct l as [| x l]; [reflexivity |].
  destruct (group_by_grouped key (x :: l)) as (_ & _ & Hcov).
  specialize (Hcov x ltac:(left)). rewrite H in Hcov. inversion Hcov.
Qed.

Lemma hourly_pipeline_totals (start : string) (docs rows : list document) :
  hourly_pipeline dateFromString start docs = Return rows ->
  counts_total "readings_count" rows (length (selected start docs))
  /\ Forall summary_ordered rows
  /\ (rows = [] <-> selected start docs = []).
Proof.
  unfold hourly_pipeline. fold (selected start docs).
  destruct (traverse (project_stage dateFromString) (selected start docs))
    as [ps |] eqn:Hps; [| discriminate].
  rewrite (bind_Return _ _ ps eq_refl).
  destruct (traverse hourly_row (group_by group_key ps)) as [rows0 |] eqn:Hrows;
    [| discriminate].
  rewrite (bind_Return _ _ rows0 eq_refl). intros H. injection H as <-.
  destruct (grouped_rows group_key hourly_row hourly_leb ps rows0 Hrows)
    as (gs & Hperm & HF).
  pose proof (traverse_length _ _ _ Hps) as Hlen.
  split; [| split].
  - rewrite <- Hlen.
    apply (counts_total_rows group_key _ ps gs); [exact Hperm |].
    eapply Forall2_impl; [exact HF |]. intros g r Hg.
    now apply hourly_row_fields in Hg.
  - apply Forall2_Forall_r with (P := fun g r => hourly_row g = Return r) (l := gs);
      [exact HF |].
    apply Forall_forall. intros g _ r Hg. now apply hourly_row_fields in Hg.
  - split.
    + intros Hnil. rewrite Hnil in HF. inversion HF; subst.
      apply Permutation_nil_r in Hperm. apply group_by_nil_inv in Hperm. subst ps.
      destruct (selected start docs); [reflexivity | discriminate].
    + intros Hnil. rewrite Hnil in Hps. simpl in Hps. injection Hps as <-.
      simpl in Hrows. injection Hrows as <-. reflexivity.
Qed.


End HourlyTotals.

Section HourlyTotalsWitness.

Import Mongo Analysis.


End HourlyTotalsWitness.

(** ** queries.py: the average per sensor type *)

Section TypeAverageFacts.

Import Mongo Analysis Queries.

Lemma type_project_stage_numeric (d : document) :
  numeric_temperature d -> type_project_stage d = Return (typed_of d).
Proof.
  intros (t & Ht). unfold type_project_stage, typed_of, celsius.
  rewrite Ht. destruct (bool_decide (d !! "unit" = Some (VStr "F"))); simpl.
  - unfold Rminus at 1. rewrite Ropp_0, Rplus_0_r. reflexivity.
  - reflexivity.
Qed.

Lemma same_type_key (d d' : document) :
  same_key type_key (type_key (typed_of d)) (typed_of d')
  = bool_decide (type_of d' = type_of d).
Proof. reflexivity. Qed.

Lemma type_row_summary (ty : value) (b : list document) :
  b <> [] ->
  type_row (ty, map typed_of b) = Return (type_summary_row ty b).
Proof.
  intros Hb. unfold type_row, type_summary_row. cbn [fst snd].
  rewrite map_map. cbn [t_temperature_celsius typed_of].
  rewrite <- (map_map celsius (fun x => Some (VNum x))).
  unfold acc_avg, acc_min, acc_max.
  rewrite numbers_VNum, non_null_VNum, !length_map.
  destruct b as [| d b]; [contradiction |]. simpl map. cbv iota.
  rewrite fold_bson_min_VNum, fold_bson_max_VNum.
  reflexivity.
Qed.

Lemma type_summary_row_fields (ty : value) (b : list document) :
  type_summary_row ty b !! "sensor_type" = Some ty
  /\ type_summary_row ty b !! "total_readings" = Some (VNum (INR (length b)))
  /\ type_summary_row ty b !! "average_temperature_celsius"
     = Some (VNum (round (mean (map celsius b)) 2))
  /\ type_summary_row ty b !! "min_temperature_celsius"
     = Some (VNum (round (list_min (map celsius b)) 2))
  /\ type_summary_row ty b !! "max_temperature_celsius"
     = Some (VNum (round (list_max (map celsius b)) 2)).
Proof. repeat split; reflexivity. Qed.

Lemma same_type_self (ds : list document) (d : document) :
  d ∈ ds -> d ∈ same_type ds d.
Proof.
  intros Hd. apply list_elem_of_In, filter_In.
  split; [now apply list_elem_of_In |]. now apply bool_decide_eq_true.
Qed.

Lemma type_groups (ds : list document) (g : value * list typed) :
  g ∈ group_by type_key (map typed_of ds) ->
  exists d, d ∈ ds /\ g = (type_of d, map typed_of (same_type ds d)).
Proof.
  intros Hg. destruct g as [k ps].
  destruct (group_by_grouped type_key (map typed_of ds)) as (_ & Hent & _).
  destruct (Hent _ _ Hg) as [Hne Heq].
  destruct ps as [| p ps]; [contradiction |].
  assert (Hp : In p (List.filter (same_key type_key k) (map typed_of ds)))
    by (rewrite <- Heq; now left).
  apply filter_In in Hp as [Hp Hk].
  apply in_map_iff in Hp as (d & <- & Hd).
  unfold same_key in Hk. apply bool_decide_eq_true in Hk. subst k.
  exists d. split; [now apply list_elem_of_In |]. f_equal.
  rewrite Heq, filter_map_comm. f_equal.
Qed.

Lemma type_row_fields (g : value * list typed) (r : document) :
  type_row g = Return r ->
  r !! "total_readings" = Some (VNum (INR (length g.2)))
  /\ summary_ordered r.
Proof.
  unfold type_row. cbv zeta.
  destruct (round_expr (acc_avg (map t_temperature_celsius g.2)) 2)
    as [a |] eqn:Ha; [| discriminate].
  rewrite (bind_Return _ _ a eq_refl).
  destruct (round_expr (acc_min (map t_temperature_celsius g.2)) 2)
    as [lo |] eqn:Hlo; [| discriminate].
  rewrite (bind_Return _ _ lo eq_refl).
  destruct (round_expr (acc_max (map t_temperature_celsius g.2)) 2)
    as [hi |] eqn:Hhi; [| discriminate].
  rewrite (bind_Return _ _ hi eq_refl).
  intros H. injection H as <-.
  pose proof (acc_stats_ordered _ _ _ _ Hlo Ha Hhi) as Hord.
  split; [reflexivity |].
  destruct Hord as [(-> & -> & ->) | (x & y & z & -> & -> & -> & Hxyz)].
  - left. repeat split; reflexivity.
  - right. exists x, y, z. repeat split; try reflexivity; apply Hxyz.
Qed.

Lemma asc_by_total (f : string) (a b : document) :
  asc_by f a b = true \/ asc_by f b a = true.
Proof. apply bson_leb_total. Qed.


End TypeAverageFacts.

(** ** The BSON order is transitive *)

Section BsonOrderFacts.

Import Mongo.

Lemma string_leb_spec (s t : string) :
  String.leb s t = true <-> OrderedTypeEx.String_as_OT.lt s t \/ s = t.
Proof.
  unfold String.leb.
  change (String.compare s t) with (OrderedTypeEx.String_as_OT.cmp s t).
  destruct (OrderedTypeEx.String_as_OT.cmp s t) eqn:Hc.
  - apply OrderedTypeEx.String_as_OT.cmp_eq in Hc. tauto.
  - apply OrderedTypeEx.String_as_OT.cmp_lt in Hc. tauto.
  - split; [discriminate |]. intros [Hlt | ->].
    + apply OrderedTypeEx.String_as_OT.cmp_lt in Hlt. congruence.
    + assert (OrderedTypeEx.String_as_OT.cmp t t = Eq)
        by (now apply OrderedTypeEx.String_as_OT.cmp_eq).
      congruence.
Qed.

Lemma string_leb_trans (s t u : string) :
  String.leb s t = true -> String.leb t u = true -> String.leb s u = true.
Proof.
  rewrite !string_leb_spec. intros [H1 | ->] [H2 | ->]; auto.
  left. eapply OrderedTypeEx.String_as_OT.lt_trans; eassumption.
Qed.

Lemma bson_leb_trans (a b c : value) :
  bson_leb a b = true -> bson_leb b c = true -> bson_leb a c = true.
Proof.
  destruct a as [| x | s], b as [| y | t], c as [| z | u]; simpl;
    try reflexivity; try discriminate.
  - destruct (Rle_dec x y), (Rle_dec y z), (Rle_dec x z);
      try reflexivity; try discriminate. lra.
  - apply string_leb_trans.
Qed.

Lemma bson_leb_refl (a : value) : bson_leb a a = true.
Proof. destruct (bson_leb_total a a); assumption. Qed.

End BsonOrderFacts.

(** ** queries.py: sorted cursors *)

Section CursorFacts.

Import Mongo Analysis Queries.

Lemma newest_first_trans (a b c : document) :
  newest_first a b -> newest_first b c -> newest_first a c.
Proof. unfold newest_first. intros H1 H2. eapply bson_leb_trans; eassumption. Qed.

Lemma sort_newest_first (docs : list document) :
  StronglySorted newest_first (sort_by (desc_by "timestamp") docs).
Proof.
  apply Sorted_StronglySorted.
  - intros a b c. apply newest_first_trans.
  - apply (sort_by_sorted (desc_by "timestamp") (desc_by_total "timestamp")).
Qed.

Lemma StronglySorted_app_inv {A} (R : A -> A -> Prop) (l1 l2 : list A) :
  StronglySorted R (l1 ++ l2) ->
  StronglySorted R l1 /\ forall a b, a ∈ l1 -> b ∈ l2 -> R a b.
Proof.
  induction l1 as [| x l1 IH]; simpl; intros H.
  - split; [constructor |]. intros a b Ha. inversion Ha.
  - inversion H as [| ? ? Hs Hf]; subst. destruct (IH Hs) as [IH1 IH2].
    split.
    + constructor; [exact IH1 |]. rewrite Forall_forall in Hf |- *.
      intros y Hy. apply Hf. apply elem_of_app. now left.
    + intros a b Ha Hb. apply elem_of_cons in Ha as [-> | Ha].
      * rewrite Forall_forall in Hf. apply Hf. apply elem_of_app. now right.
      * now apply IH2.
Qed.

Lemma filter_sorted_spec (f s : string) (docs : list document) :
  let rows := sort_by (desc_by "timestamp")
                (List.filter (match_eq_str f s) docs) in
  Permutation rows
    (List.filter (fun d => bool_decide (d !! f = Some (VStr s))) docs)
  /\ (forall d, d ∈ rows <-> d ∈ docs /\ d !! f = Some (VStr s))
  /\ StronglySorted newest_first rows.
Proof.
  cbv zeta. split; [| split].
  - apply sort_by_perm.
  - intros d. rewrite sort_by_perm, list_elem_of_In, filter_In.
    unfold match_eq_str. rewrite bool_decide_eq_true, <- list_elem_of_In.
    reflexivity.
  - apply sort_newest_first.
Qed.

(** X6.  [filter_exterior_sensors] returns exactly the stored documents
    whose type is "exterior", and [get_readings_by_location] exactly those
    at the given location, each as often as stored and each document
    not older (by timestamp) than the ones after it.  Every exterior
    reading of the simulator passes the first filter, no interior
    reading does. *)
Theorem filtered_queries_select_and_sort (docs : list document)
    (location : string) :
  (exists rows : list document,
     filter_exterior_sensors (mk_IoTQueries (Some (Return docs))) = Return rows
     /\ Permutation rows
          (List.filter
             (fun d => bool_decide (d !! "type" = Some (VStr "exterior"))) docs)
     /\ (forall d, d ∈ rows <-> d ∈ docs /\ d !! "type" = Some (VStr "exterior"))
     /\ StronglySorted newest_first rows
     /\ (forall d, d ∈ docs -> exterior_reading d -> d ∈ rows)
     /\ (forall d, interior_reading d -> d ∉ rows))
  /\ (exists rows : list document,
        get_readings_by_location (mk_IoTQueries (Some (Return docs))) location
          = Return rows
        /\ Permutation rows
             (List.filter
                (fun d => bool_decide (d !! "location" = Some (VStr location)))
                docs)
        /\ (forall d, d ∈ rows
              <-> d ∈ docs /\ d !! "location" = Some (VStr location))
        /\ StronglySorted newest_first rows).
Proof.
  split.
  - destruct (filter_sorted_spec "type" "exterior" docs) as (Hp & Hm & Hs).
    eexists. split; [reflexivity |]. split; [exact Hp |].
    split; [exact Hm |]. split; [exact Hs |]. split.
    + intros d Hd (_ & Hty & _). apply Hm. now split.
    + intros d (_ & Hty & _) Hin. apply Hm in Hin as [_ Hin]. congruence.
  - destruct (filter_sorted_spec "location" location docs) as (Hp & Hm & Hs).
    eexists. split; [reflexivity |]. split; [exact Hp |].
    split; [exact Hm | exact Hs].
Qed.

(** X7.  [get_last_n_readings] splits the collection into the returned
    rows and the rest: the rows are sorted by timestamp, newest first,
    and no document of the rest is newer than a returned one.  For
    [n > 0] it returns [min n (number of documents)] rows; for [n = 0]
    the limit is off and every document is returned. *)
Theorem last_n_readings_are_the_latest (docs : list document) (n : nat) :
  exists rows rest : list document,
    get_last_n_readings (mk_IoTQueries (Some (Return docs))) n = Return rows
    /\ Permutation (rows ++ rest) docs
    /\ StronglySorted newest_first rows
    /\ (forall a b, a ∈ rows -> b ∈ rest -> newest_first a b)
    /\ (n = 0%nat -> rest = [])
    /\ (n <> 0%nat -> length rows = Nat.min n (length docs)).
Proof.
  pose proof (sort_newest_first docs) as Hs.
  pose proof (sort_by_perm (desc_by "timestamp") docs) as Hp.
  destruct n as [| n].
  - exists (sort_by (desc_by "timestamp") docs), []. split; [reflexivity |].
    rewrite app_nil_r. split; [exact Hp |]. split; [exact Hs |].
    split; [intros a b _ Hb; inversion Hb |]. split; [reflexivity | congruence].
  - exists (take (S n) (sort_by (desc_by "timestamp") docs)),
           (drop (S n) (sort_by (desc_by "timestamp") docs)).
    split; [reflexivity |].
    rewrite (take_drop (S n) (sort_by (desc_by "timestamp") docs)).
    split; [exact Hp |].
    rewrite <- (take_drop (S n) (sort_by (desc_by "timestamp") docs)) in Hs.
    apply StronglySorted_app_inv in Hs as [Hs1 Hs2].
    split; [exact Hs1 |]. split; [exact Hs2 |]. split; [discriminate |].
    intros _. rewrite length_take. f_equal. now rewrite Hp.
Qed.

(** X8.  The five queries of [IoTQueries] return the empty list when
    there is no connection and when the store raises an [Exception],
    and no [Exception] leaves any of them. *)
Theorem queries_degrade_to_empty (n : nat) (location : string) :
  (get_last_n_readings (mk_IoTQueries None) n = Return []
   /\ get_average_temperature_by_type (mk_IoTQueries None) = Return []
   /\ filter_exterior_sensors (mk_IoTQueries None) = Return []
   /\ get_readings_by_location (mk_IoTQueries None) location = Return []
   /\ get_readings_count_by_sensor (mk_IoTQueries None) = Return [])
  /\ (forall e : exn, is_Exception e = true ->
        get_last_n_readings (mk_IoTQueries (Some (Raise e))) n = Return []
        /\ get_average_temperature_by_type (mk_IoTQueries (Some (Raise e)))
           = Return []
        /\ filter_exterior_sensors (mk_IoTQueries (Some (Raise e))) = Return []
        /\ get_readings_by_location (mk_IoTQueries (Some (Raise e))) location
           = Return []
        /\ get_readings_count_by_sensor (mk_IoTQueries (Some (Raise e)))
           = Return [])
  /\ (forall (self : IoTQueries) (e : exn), is_Exception e = true ->
        get_last_n_readings self n <> Raise e
        /\ get_average_temperature_by_type self <> Raise e
        /\ filter_exterior_sensors self <> Raise e
        /\ get_readings_by_location self location <> Raise e
        /\ get_readings_count_by_sensor self <> Raise e).
Proof.
  split; [repeat split |]. split.
  - intros e He.
    unfold get_last_n_readings, get_average_temperature_by_type,
      filter_exterior_sensors, get_readings_by_location,
      get_readings_count_by_sensor. cbn [collection].
    unfold get_last_n_readings_try, get_average_temperature_by_type_try,
      filter_exterior_sensors_try, get_readings_by_location_try,
      get_readings_count_by_sensor_try.
    rewrite !(bind_Raise (Raise e) _ e eq_refl). simpl. rewrite He.
    repeat split.
  - intros [[c |]] e He;
      unfold get_last_n_readings, get_average_temperature_by_type,
        filter_exterior_sensors, get_readings_by_location,
        get_readings_count_by_sensor; cbn [collection].
    + repeat split; apply try_except_no_escape; exact He.
    + repeat split; discriminate.
Qed.

End CursorFacts.

(** ** A temperature that is not a number *)

Section BadTemperature.

Import Mongo Analysis Queries.

Lemma traverse_Return_elem {A B} (f : A -> outcome B) (l : list A) (l' : list B)
    (x : A) :
  traverse f l = Return l' -> x ∈ l -> exists y, f x = Return y /\ y ∈ l'.
Proof.
  revert l'. induction l as [| a l IH]; simpl; intros l' H Hx.
  - inversion Hx.
  - destruct (f a) as [b |] eqn:Hb; [| discriminate]. simpl in H.
    destruct (traverse f l) as [bs |]; [| discriminate].
    simpl in H. injection H as <-.
    apply elem_of_cons in Hx as [-> | Hx].
    + exists b. split; [exact Hb | left].
    + destruct (IH bs eq_refl Hx) as (y & Hy & Hin). exists y.
      split; [exact Hy | now right].
Qed.

Lemma traverse_Raise_elem {A B} (f : A -> outcome B) (l : list A) (e : exn) :
  traverse f l = Raise e -> exists x, x ∈ l /\ f x = Raise e.
Proof.
  induction l as [| a l IH]; simpl; [discriminate |].
  destruct (f a) as [b | e'] eqn:Hb; simpl.
  - destruct (traverse f l) as [bs | e'']; simpl; [discriminate |].
    intros H. injection H as <-. destruct (IH eq_refl) as (x & Hx & Hfx).
    exists x. split; [now right | exact Hfx].
  - intros H. injection H as <-. exists a. split; [left | exact Hb].
Qed.

Lemma group_by_member {A K} `{EqDecision K} (key : A -> K) (l : list A) (x : A) :
  x ∈ l -> exists g, g ∈ group_by key l /\ x ∈ g.2.
Proof.
  intros Hx. destruct (group_by_grouped key l) as (_ & Hent & Hcov).
  specialize (Hcov x Hx). apply list_elem_of_fmap in Hcov as ([k xs] & Hk & Hg).
  simpl in Hk. exists (k, xs). split; [exact Hg |].
  destruct (Hent _ _ Hg) as [_ ->]. simpl.
  apply list_elem_of_In, filter_In. split; [now apply list_elem_of_In |].
  unfold same_key. now apply bool_decide_eq_true.
Qed.

Lemma acc_max_string (temps : list (option value)) (s : string) :
  Some (VStr s) ∈ temps -> round_expr (acc_max temps) 2 = Raise server_error.
Proof.
  intros Hs.
  assert (Hin : VStr s ∈ non_null temps).
  { unfold non_null. apply list_elem_of_omap. exists (Some (VStr s)). now split. }
  unfold acc_max. destruct (non_null temps) as [| v l]; [inversion Hin |].
  destruct (fold_bson_max_str l v) as (s' & ->); [now exists s |]. reflexivity.
Qed.

Lemma arith_raise (op : R -> R -> R) (a b : option value) (e : exn) :
  arith op a b = Raise e -> e = server_error.
Proof.
  unfold arith. destruct (nullish a), (nullish b); intros H; congruence.
Qed.

Lemma round_expr_raise (v : value) (n : nat) (e : exn) :
  round_expr v n = Raise e -> e = server_error.
Proof. destruct v; simpl; intros H; congruence. Qed.

Lemma type_project_stage_raise (d : document) (e : exn) :
  type_project_stage d = Raise e -> e = server_error.
Proof.
  unfold type_project_stage.
  destruct (bool_decide (d !! "unit" = Some (VStr "F"))); [| discriminate].
  destruct (arith Rminus (d !! "temperature") (Some (VNum 32))) as [a | e1] eqn:H1.
  - rewrite (bind_Return _ _ a eq_refl).
    destruct (arith Rdiv a (Some (VNum 1.8%R))) as [b | e2] eqn:H2.
    + rewrite (bind_Return _ _ b eq_refl).
      destruct (arith Rminus b (Some (VNum 0))) as [c | e3] eqn:H3.
      * discriminate.
      * simpl. intros H. injection H as <-. now apply arith_raise in H3.
    + simpl. intros H. injection H as <-. now apply arith_raise in H2.
  - simpl. intros H. injection H as <-. now apply arith_raise in H1.
Qed.

Lemma type_row_raise (g : value * list typed) (e : exn) :
  type_row g = Raise e -> e = server_error.
Proof.
  unfold type_row. cbv zeta.
  destruct (round_expr (acc_avg (map t_temperature_celsius g.2)) 2)
    as [a | e1] eqn:Ha.
  2:{ simpl. intros H. injection H as <-. now apply round_expr_raise in Ha. }
  rewrite (bind_Return _ _ a eq_refl).
  destruct (round_expr (acc_min (map t_temperature_celsius g.2)) 2)
    as [lo | e2] eqn:Hlo.
  2:{ simpl. intros H. injection H as <-. now apply round_expr_raise in Hlo. }
  rewrite (bind_Return _ _ lo eq_refl).
  destruct (round_expr (acc_max (map t_temperature_celsius g.2)) 2)
    as [hi | e3] eqn:Hhi.
  - discriminate.
  - simpl. intros H. injection H as <-. now apply round_expr_raise in Hhi.
Qed.

Lemma type_row_string (g : value * list typed) (p : typed) (s : string)
    (r : document) :
  p ∈ g.2 -> t_temperature_celsius p = Some (VStr s) -> type_row g <> Return r.
Proof.
  intros Hp Hs. unfold type_row. cbv zeta.
  assert (Hmax : round_expr (acc_max (map t_temperature_celsius g.2)) 2
                 = Raise server_error).
  { apply (acc_max_string _ s). rewrite <- Hs.
    apply list_elem_of_fmap. now exists p. }
  destruct (round_expr (acc_avg (map t_temperature_celsius g.2)) 2) as [a |];
    [| discriminate].
  rewrite (bind_Return _ _ a eq_refl).
  destruct (round_expr (acc_min (map t_temperature_celsius g.2)) 2) as [lo |];
    [| discriminate].
  rewrite (bind_Return _ _ lo eq_refl).
  now rewrite (bind_Raise _ _ _ Hmax).
Qed.

Lemma hourly_row_string (g : (value * option value) * list projected)
    (p : projected) (s : string) (r : document) :
  p ∈ g.2 -> p_temperature_celsius p = Some (VStr s) -> hourly_row g <> Return r.
Proof.
  intros Hp Hs. unfold hourly_row. cbv zeta.
  assert (Hmax : round_expr (acc_max (map p_temperature_celsius g.2)) 2
                 = Raise server_error).
  { apply (acc_max_string _ s). rewrite <- Hs.
    apply list_elem_of_fmap. now exists p. }
  destruct (round_expr (acc_avg (map p_temperature_celsius g.2)) 2) as [a |];
    [| discriminate].
  rewrite (bind_Return _ _ a eq_refl).
  destruct (round_expr (acc_min (map p_temperature_celsius g.2)) 2) as [lo |];
    [| discriminate].
  rewrite (bind_Return _ _ lo eq_refl).
  now rewrite (bind_Raise _ _ _ Hmax).
Qed.

Lemma type_average_string (docs : list document) (d : document) (s : string) :
  d ∈ docs -> d !! "temperature" = Some (VStr s) ->
  get_average_temperature_by_type_try (Return docs) = Raise server_error.
Proof.
  intros Hd Hs. unfold get_average_temperature_by_type_try.
  rewrite (bind_Return (Return docs) _ docs eq_refl).
  destruct (traverse type_project_stage docs) as [ps | e] eqn:Hps.
  2:{ apply traverse_Raise_elem in Hps as (x & _ & Hx).
      apply type_project_stage_raise in Hx. now subst e. }
  rewrite (bind_Return _ _ ps eq_refl).
  destruct (traverse_Return_elem _ _ _ d Hps Hd) as (p & Hp & Hpin).
  assert (Hpt : t_temperature_celsius p = Some (VStr s)).
  { unfold type_project_stage in Hp. rewrite Hs in Hp.
    destruct (bool_decide (d !! "unit" = Some (VStr "F"))); [discriminate |].
    simpl in Hp. now injection Hp as <-. }
  destruct (traverse type_row (group_by type_key ps)) as [rows | e] eqn:Hrows.
  - exfalso. destruct (group_by_member type_key ps p Hpin) as (g & Hg & Hpg).
    destruct (traverse_Return_elem _ _ _ g Hrows Hg) as (r & Hr & _).
    exact (type_row_string g p s r Hpg Hpt Hr).
  - apply traverse_Raise_elem in Hrows as (g & _ & Hg).
    apply type_row_raise in Hg. now subst e.
Qed.

Lemma hourly_pipeline_string (dateFromString : string -> outcome Z)
    (start : string) (docs rows : list document) (d : document) (s : string) :
  d ∈ docs -> d !! "temperature" = Some (VStr s) ->
  match_gte_str "timestamp" start d = true ->
  hourly_pipeline dateFromString start docs <> Return rows.
Proof.
  intros Hd Hs Hm. unfold hourly_pipeline.
  assert (Hsel : d ∈ List.filter (match_gte_str "timestamp" start) docs).
  { apply list_elem_of_In, filter_In. split; [now apply list_elem_of_In | exact Hm]. }
  destruct (traverse (project_stage dateFromString)
              (List.filter (match_gte_str "timestamp" start) docs))
    as [ps |] eqn:Hps; [| discriminate].
  rewrite (bind_Return _ _ ps eq_refl).
  destruct (traverse_Return_elem _ _ _ d Hps Hsel) as (p & Hp & Hpin).
  assert (Hpt : p_temperature_celsius p = Some (VStr s)).
  { unfold project_stage in Hp.
    destruct (hour_expr dateFromString (d !! "timestamp")) as [h |];
      [| discriminate].
    rewrite (bind_Return _ _ h eq_refl) in Hp. rewrite Hs in Hp.
    destruct (bool_decide (d !! "unit" = Some (VStr "F"))); [discriminate |].
    simpl in Hp. now injection Hp as <-. }
  destruct (traverse hourly_row (group_by group_key ps)) as [rows0 |] eqn:Hrows;
    [| discriminate].
  exfalso. destruct (group_by_member group_key ps p Hpin) as (g & Hg & Hpg).
  destruct (traverse_Return_elem _ _ _ g Hrows Hg) as (r & Hr & _).
  exact (hourly_row_string g p s r Hpg Hpt Hr).
Qed.

Lemma detect_outliers_string (docs : list document) (d : document) (s : string)
    (t : R) :
  d ∈ docs -> d !! "temperature" = Some (VStr s) ->
  detect_outliers (mk_AdvancedAnalysis (Some (Return docs))) "temperature" t
  = Return [].
Proof.
  intros Hd Hs. unfold detect_outliers. cbn [Analysis.collection].
  destruct (detect_outliers_try_cases docs "temperature")
    as [H | [H | (values & xs & Hvals & Hnum & _)]].
  - now rewrite H.
  - now rewrite H.
  - exfalso.
    set (r := projection ["temperature"; "device_id"; "type"; "timestamp"; "unit"] d).
    assert (Hr : r ∈ map (projection ["temperature"; "device_id"; "type";
                                       "timestamp"; "unit"]) docs).
    { apply list_elem_of_fmap. now exists d. }
    assert (Hraw : r !! "temperature" = Some (VStr s)).
    { unfold r. rewrite projection_lookup by (rewrite !elem_of_cons; auto).
      exact Hs. }
    destruct (normalized "temperature" r (VStr s)) as [v | e] eqn:Hn.
    + pose proof (collect_values_elem _ _ _ _ _ _ Hvals Hr Hraw Hn) as Hv.
      apply traverse_to_num_inv in Hnum. subst values.
      apply list_elem_of_fmap in Hv as (x & -> & _).
      unfold normalized in Hn.
      destruct (bool_decide ("temperature" = "temperature")
                && bool_decide (dict_get r "unit" = VStr "F"));
        simpl in Hn; discriminate.
    + clear -Hvals Hr Hraw Hn.
      induction (map (projection ["temperature"; "device_id"; "type";
                                  "timestamp"; "unit"]) docs) as [| r0 rs IH]
        in values, Hvals, Hr |- *.
      * inversion Hr.
      * simpl in Hvals. apply elem_of_cons in Hr as [<- | Hr].
        -- rewrite Hraw, Hn in Hvals. discriminate.
        -- destruct (r0 !! "temperature") as [raw0 |].
           ++ destruct (normalized "temperature" r0 raw0); [| discriminate].
              simpl in Hvals.
              destruct (collect_values "temperature" rs) as [vs |] eqn:Hvs;
                [| discriminate].
              now apply (IH vs).
           ++ now apply (IH values).
Qed.

(** X9.  One stored reading whose temperature is a string empties the
    analyses: [detect_outliers] on "temperature" and
    [get_average_temperature_by_type] return the empty list, and so does
    [average_temperature_by_hour] whenever that reading falls in the
    window. *)
Theorem text_temperature_empties_analyses (docs : list document) (d : document)
    (s : string) :
  d ∈ docs -> d !! "temperature" = Some (VStr s) ->
  (forall t : R,
     detect_outliers (mk_AdvancedAnalysis (Some (Return docs))) "temperature" t
     = Return [])
  /\ get_average_temperature_by_type (mk_IoTQueries (Some (Return docs)))
     = Return []
  /\ (forall (dateFromString : string -> outcome Z) (clk : DateTime.clock)
        (hours_back : Z) (start_time : DateTime.datetime) (rows : list document),
        (delta ← DateTime.timedelta_hours hours_back;
         DateTime.sub_timedelta (DateTime.now clk) delta) = Return start_time ->
        match_gte_str "timestamp" (DateTime.isoformat start_time) d = true ->
        average_temperature_by_hour dateFromString
          (mk_AdvancedAnalysis (Some (Return docs))) clk hours_back = Return rows ->
        rows = []).
Proof.
  intros Hd Hs. split; [| split].
  - intros t. now apply (detect_outliers_string docs d s).
  - unfold get_average_temperature_by_type. cbn [Queries.collection].
    now rewrite (type_average_string docs d s Hd Hs).
  - intros dfs clk hb st rows Hst Hm Hrun.
    unfold average_temperature_by_hour, average_temperature_by_hour_try in Hrun.
    cbn [Analysis.collection] in Hrun.
    destruct (DateTime.timedelta_hours hb) as [delta |]; [| discriminate].
    rewrite (bind_Return _ _ delta eq_refl) in Hst.
    rewrite (bind_Return _ _ delta eq_refl) in Hrun.
    rewrite (bind_Return _ _ _ Hst) in Hrun.
    rewrite (bind_Return (Return docs) _ docs eq_refl) in Hrun.
    destruct (hourly_pipeline dfs (DateTime.isoformat st) docs) as [rows' | e] eqn:Hp.
    + exfalso. exact (hourly_pipeline_string dfs _ docs rows' d s Hd Hs Hm Hp).
    + simpl in Hrun. destruct (is_Exception e); [| discriminate].
      now injection Hrun as <-.
Qed.

End BadTemperature.

(** ** One conversion for all analyses; the rows of the count *)

Section NormalisationFacts.

Import Mongo Analysis Queries.

(** X10.  For a reading with a numeric temperature, [detect_outliers],
    [average_temperature_by_hour] and [get_average_temperature_by_type]
    work on the same Celsius value: the temperature itself unless the
    unit is "F", and [(t - 32) / 1.8] then.  For a temperature written by
    [_celsius_to_fahrenheit c] this value is within 1/36 of [c]. *)
Theorem analyses_normalise_alike (dateFromString : string -> outcome Z)
    (d : document) (t : R) :
  d !! "temperature" = Some (VNum t) ->
  normalized "temperature" d (VNum t) = Return (VNum (celsius d))
  /\ type_project_stage d
     = Return (mk_typed (d !! "type") (Some (VNum (celsius d))))
  /\ (forall h : value,
        hour_expr dateFromString (d !! "timestamp") = Return h ->
        project_stage dateFromString d
        = Return (mk_projected h (Some (VNum (celsius d))) (d !! "type")))
  /\ (d !! "unit" <> Some (VStr "F") -> celsius d = t)
  /\ (d !! "unit" = Some (VStr "F") -> celsius d = ((t - 32) / 1.8)%R)
  /\ (forall c : R,
        d !! "unit" = Some (VStr "F") ->
        t = Simulator._celsius_to_fahrenheit c ->
        (Rabs (celsius d - c) <= 1 / 36)%R).
Proof.
  intros Ht.
  assert (Hc : d !! "unit" <> Some (VStr "F") -> celsius d = t).
  { intros Hu. unfold celsius. rewrite Ht.
    now rewrite bool_decide_eq_false_2. }
  assert (Hf : d !! "unit" = Some (VStr "F") -> celsius d = ((t - 32) / 1.8)%R).
  { intros Hu. unfold celsius. rewrite Ht.
    now rewrite bool_decide_eq_true_2. }
  split; [| split; [| split; [| split; [exact Hc | split; [exact Hf |]]]]].
  - destruct (decide (d !! "unit" = Some (VStr "F"))) as [Hu | Hu].
    + rewrite (Hf Hu). apply normalized_fahrenheit.
      unfold dict_get. now rewrite Hu.
    + rewrite (Hc Hu). apply normalized_unchanged. right.
      unfold dict_get. intros H. apply Hu.
      destruct (d !! "unit") as [v |]; simpl in H; [now subst | discriminate].
  - apply type_project_stage_numeric. now exists t.
  - intros h Hh. unfold project_stage. rewrite (bind_Return _ _ _ Hh).
    unfold celsius. rewrite Ht.
    destruct (bool_decide (d !! "unit" = Some (VStr "F"))); simpl.
    + unfold Rminus at 1. rewrite Ropp_0, Rplus_0_r. reflexivity.
    + reflexivity.
  - intros c Hu ->. rewrite (Hf Hu).
    pose proof (celsius_to_fahrenheit_near c) as Hn.
    apply Rabs_le_bounds in Hn. apply Rabs_le. lra.
Qed.

End NormalisationFacts.

Section SpanFacts.

Import Mongo Analysis.

Lemma fold_bson_min_least (l : list value) (v : value) :
  fold_left bson_min l v ∈ v :: l
  /\ forall w, w ∈ v :: l -> bson_leb (fold_left bson_min l v) w = true.
Proof.
  revert v. induction l as [| y l IH]; intros v.
  - simpl. split; [left |]. intros w Hw. apply list_elem_of_singleton in Hw.
    subst. apply bson_leb_refl.
  - simpl. destruct (IH (bson_min v y)) as [Hin Hle]. split.
    + apply elem_of_cons in Hin as [-> | Hin].
      * unfold bson_min. destruct (bson_leb v y); [left | right; left].
      * right. now right.
    + intros w Hw.
      assert (Hm : bson_leb (fold_left bson_min l (bson_min v y)) (bson_min v y) = true)
        by (apply Hle; left).
      apply elem_of_cons in Hw as [-> | Hw].
      * eapply bson_leb_trans; [exact Hm |]. unfold bson_min.
        destruct (bson_leb v y) eqn:E; [apply bson_leb_refl |].
        destruct (bson_leb_total v y); congruence.
      * apply elem_of_cons in Hw as [-> | Hw].
        -- eapply bson_leb_trans; [exact Hm |]. unfold bson_min.
           destruct (bson_leb v y) eqn:E; [exact E | apply bson_leb_refl].
        -- apply Hle. now right.
Qed.

Lemma fold_bson_max_greatest (l : list value) (v : value) :
  fold_left bson_max l v ∈ v :: l
  /\ forall w, w ∈ v :: l -> bson_leb w (fold_left bson_max l v) = true.
Proof.
  revert v. induction l as [| y l IH]; intros v.
  - simpl. split; [left |]. intros w Hw. apply list_elem_of_singleton in Hw.
    subst. apply bson_leb_refl.
  - simpl. destruct (IH (bson_max v y)) as [Hin Hle]. split.
    + apply elem_of_cons in Hin as [-> | Hin].
      * unfold bson_max. destruct (bson_leb v y); [right; left | left].
      * right. now right.
    + intros w Hw.
      assert (Hm : bson_leb (bson_max v y) (fold_left bson_max l (bson_max v y)) = true)
        by (apply Hle; left).
      apply elem_of_cons in Hw as [-> | Hw].
      * eapply bson_leb_trans; [| exact Hm]. unfold bson_max.
        destruct (bson_leb v y) eqn:E; [exact E | apply bson_leb_refl].
      * apply elem_of_cons in Hw as [-> | Hw].
        -- eapply bson_leb_trans; [| exact Hm]. unfold bson_max.
           destruct (bson_leb v y) eqn:E; [apply bson_leb_refl |].
           destruct (bson_leb_total v y); congruence.
        -- apply Hle. now right.
Qed.

Lemma non_null_elem (vs : list (option value)) (v : value) :
  v ∈ non_null vs <-> Some v ∈ vs /\ v <> VNone.
Proof.
  unfold non_null. rewrite list_elem_of_omap. split.
  - intros (o & Ho & Hv). destruct o as [[| x | s] |]; try discriminate;
      injection Hv as <-; split; try assumption; discriminate.
  - intros [Hin Hne]. exists (Some v). split; [exact Hin |].
    destruct v; [contradiction | reflexivity | reflexivity].
Qed.

Lemma acc_min_max_span (vs : list (option value)) :
  bson_leb (acc_min vs) (acc_max vs) = true
  /\ forall v, Some v ∈ vs -> v <> VNone ->
       bson_leb (acc_min vs) v = true /\ bson_leb v (acc_max vs) = true.
Proof.
  unfold acc_min, acc_max.
  destruct (non_null vs) as [| v0 l] eqn:Hnn.
  - split; [reflexivity |]. intros v Hin Hne.
    assert (H : v ∈ non_null vs) by (now apply non_null_elem).
    rewrite Hnn in H. inversion H.
  - destruct (fold_bson_min_least l v0) as [Hmin1 Hmin2].
    destruct (fold_bson_max_greatest l v0) as [Hmax1 Hmax2].
    split.
    + eapply bson_leb_trans; [apply (Hmin2 v0); left | apply (Hmax2 v0); left].
    + intros v Hin Hne.
      assert (H : v ∈ v0 :: l) by (rewrite <- Hnn; now apply non_null_elem).
      split; [now apply Hmin2 | now apply Hmax2].
Qed.

Lemma sensor_count_row_group (docs : list document) (r : document) :
  r ∈ sort_by (desc_by "total_readings")
        (map sensor_count_row (group_by device_key docs)) ->
  exists (k : value) (d0 : document) (xs : list document),
    d0 :: xs = List.filter (fun d => bool_decide (device_key d = k)) docs
    /\ r = sensor_count_row (k, d0 :: xs).
Proof.
  intros Hr. rewrite sort_by_perm in Hr.
  apply list_elem_of_fmap in Hr as ([k xs] & -> & Hg).
  destruct (group_by_grouped device_key docs) as (_ & Hent & _).
  destruct (Hent _ _ Hg) as [Hne Heq].
  destruct xs as [| d0 xs]; [contradiction |].
  exists k, d0, xs. split; [exact Heq | reflexivity].
Qed.

(** X11.  A row of [count_readings_by_sensor] describes the documents
    whose device_id is the row's (null standing for a missing
    device_id): it counts them, sensor_type and location are those of
    the first such document in the collection, first_reading <=
    last_reading in BSON order, and every non-null timestamp of these
    documents lies between them. *)
Theorem sensor_count_rows_describe_group (docs : list document) :
  exists rows : list document,
    count_readings_by_sensor (mk_AdvancedAnalysis (Some (Return docs)))
      = Return rows
    /\ forall r, r ∈ rows ->
         exists (k : value) (d0 : document) (first last : value),
           let b := List.filter
                      (fun d => bool_decide (dict_get d "device_id" = k)) docs in
           r !! "device_id" = Some k
           /\ r !! "total_readings" = Some (VNum (INR (length b)))
           /\ head b = Some d0
           /\ r !! "sensor_type" = Some (dict_get d0 "type")
           /\ r !! "location" = Some (dict_get d0 "location")
           /\ r !! "first_reading" = Some first
           /\ r !! "last_reading" = Some last
           /\ bson_leb first last = true
           /\ forall d v, d ∈ b -> d !! "timestamp" = Some v -> v <> VNone ->
                bson_leb first v = true /\ bson_leb v last = true.
Proof.
  eexists. split; [reflexivity |].
  intros r Hr. apply sensor_count_row_group in Hr as (k & d0 & xs & Heq & ->).
  unfold device_key in Heq.
  destruct (acc_min_max_span (field_values "timestamp" (d0 :: xs))) as [Hspan Hall].
  exists k, d0, (acc_min (field_values "timestamp" (d0 :: xs))),
         (acc_max (field_values "timestamp" (d0 :: xs))).
  cbv zeta. rewrite <- Heq.
  split; [reflexivity |]. split; [reflexivity |]. split; [reflexivity |].
  split; [reflexivity |]. split; [reflexivity |]. split; [reflexivity |].
  split; [reflexivity |]. split; [exact Hspan |].
  intros d v Hd Hv Hnn. apply Hall; [| exact Hnn].
  unfold field_values. rewrite <- Hv. apply list_elem_of_fmap. now exists d.
Qed.

End SpanFacts.

(** ** metrics.py: sorted data and percentiles *)

Section SortedFacts.

Local Open Scope R_scope.

Lemma insert_asc_perm (x : R) (l : list R) : Permutation (insert_asc x l) (x :: l).
Proof.
  induction l as [| y l IH]; simpl; [reflexivity |].
  destruct (Rle_dec x y); [reflexivity |].
  rewrite IH. apply perm_swap.
Qed.

Lemma sorted_perm (l : list R) : Permutation (sorted l) l.
Proof.
  induction l as [| x l IH]; simpl; [reflexivity |].
  unfold sorted in *. simpl. now rewrite insert_asc_perm, IH.
Qed.

Lemma sorted_elem (x : R) (l : list R) : x ∈ sorted l <-> x ∈ l.
Proof. now rewrite sorted_perm. Qed.

Lemma sorted_length (l : list R) : length (sorted l) = length l.
Proof. apply Permutation_length, sorted_perm. Qed.

Lemma insert_asc_sorted (x : R) (l : list R) :
  StronglySorted Rle l -> StronglySorted Rle (insert_asc x l).
Proof.
  induction l as [| y l IH]; simpl; intros H.
  - repeat constructor.
  - inversion H as [| ? ? Hs Hf]; subst.
    destruct (Rle_dec x y) as [Hxy | Hxy].
    + constructor; [exact H |]. constructor; [exact Hxy |].
      rewrite Forall_forall in Hf |- *. intros z Hz. specialize (Hf z Hz). lra.
    + constructor; [now apply IH |].
      rewrite Forall_forall in Hf |- *. intros z Hz.
      rewrite insert_asc_perm in Hz. apply elem_of_cons in Hz as [-> | Hz].
      * lra.
      * now apply Hf.
Qed.

Lemma sorted_sorted (l : list R) : StronglySorted Rle (sorted l).
Proof.
  induction l as [| x l IH]; [constructor |].
  unfold sorted in *. simpl. now apply insert_asc_sorted.
Qed.

Lemma sorted_unique (l1 l2 : list R) :
  StronglySorted Rle l1 -> StronglySorted Rle l2 -> Permutation l1 l2 -> l1 = l2.
Proof.
  revert l2. induction l1 as [| x l1 IH]; intros l2 H1 H2 Hp.
  - apply Permutation_nil in Hp. now subst.
  - destruct l2 as [| y l2]; [apply Permutation_sym, Permutation_nil in Hp; discriminate |].
    inversion H1 as [| ? ? Hs1 Hf1]; subst.
    inversion H2 as [| ? ? Hs2 Hf2]; subst.
    rewrite Forall_forall in Hf1, Hf2.
    assert (Hxy : x = y).
    { assert (Hx : x ∈ y :: l2) by (rewrite <- Hp; left).
      assert (Hy : y ∈ x :: l1) by (rewrite Hp; left).
      apply elem_of_cons in Hx as [-> | Hx]; [reflexivity |].
      apply elem_of_cons in Hy as [-> | Hy]; [reflexivity |].
      specialize (Hf1 y Hy). specialize (Hf2 x Hx). lra. }
    subst y. f_equal. apply IH; try assumption.
    now apply Permutation_cons_inv in Hp.
Qed.

Lemma sorted_Permutation (l1 l2 : list R) :
  Permutation l1 l2 -> sorted l1 = sorted l2.
Proof.
  intros Hp. apply sorted_unique; try apply sorted_sorted.
  now rewrite !sorted_perm.
Qed.

Lemma StronglySorted_nth (s : list R) (i j : nat) :
  StronglySorted Rle s -> (i <= j < length s)%nat -> nth i s 0 <= nth j s 0.
Proof.
  intros Hs. revert i j. induction Hs as [| x s Hs IH Hf]; intros i j Hij.
  - simpl in Hij. lia.
  - destruct i as [| i], j as [| j]; simpl in *; try lia; try lra.
    + rewrite Forall_forall in Hf. apply Hf. apply list_elem_of_In, nth_In. lia.
    + apply IH. lia.
Qed.

Lemma list_getitem_nth (s : list R) (i : nat) :
  (i < length s)%nat -> list_getitem s (Z.of_nat i) = Return (nth i s 0).
Proof.
  intros Hi. unfold list_getitem.
  destruct (Z.ltb_spec (Z.of_nat i) 0); [lia |].
  destruct (Z.ltb_spec (Z.of_nat i) 0); [lia |].
  rewrite Nat2Z.id. now rewrite (nth_error_nth' s 0%R Hi).
Qed.

Lemma list_getitem_last (s : list R) :
  s <> [] -> list_getitem s (-1) = Return (nth (length s - 1) s 0).
Proof.
  intros Hs. unfold list_getitem.
  assert (Hl : (0 < length s)%nat) by (destruct s; [contradiction | simpl; lia]).
  change (-1 <? 0)%Z with true. cbv iota.
  destruct (Z.ltb_spec (-1 + Z.of_nat (length s)) 0); [lia |].
  replace (Z.to_nat (-1 + Z.of_nat (length s))) with (length s - 1)%nat by lia.
  rewrite (nth_error_nth' s 0%R); [reflexivity | lia].
Qed.

Lemma list_getitem_nil {A} (i : Z) : @list_getitem A [] i = Raise IndexError.
Proof.
  unfold list_getitem. simpl.
  destruct (i <? 0)%Z; destruct (_ <? 0)%Z; try reflexivity;
    now destruct (Z.to_nat _).
Qed.

Lemma sorted_first_min (data : list R) :
  data <> [] -> nth 0 (sorted data) 0 = list_min data.
Proof.
  intros Hd.
  destruct (list_min_least data Hd) as [Hin Hle].
  assert (Hs : sorted data <> []).
  { intros H. apply Hd. apply Permutation_nil. rewrite <- H.
    apply sorted_perm. }
  assert (H0 : nth 0 (sorted data) 0 ∈ data).
  { apply sorted_elem. apply list_elem_of_In, nth_In.
    destruct (sorted data); [contradiction | simpl; lia]. }
  apply Rle_antisym.
  - apply sorted_elem in Hin.
    apply list_elem_of_In, (In_nth _ _ 0) in Hin as (i & Hi & <-).
    apply StronglySorted_nth; [apply sorted_sorted | lia].
  - now apply Hle.
Qed.

Lemma sorted_last_max (data : list R) :
  data <> [] -> nth (length data - 1) (sorted data) 0 = list_max data.
Proof.
  intros Hd.
  destruct (list_max_greatest data Hd) as [Hin Hle].
  assert (Hl : (0 < length data)%nat) by (destruct data; [contradiction | simpl; lia]).
  assert (H0 : nth (length data - 1) (sorted data) 0 ∈ data).
  { apply sorted_elem. apply list_elem_of_In, nth_In.
    rewrite sorted_length. lia. }
  apply Rle_antisym.
  - now apply Hle.
  - apply sorted_elem in Hin.
    apply list_elem_of_In, (In_nth _ _ 0) in Hin as (i & Hi & <-).
    rewrite sorted_length in Hi.
    apply StronglySorted_nth; [apply sorted_sorted | rewrite sorted_length; lia].
Qed.

Lemma sorted_nth_bounds (data : list R) (i : nat) :
  (i < length data)%nat ->
  list_min data <= nth i (sorted data) 0 <= list_max data.
Proof.
  intros Hi.
  assert (Hd : data <> []) by (destruct data; [simpl in Hi; lia | discriminate]).
  rewrite <- (sorted_first_min data Hd), <- (sorted_last_max data Hd).
  split; apply StronglySorted_nth; try apply sorted_sorted;
    rewrite sorted_length; lia.
Qed.

Lemma Int_part_unique (x : R) (k : Z) : IZR k <= x < IZR k + 1 -> Int_part x = k.
Proof.
  intros [H1 H2]. pose proof (Int_part_bounds x) as [H3 H4].
  assert (Int_part x <= k)%Z by (apply IZR_lt_succ; lra).
  assert (k <= Int_part x)%Z by (apply IZR_lt_succ; lra).
  lia.
Qed.

Lemma py_int_nonneg (x : R) : 0 <= x -> py_int x = Int_part x /\ (0 <= Int_part x)%Z.
Proof.
  intros Hx. unfold py_int. destruct (Rle_dec 0 x); [| contradiction].
  split; [reflexivity |]. pose proof (Int_part_bounds x) as [H1 H2].
  apply IZR_lt_succ. simpl. lra.
Qed.

End SortedFacts.

Section PercentileFacts.

Import Metrics.

Local Open Scope R_scope.

Lemma percentile_run (data : list R) (p : R) :
  data <> [] -> 0 <= p <= 100 ->
  exists k : nat,
    INR k <= p / 100 * (INR (length data) - 1) < INR k + 1
    /\ (k < length data)%nat
    /\ _percentile data p
       = Return
           (if (length data <=? k + 1)%nat
            then nth (length data - 1) (sorted data) 0
            else nth k (sorted data) 0
                 * (1 - (p / 100 * (INR (length data) - 1) - INR k))
                 + nth (k + 1) (sorted data) 0
                   * (p / 100 * (INR (length data) - 1) - INR k)).
Proof.
  intros Hd Hp.
  assert (Hl : (0 < length data)%nat) by (destruct data; [contradiction | simpl; lia]).
  assert (Hn : 1 <= INR (length data)) by (apply (le_INR 1); lia).
  set (idx := p / 100 * (INR (length data) - 1)).
  assert (Hidx : 0 <= idx <= INR (length data) - 1).
  { unfold idx. split; [apply Rmult_le_pos; lra |].
    replace (INR (length data) - 1) with (1 * (INR (length data) - 1)) at 2 by ring.
    apply Rmult_le_compat_r; lra. }
  destruct (py_int_nonneg idx (proj1 Hidx)) as [Hint Hz].
  pose proof (Int_part_bounds idx) as [Hb1 Hb2].
  set (z := Int_part idx) in *.
  exists (Z.to_nat z).
  assert (HINR : INR (Z.to_nat z) = IZR z) by (rewrite INR_IZR_INZ; f_equal; lia).
  assert (Hk : (Z.to_nat z < length data)%nat).
  { apply INR_lt. rewrite HINR. lra. }
  split; [rewrite HINR; lra |]. split; [exact Hk |].
  unfold _percentile. rewrite sorted_length, <- INR_IZR_INZ. fold idx.
  rewrite Hint. fold z.
  destruct (Z.leb_spec (Z.of_nat (length data)) (z + 1)) as [Hle | Hgt].
  - destruct (Nat.leb_spec (length data) (Z.to_nat z + 1)); [| lia].
    rewrite list_getitem_last.
    + now rewrite sorted_length.
    + intros Hnil. apply (f_equal (@length R)) in Hnil.
      rewrite sorted_length in Hnil. simpl in Hnil. lia.
  - destruct (Nat.leb_spec (length data) (Z.to_nat z + 1)); [lia |].
    assert (Ha : list_getitem (sorted data) z
                 = Return (nth (Z.to_nat z) (sorted data) 0)).
    { rewrite <- (Z2Nat.id z) at 1 by lia. apply list_getitem_nth.
      rewrite sorted_length. lia. }
    assert (Hb : list_getitem (sorted data) (z + 1)
                 = Return (nth (Z.to_nat z + 1) (sorted data) 0)).
    { replace (z + 1)%Z with (Z.of_nat (Z.to_nat z + 1)) by lia.
      apply list_getitem_nth. rewrite sorted_length. lia. }
    rewrite (bind_Return _ _ _ Ha), (bind_Return _ _ _ Hb). now rewrite HINR.
Qed.

Lemma percentile_empty (p : R) : _percentile [] p = Raise IndexError.
Proof.
  unfold _percentile. change (sorted []) with (@nil R). simpl length.
  destruct (_ <=? _)%Z.
  - apply list_getitem_nil.
  - rewrite (bind_Raise _ _ IndexError); [reflexivity | apply list_getitem_nil].
Qed.

Lemma INR_floor_unique (k j : nat) (x : R) :
  INR k <= x < INR k + 1 -> INR j <= x < INR j + 1 -> k = j.
Proof.
  intros [H1 H2] [H3 H4].
  assert (INR k < INR (S j)) by (rewrite S_INR; lra).
  assert (INR j < INR (S k)) by (rewrite S_INR; lra).
  apply INR_lt in H, H0. lia.
Qed.

(** X12.  On non-empty data, rank 0 of [_percentile] is the least
    element and rank 100 the greatest; on a single value every rank
    between 0 and 100 returns that value. *)
Theorem percentile_endpoints (data : list R) :
  data <> [] ->
  _percentile data 0 = Return (list_min data)
  /\ _percentile data 100 = Return (list_max data)
  /\ (length data = 1%nat ->
      forall p : R, 0 <= p <= 100 -> _percentile data p = Return (list_min data)).
Proof.
  intros Hd.
  assert (Hl : (0 < length data)%nat) by (destruct data; [contradiction | simpl; lia]).
  assert (Hn1 : INR (length data - 1) = INR (length data) - 1)
    by (rewrite minus_INR by lia; simpl; lra).
  split; [| split].
  - destruct (percentile_run data 0 Hd ltac:(lra)) as (k & Hk & Hlt & Hrun).
    rewrite Hrun. f_equal.
    assert (k = 0%nat).
    { apply (INR_floor_unique k 0 (0 / 100 * (INR (length data) - 1)));
        [exact Hk | simpl; lra]. }
    subst k. destruct (Nat.leb_spec (length data) (0 + 1)) as [Hlast | Hmid].
    + replace (length data - 1)%nat with 0%nat by lia.
      now apply sorted_first_min.
    + rewrite (sorted_first_min data Hd). simpl INR. lra.
  - destruct (percentile_run data 100 Hd ltac:(lra)) as (k & Hk & Hlt & Hrun).
    rewrite Hrun. f_equal.
    assert (k = (length data - 1)%nat).
    { apply (INR_floor_unique _ _ (100 / 100 * (INR (length data) - 1)));
        [exact Hk | rewrite Hn1; lra]. }
    subst k. destruct (Nat.leb_spec (length data) (length data - 1 + 1)); [| lia].
    now apply sorted_last_max.
  - intros Hone p Hp.
    destruct (percentile_run data p Hd Hp) as (k & Hk & Hlt & Hrun).
    rewrite Hrun. f_equal.
    destruct (Nat.leb_spec (length data) (k + 1)); [| lia].
    rewrite Hone. change (1 - 1)%nat with 0%nat. now apply sorted_first_min.
Qed.

Lemma percentile_value_bounds (data : list R) (p : R) :
  data <> [] -> 0 <= p <= 100 ->
  exists v : R,
    _percentile data p = Return v /\ list_min data <= v <= list_max data.
Proof.
  intros Hd Hp.
  destruct (percentile_run data p Hd Hp) as (k & Hk & Hlt & Hrun).
  rewrite Hrun. eexists. split; [reflexivity |].
  destruct (Nat.leb_spec (length data) (k + 1)) as [Hlast | Hmid].
  - apply sorted_nth_bounds. lia.
  - pose proof (sorted_nth_bounds data k ltac:(lia)) as [Ha1 Ha2].
    pose proof (sorted_nth_bounds data (k + 1) ltac:(lia)) as [Hb1 Hb2].
    set (a := nth k (sorted data) 0) in *.
    set (b := nth (k + 1) (sorted data) 0) in *.
    set (w := p / 100 * (INR (length data) - 1) - INR k) in *.
    assert (Hw : 0 <= w < 1) by (unfold w; lra).
    split; nra.
Qed.

(** X13.  [_percentile] does not depend on the order of the data: on two
    lists holding the same values it returns the same value, or raises
    the same exception, for every rank. *)
Theorem percentile_order_independent (data1 data2 : list R) (p : R) :
  Permutation data1 data2 -> _percentile data1 p = _percentile data2 p.
Proof.
  intros Hperm. unfold _percentile. now rewrite (sorted_Permutation _ _ Hperm).
Qed.

End PercentileFacts.

Section MedianFacts.

Import Metrics.

Local Open Scope R_scope.

Lemma statistics_median_run (data : list R) :
  data <> [] ->
  statistics_median data
  = Return (if Nat.odd (length data)
            then nth (length data / 2) (sorted data) 0
            else (nth (length data / 2 - 1) (sorted data) 0
                  + nth (length data / 2) (sorted data) 0) / 2).
Proof.
  intros Hd.
  assert (Hl : (0 < length data)%nat) by (destruct data; [contradiction | simpl; lia]).
  unfold statistics_median. rewrite sorted_length.
  destruct (Z.eqb_spec (Z.of_nat (length data)) 0); [lia |].
  assert (Hdiv : (Z.of_nat (length data) / 2)%Z = Z.of_nat (length data / 2))
    by (now rewrite Nat2Z.inj_div).
  pose proof (Nat.div_mod_eq (length data) 2) as Hdm.
  pose proof (Nat.mod_upper_bound (length data) 2 ltac:(lia)) as Hmb.
  assert (Hmod : (Z.of_nat (length data) mod 2)%Z = Z.of_nat (length data mod 2))
    by (now rewrite Nat2Z.inj_mod).
  rewrite Hmod, Hdiv.
  destruct (Nat.odd (length data)) eqn:Hodd.
  - assert (Hm : (length data mod 2 = 1)%nat).
    { apply Nat.odd_spec in Hodd. destruct Hodd as [m Hm].
      rewrite Hm. rewrite Nat.add_comm, Nat.mul_comm, Nat.Div0.mod_add. reflexivity. }
    rewrite Hm. change (Z.of_nat 1 =? 1)%Z with true. cbv iota.
    apply list_getitem_nth. rewrite sorted_length. lia.
  - assert (Hm : (length data mod 2 = 0)%nat).
    { rewrite <- Nat.negb_even in Hodd. apply negb_false_iff in Hodd.
      apply Nat.even_spec in Hodd. destruct Hodd as [m Hm].
      rewrite Hm. rewrite Nat.mul_comm. apply Nat.Div0.mod_mul. }
    rewrite Hm. change (Z.of_nat 0 =? 1)%Z with false. cbv iota.
    assert (Ha : list_getitem (sorted data) (Z.of_nat (length data / 2) - 1)
                 = Return (nth (length data / 2 - 1) (sorted data) 0)).
    { replace (Z.of_nat (length data / 2) - 1)%Z
        with (Z.of_nat (length data / 2 - 1)) by lia.
      apply list_getitem_nth. rewrite sorted_length. lia. }
    assert (Hb : list_getitem (sorted data) (Z.of_nat (length data / 2))
                 = Return (nth (length data / 2) (sorted data) 0)).
    { apply list_getitem_nth. rewrite sorted_length. lia. }
    now rewrite (bind_Return _ _ _ Ha), (bind_Return _ _ _ Hb).
Qed.

Lemma percentile_median (data : list R) :
  data <> [] ->
  exists m : R,
    _percentile data 50 = Return m /\ statistics_median data = Return m.
Proof.
  intros Hd.
  destruct (percentile_run data 50 Hd ltac:(lra)) as (k & Hk & Hlt & Hrun).
  rewrite Hrun, (statistics_median_run data Hd).
  eexists. split; [reflexivity |]. f_equal.
  pose proof (Nat.div_mod_eq (length data) 2) as Hdm.
  pose proof (Nat.mod_upper_bound (length data) 2 ltac:(lia)) as Hmb.
  set (n := length data) in *. set (h := (n / 2)%nat) in *.
  set (idx := 50 / 100 * (INR n - 1)) in *.
  destruct (Nat.odd n) eqn:Hodd.
  - assert (Hm : (n mod 2 = 1)%nat).
    { apply Nat.odd_spec in Hodd. destruct Hodd as [m Hm].
      rewrite Hm. rewrite Nat.add_comm, Nat.mul_comm, Nat.Div0.mod_add. reflexivity. }
    assert (Hn : INR n = 2 * INR h + 1).
    { rewrite Hdm at 1. rewrite Hm, plus_INR, mult_INR. simpl. lra. }
    assert (Hidx : idx = INR h) by (unfold idx; rewrite Hn; field).
    assert (k = h) by (apply (INR_floor_unique k h idx); [exact Hk | lra]).
    subst k.
    destruct (Nat.leb_spec n (h + 1)).
    + f_equal. lia.
    + rewrite Hidx. lra.
  - assert (Hm : (n mod 2 = 0)%nat).
    { rewrite <- Nat.negb_even in Hodd. apply negb_false_iff in Hodd.
      apply Nat.even_spec in Hodd. destruct Hodd as [m Hm].
      rewrite Hm. rewrite Nat.mul_comm. apply Nat.Div0.mod_mul. }
    assert (Hh : (1 <= h)%nat) by lia.
    assert (Hn : INR n = 2 * INR h).
    { rewrite Hdm at 1. rewrite Hm, plus_INR, mult_INR. simpl. lra. }
    assert (Hh1 : INR (h - 1) = INR h - 1) by (rewrite minus_INR by lia; simpl; lra).
    assert (Hidx : idx = INR (h - 1) + 1 / 2) by (unfold idx; rewrite Hn, Hh1; field).
    assert (k = (h - 1)%nat)
      by (apply (INR_floor_unique k (h - 1) idx); [exact Hk | lra]).
    subst k.
    destruct (Nat.leb_spec n (h - 1 + 1)); [lia |].
    replace (h - 1 + 1)%nat with h by lia.
    rewrite Hidx. field.
Qed.


(** X14.  On non-empty data the 50th percentile of [_percentile] is the
    median of [statistics.median].  On empty data [_percentile] raises
    IndexError for every rank (where the median raises
    StatisticsError). *)
Theorem percentile_50_is_median :
  (forall data : list R, data <> [] ->
     exists m : R,
       _percentile data 50 = Return m /\ statistics_median data = Return m)
  /\ (forall p : R, _percentile [] p = Raise IndexError)
  /\ statistics_median [] = Raise StatisticsError.
Proof.
  split; [exact percentile_median |].
  split; [exact percentile_empty | reflexivity].
Qed.

End MedianFacts.

(** ** metrics.py: the insertion loop *)

Section WorldFacts.

Import World.

Lemma W_bind_run {A B} (m : W A) (k : A -> W B) (w w' : world) (a : A) :
  m w = (Return a, w') -> (x ← m; k x) w = k a w'.
Proof. intros H. unfold mbind, W_bind. now rewrite H. Qed.

Lemma world_generate_random_reading (w : world) :
  exists reading : gmap string value,
    generate_random_reading Simulator.__init__ w
    = (Return reading,
       mk_world
         (Random.advance (Random.advance (Random.advance (Random.advance
            (Random.advance (Random.advance (entropy w)))))))
         (wall_clock w) (S (wall_reads w)) (perf_clock w) (perf_reads w)
         (server w) (requests w))
    /\ (interior_reading reading \/ exterior_reading reading)
    /\ reading !! "timestamp"
       = Some (VStr (DateTime.isoformat
                       (DateTime.now_utc (wall_clock w (wall_reads w))))).
Proof.
  destruct (generate_random_reading_cases (wall_clock w (wall_reads w)) (entropy w))
    as (r & Hr & Ht & Hk).
  exists r. split; [| split; [tauto | exact Ht]].
  unfold generate_random_reading. now rewrite Hr.
Qed.

End WorldFacts.

Section InsertionLoop.

Import World Metrics.

Local Open Scope R_scope.

Lemma insertion_step_run (t : tally) (w : world) :
  answers_or_fails w ->
  exists (t' : tally) (w' : world),
    insertion_step connected_metrics t w = (Return t', w')
    /\ server w' = server w /\ perf_clock w' = perf_clock w
    /\ requests w' = S (requests w)
    /\ (perf_reads w <= perf_reads w')%nat
    /\ ((exists i : nat,
           (perf_reads w <= i)%nat
           /\ latencies t'
              = latencies t ++ [(perf_clock w (S i) - perf_clock w i) * 1000]
           /\ successful_inserts t' = S (successful_inserts t)
           /\ failed_inserts t' = failed_inserts t)
        \/ (latencies t' = latencies t
            /\ successful_inserts t' = successful_inserts t
            /\ failed_inserts t' = S (failed_inserts t))).
Proof.
  intros Hsafe.
  destruct (world_generate_random_reading w) as (reading & Hgen & _).
  unfold insertion_step. cbn [simulator connected_metrics].
  rewrite (W_bind_run _ _ _ _ _ Hgen).
  set (w1 := mk_world _ _ _ _ _ _ _) in *.
  rewrite (W_bind_run perf_counter _ w1 _ _ eq_refl).
  unfold try_except.
  set (w2 := mk_world _ _ _ _ (S (perf_reads w1)) _ _).
  unfold mbind at 1, W_bind at 1. unfold insert_one at 1.
  cbn [server requests entropy wall_clock wall_reads perf_clock perf_reads w2 w1].
  destruct (server w (requests w) reading) as [result | e] eqn:Hres.
  - unfold mbind, W_bind, perf_counter. cbn [perf_clock perf_reads].
    destruct (truthy result).
    + eexists _, _. split; [reflexivity |]. cbn.
      repeat split; try lia. left. exists (perf_reads w). repeat split. lia.
    + eexists _, _. split; [reflexivity |]. cbn.
      repeat split; try lia. right. repeat split.
  - rewrite (Hsafe _ _ _ Hres).
    eexists _, _. split; [reflexivity |]. cbn.
    repeat split; try lia. right. repeat split.
Qed.

Lemma insertion_loop_run (n : nat) (t : tally) (w : world) :
  answers_or_fails w ->
  exists (t' : tally) (w' : world),
    insertion_loop connected_metrics n t w = (Return t', w')
    /\ server w' = server w /\ perf_clock w' = perf_clock w
    /\ requests w' = (requests w + n)%nat
    /\ (successful_inserts t' + failed_inserts t'
        = successful_inserts t + failed_inserts t + n)%nat
    /\ (length (latencies t) = successful_inserts t ->
        length (latencies t') = successful_inserts t')
    /\ (monotonic_perf_counter w ->
        Forall (fun x => 0 <= x) (latencies t) ->
        Forall (fun x => 0 <= x) (latencies t')).
Proof.
  revert t w. induction n as [| n IH]; intros t w Hsafe.
  - exists t, w. split; [reflexivity |]. repeat split; auto; lia.
  - destruct (insertion_step_run t w Hsafe)
      as (t1 & w1 & Hstep & Hsrv & Hperf & Hreq & Hreads & Hcase).
    assert (Hsafe1 : answers_or_fails w1).
    { unfold answers_or_fails. rewrite Hsrv. exact Hsafe. }
    destruct (IH t1 w1 Hsafe1)
      as (t2 & w2 & Hloop & Hsrv2 & Hperf2 & Hreq2 & Hsum & Hlen & Hpos).
    exists t2, w2. split.
    { cbn [insertion_loop]. rewrite (W_bind_run _ _ _ _ _ Hstep). exact Hloop. }
    split; [congruence |]. split; [congruence |]. split; [lia |].
    split; [| split].
    + destruct Hcase as [(i & _ & _ & H1 & H2) | (_ & H1 & H2)]; lia.
    + intros H0. apply Hlen.
      destruct Hcase as [(i & _ & H1 & H2 & _) | (H1 & H2 & _)].
      * rewrite H1, length_app, H2. simpl. lia.
      * congruence.
    + intros Hmono H0. apply Hpos.
      * unfold monotonic_perf_counter. rewrite Hperf. exact Hmono.
      * destruct Hcase as [(i & _ & H1 & _) | (H1 & _)].
        -- rewrite H1. apply Forall_app. split; [exact H0 |].
           constructor; [| constructor].
           specialize (Hmono i (S i) ltac:(lia)). lra.
        -- now rewrite H1.
Qed.

Lemma insertion_metrics_run (num_inserts : Z) (t : tally) :
  latencies t <> [] -> num_inserts <> 0%Z ->
  exists lo hi med p95 p99 sd : R,
    insertion_metrics num_inserts t
    = Return (dict_literal
        [("total_inserts", VNum (IZR num_inserts));
         ("successful_inserts", VNum (INR (successful_inserts t)));
         ("failed_inserts", VNum (INR (failed_inserts t)));
         ("success_rate",
           VNum (INR (successful_inserts t) / IZR num_inserts * 100));
         ("min_latency_ms", VNum lo);
         ("max_latency_ms", VNum hi);
         ("avg_latency_ms", VNum (mean (latencies t)));
         ("median_latency_ms", VNum med);
         ("std_deviation_ms", VNum sd);
         ("p95_latency_ms", VNum p95);
         ("p99_latency_ms", VNum p99)])
    /\ lo = list_min (latencies t) /\ hi = list_max (latencies t)
    /\ lo <= med <= hi /\ 0 <= sd
    /\ (length (latencies t) = 1%nat -> sd = 0).
Proof.
  intros Hl Hn. unfold insertion_metrics.
  assert (Hz : IZR num_inserts <> 0) by (now apply not_0_IZR).
  unfold truediv. destruct (Req_dec_T (IZR num_inserts) 0) as [| _]; [contradiction |].
  rewrite (bind_Return _ _ _ eq_refl).
  destruct (latencies t) as [| x l] eqn:Hlat; [contradiction |].
  rewrite <- Hlat in *.
  assert (Hmin : builtin_min (latencies t) = Return (list_min (latencies t)))
    by (rewrite Hlat; reflexivity).
  assert (Hmax : builtin_max (latencies t) = Return (list_max (latencies t)))
    by (rewrite Hlat; reflexivity).
  rewrite (bind_Return _ _ _ Hmin), (bind_Return _ _ _ Hmax).
  rewrite (bind_Return _ _ (mean (latencies t)))
    by (apply statistics_mean_numbers; [apply traverse_to_num_VNum | exact Hl]).
  destruct (percentile_median (latencies t) Hl) as (med & Hp50 & Hmed).
  rewrite (bind_Return _ _ _ Hmed).
  destruct (percentile_value_bounds (latencies t) 50 Hl ltac:(lra))
    as (med' & Hp50' & Hmedr).
  assert (med' = med) by congruence. subst med'.
  destruct (percentile_value_bounds (latencies t) 95 Hl ltac:(lra))
    as (p95 & H95 & _).
  destruct (percentile_value_bounds (latencies t) 99 Hl ltac:(lra))
    as (p99 & H99 & _).
  destruct (Nat.ltb_spec 1 (length (latencies t))) as [Hlen | Hlen].
  - rewrite (bind_Return _ _ (stdev (latencies t)))
      by (apply statistics_stdev_numbers; [apply traverse_to_num_VNum | lia]).
    rewrite (bind_Return _ _ _ H95), (bind_Return _ _ _ H99).
    eexists _, _, _, _, _, _. split; [reflexivity |].
    split; [reflexivity |]. split; [reflexivity |].
    split; [exact Hmedr |]. split; [apply stdev_nonneg | lia].
  - rewrite (bind_Return _ _ 0 eq_refl).
    rewrite (bind_Return _ _ _ H95), (bind_Return _ _ _ H99).
    eexists _, _, _, _, _, _. split; [reflexivity |].
    split; [reflexivity |]. split; [reflexivity |].
    split; [exact Hmedr |]. split; [lra | reflexivity].
Qed.

End InsertionLoop.

Section InsertionLatency.

Import World Metrics.

Local Open Scope R_scope.

(** X15.  The dict of [measure_insertion_latency], built from at least
    one latency and a non-zero number of attempts, is built without an
    exception and holds the eleven figures of the report; among them
    min <= median <= max and min <= avg <= max, the deviation is not
    negative and is 0 for a single latency, and min and max bound every
    latency. *)
Theorem latency_statistics_ordered (num_inserts : Z) (t : tally) :
  latencies t <> [] -> num_inserts <> 0%Z ->
  exists (metrics : gmap string value) (lo med avg p95 p99 hi sd : R),
    insertion_metrics num_inserts t = Return metrics
    /\ dom metrics
       = list_to_set
           ["total_inserts"; "successful_inserts"; "failed_inserts";
            "success_rate"; "min_latency_ms"; "max_latency_ms";
            "avg_latency_ms"; "median_latency_ms"; "std_deviation_ms";
            "p95_latency_ms"; "p99_latency_ms"]
    /\ metrics !! "min_latency_ms" = Some (VNum lo)
    /\ metrics !! "median_latency_ms" = Some (VNum med)
    /\ metrics !! "avg_latency_ms" = Some (VNum avg)
    /\ metrics !! "p95_latency_ms" = Some (VNum p95)
    /\ metrics !! "p99_latency_ms" = Some (VNum p99)
    /\ metrics !! "max_latency_ms" = Some (VNum hi)
    /\ metrics !! "std_deviation_ms" = Some (VNum sd)
    /\ lo <= med <= hi /\ lo <= avg <= hi /\ 0 <= sd
    /\ (forall x, x ∈ latencies t -> lo <= x <= hi)
    /\ (length (latencies t) = 1%nat -> sd = 0).
Proof.
  intros Hl Hn.
  destruct (insertion_metrics_run num_inserts t Hl Hn)
    as (lo & hi & med & p95 & p99 & sd & Hrun & -> & -> & Hmed & Hsd & Hone).
  destruct (list_min_least _ Hl) as [_ Hmin].
  destruct (list_max_greatest _ Hl) as [_ Hmax].
  eexists. exists (list_min (latencies t)), med, (mean (latencies t)), p95, p99,
         (list_max (latencies t)), sd.
  split; [exact Hrun |].
  split.
  { unfold dict_literal. cbn [fold_left fst snd]. rewrite !dom_insert_L.
    rewrite dom_empty_L. apply set_eq. intros k.
    rewrite elem_of_list_to_set, list_elem_of_In. cbn [In].
    rewrite !elem_of_union, !elem_of_singleton, elem_of_empty.
    intuition congruence. }
  do 7 (split; [reflexivity |]).
  split; [exact Hmed |]. split.
  { apply mean_between; [exact Hl |]. intros x Hx. split; auto. }
  split; [exact Hsd |]. split; [| exact Hone].
  intros x Hx. split; auto.
Qed.

(** Three latencies of 1, 1 and 3 seconds. *)
Lemma latency_statistics_ordered_witness :
  exists (metrics : gmap string value) (lo med avg hi : R),
    insertion_metrics 3 (mk_tally [1000; 1000; 3000] 3 0) = Return metrics
    /\ metrics !! "min_latency_ms" = Some (VNum lo)
    /\ metrics !! "median_latency_ms" = Some (VNum med)
    /\ metrics !! "avg_latency_ms" = Some (VNum avg)
    /\ metrics !! "max_latency_ms" = Some (VNum hi)
    /\ lo <= med <= hi /\ lo <= avg <= hi.
Proof.
  destruct (latency_statistics_ordered 3 (mk_tally [1000; 1000; 3000] 3 0))
    as (metrics & lo & med & avg & p95 & p99 & hi & sd & Hrun & _ & Hlo & Hmed
        & Havg & _ & _ & Hhi & _ & H1 & H2 & _);
    [discriminate | discriminate |].
  exists metrics, lo, med, avg, hi. auto 10.
Defined.

(** X16.  With a server that answers every insert with an id or an
    [Exception], [measure_insertion_latency] returns a dict after exactly
    [num_inserts] requests (none for a negative number): successful and
    failed inserts add up to the number of attempts, there is one
    latency per success, none negative when [perf_counter] is
    monotonic; without any success the dict holds the error message and
    no success rate; otherwise the rate is successes / attempts * 100,
    in (0, 100]. *)
Theorem measure_insertion_latency_accounts (w : world) (num_inserts : Z) :
  answers_or_fails w ->
  exists (metrics : gmap string value) (w' : world) (t : tally),
    measure_insertion_latency connected_metrics num_inserts w
      = (Return metrics, w')
    /\ requests w' = (requests w + Z.to_nat num_inserts)%nat
    /\ (successful_inserts t + failed_inserts t = Z.to_nat num_inserts)%nat
    /\ length (latencies t) = successful_inserts t
    /\ (monotonic_perf_counter w -> Forall (fun x => 0 <= x) (latencies t))
    /\ metrics !! "failed_inserts" = Some (VNum (INR (failed_inserts t)))
    /\ metrics !! "successful_inserts" = Some (VNum (INR (successful_inserts t)))
    /\ ((successful_inserts t = 0%nat
         /\ metrics !! "error"
            = Some (VStr "No se pudieron realizar inserciones exitosas")
         /\ metrics !! "success_rate" = None)
        \/ ((0 < successful_inserts t)%nat
            /\ insertion_metrics num_inserts t = Return metrics
            /\ metrics !! "error" = None
            /\ metrics !! "total_inserts" = Some (VNum (IZR num_inserts))
            /\ exists rate : R,
                 metrics !! "success_rate" = Some (VNum rate)
                 /\ rate = INR (successful_inserts t) / IZR num_inserts * 100
                 /\ 0 < rate <= 100)).
Proof.
  intros Hsafe.
  destruct (insertion_loop_run (Z.to_nat num_inserts) (mk_tally [] 0 0) w Hsafe)
    as (t & w' & Hloop & _ & _ & Hreq & Hsum & Hlen & Hpos).
  cbn [latencies successful_inserts failed_inserts] in Hsum, Hlen, Hpos.
  specialize (Hlen eq_refl).
  assert (Hrun : measure_insertion_latency connected_metrics num_inserts w
                 = match latencies t with
                   | [] =>
                       (Return (dict_literal
                          [("successful_inserts", VNum 0);
                           ("failed_inserts", VNum (INR (failed_inserts t)));
                           ("error",
                             VStr "No se pudieron realizar inserciones exitosas")]),
                        w')
                   | _ => (insertion_metrics num_inserts t, w')
                   end).
  { unfold measure_insertion_latency. cbn [collection connected_metrics].
    rewrite (W_bind_run _ _ _ _ _ Hloop). now destruct (latencies t). }
  destruct (latencies t) as [| x l] eqn:Hlat.
  - eexists _, w', t. split; [exact Hrun |]. split; [exact Hreq |].
    split; [lia |]. split; [now rewrite Hlat |].
    split; [intros _; rewrite Hlat; constructor |].
    simpl in Hlen. rewrite <- Hlen.
    split; [reflexivity |]. split; [reflexivity |]. left.
    repeat split.
  - assert (Hne : latencies t <> []) by (rewrite Hlat; discriminate).
    assert (Hok : (0 < successful_inserts t)%nat) by (rewrite <- Hlen; simpl; lia).
    assert (Hnum : (1 <= num_inserts)%Z) by lia.
    destruct (insertion_metrics_run num_inserts t Hne ltac:(lia))
      as (lo & hi & med & p95 & p99 & sd & Hm & _).
    rewrite Hm in Hrun.
    eexists _, w', t. split; [exact Hrun |]. split; [exact Hreq |].
    split; [lia |]. split; [now rewrite Hlat |].
    split; [intros Hmono; rewrite Hlat; apply Hpos; [exact Hmono | constructor] |].
    split; [reflexivity |]. split; [reflexivity |]. right.
    split; [exact Hok |]. split; [exact Hm |]. split; [reflexivity |].
    split; [reflexivity |]. eexists. split; [reflexivity |].
    split; [reflexivity |].
    assert (Hn1 : 1 <= IZR num_inserts) by (now apply IZR_le).
    assert (Hk1 : 0 < INR (successful_inserts t)) by (now apply lt_0_INR).
    assert (Hk2 : INR (successful_inserts t) <= IZR num_inserts).
    { rewrite <- (Z2Nat.id num_inserts) by lia. rewrite <- INR_IZR_INZ.
      apply le_INR. lia. }
    split.
    + apply Rmult_lt_0_compat; [| lra].
      apply Rdiv_lt_0_compat; lra.
    + apply (Rmult_le_reg_r (IZR num_inserts)); [lra |].
      replace (INR (successful_inserts t) / IZR num_inserts * 100 * IZR num_inserts)
        with (INR (successful_inserts t) * 100) by (field; lra).
      lra.
Qed.

(** Three inserts in the steady world. *)
Lemma measure_insertion_latency_accounts_witness :
  exists (metrics : gmap string value) (w' : world),
    measure_insertion_latency connected_metrics 3 steady_world
      = (Return metrics, w')
    /\ requests w' = 3%nat.
Proof.
  destruct (measure_insertion_latency_accounts steady_world 3)
    as (metrics & w' & t & Hrun & Hreq & _).
  - intros k reading e H. discriminate.
  - exists metrics, w'. split; [exact Hrun | exact Hreq].
Defined.

End InsertionLatency.

(** ** medir_tiempo_subida.py: a generated batch *)

Section BatchFacts.

Import World Upload Mongo Analysis.

Lemma generate_batch_run (n : nat) (w : world) :
  exists (batch : list document) (w' : world),
    generate_batch Simulator.__init__ n w = (Return batch, w')
    /\ length batch = n
    /\ wall_clock w' = wall_clock w
    /\ wall_reads w' = (wall_reads w + n)%nat
    /\ Forall (fun r => interior_reading r \/ exterior_reading r) batch
    /\ (forall (i : nat) (r : document), batch !! i = Some r ->
          r !! "timestamp"
          = Some (VStr (DateTime.isoformat
                          (DateTime.now_utc (wall_clock w (wall_reads w + i)))))).
Proof.
  revert w. induction n as [| n IH]; intros w.
  - exists [], w. split; [reflexivity |]. split; [reflexivity |].
    split; [reflexivity |]. split; [lia |]. split; [constructor |].
    intros i r H. inversion H.
  - destruct (world_generate_random_reading w) as (r0 & Hgen & Hkind & Hts).
    set (w1 := mk_world _ _ _ _ _ _ _) in Hgen.
    destruct (IH w1) as (batch & w' & Hrun & Hlen & Hwc & Hwr & Hall & Hstamp).
    exists (r0 :: batch), w'. split.
    { cbn [generate_batch]. rewrite (W_bind_run _ _ _ _ _ Hgen).
      now rewrite (W_bind_run _ _ _ _ _ Hrun). }
    split; [simpl; lia |]. split; [exact Hwc |].
    split; [rewrite Hwr; cbn; lia |]. split; [now constructor |].
    intros [| i] r Hr.
    + injection Hr as <-. now rewrite Nat.add_0_r.
    + simpl in Hr. rewrite (Hstamp i r Hr). cbn [wall_clock wall_reads w1].
      do 5 f_equal. lia.
Qed.

Lemma NoDup_bounded {A} (l pool : list A) :
  NoDup l -> (forall x, x ∈ l -> x ∈ pool) -> (length l <= length pool)%nat.
Proof.
  intros Hnd Hin. apply NoDup_incl_length.
  - now apply NoDup_ListNoDup.
  - intros x Hx. apply list_elem_of_In, Hin. now apply list_elem_of_In.
Qed.

(** X17.  The batch of [medir_tiempo_lote]: generating [n] readings
    returns [n] readings, each stamped with its own reading of the
    clock.  Once they are stored (with or without an [_id]),
    [count_readings_by_sensor] gives at most six rows whose counts add
    up to [n]; each row is for a device of the simulator, with the
    sensor type of that device's pool. *)
Theorem generated_batch_counts (n : nat) (w : world) :
  exists (batch : list document) (w' : world),
    generate_batch Simulator.__init__ n w = (Return batch, w')
    /\ length batch = n
    /\ (forall (i : nat) (r : document), batch !! i = Some r ->
          r !! "timestamp"
          = Some (VStr (DateTime.isoformat
                          (DateTime.now_utc (wall_clock w (wall_reads w + i))))))
    /\ forall stored : list document,
         Forall2 stored_as batch stored ->
         exists rows : list document,
           count_readings_by_sensor (mk_AdvancedAnalysis (Some (Return stored)))
             = Return rows
           /\ counts_total "total_readings" rows n
           /\ (length rows <= 6)%nat
           /\ forall row, row ∈ rows ->
                exists d : string,
                  row !! "device_id" = Some (VStr d)
                  /\ ((d ∈ Simulator.interior_sensors Simulator.__init__
                       /\ row !! "sensor_type" = Some (VStr "interior"))
                      \/ (d ∈ Simulator.exterior_sensors Simulator.__init__
                          /\ row !! "sensor_type" = Some (VStr "exterior"))).
Proof.
  destruct (generate_batch_run n w)
    as (batch & w' & Hrun & Hlen & _ & _ & Hall & Hstamp).
  exists batch, w'. split; [exact Hrun |]. split; [exact Hlen |].
  split; [exact Hstamp |].
  intros stored Hst.
  assert (Hkinds : forall d0, d0 ∈ stored ->
            exists d : string,
              d0 !! "device_id" = Some (VStr d)
              /\ ((d ∈ Simulator.interior_sensors Simulator.__init__
                   /\ d0 !! "type" = Some (VStr "interior"))
                  \/ (d ∈ Simulator.exterior_sensors Simulator.__init__
                      /\ d0 !! "type" = Some (VStr "exterior")))).
  { intros d0 Hd0. apply list_elem_of_lookup in Hd0 as (i & Hi).
    destruct (Forall2_lookup_r _ _ _ _ _ Hst Hi) as (r & Hr & Hsa).
    rewrite Forall_forall in Hall.
    assert (Hrin : r ∈ batch) by (apply list_elem_of_lookup; now exists i).
    rewrite (Hsa "device_id") by discriminate.
    rewrite (Hsa "type") by discriminate.
    destruct (Hall r Hrin) as [(_ & Hty & _ & (d & Hd & Hpool) & _)
                              | (_ & Hty & _ & (d & Hd & Hpool) & _)];
      exists d; (split; [exact Hd |]); [left | right]; now split. }
  pose proof (count_rows_spec "total_readings" sensor_count_row stored
                ltac:(reflexivity) ltac:(reflexivity))
    as ((counts & HF & Hsum) & Hnd & _ & _ & _).
  assert (Hrows : forall row,
            row ∈ sort_by (desc_by "total_readings")
                    (map sensor_count_row (group_by device_key stored)) ->
            exists d : string,
              row !! "device_id" = Some (VStr d)
              /\ ((d ∈ Simulator.interior_sensors Simulator.__init__
                   /\ row !! "sensor_type" = Some (VStr "interior"))
                  \/ (d ∈ Simulator.exterior_sensors Simulator.__init__
                      /\ row !! "sensor_type" = Some (VStr "exterior")))).
  { intros row Hrow.
    apply sensor_count_row_group in Hrow as (k & d0 & xs & Heq & ->).
    assert (Hd0 : In d0 (List.filter (fun d => bool_decide (device_key d = k)) stored))
      by (rewrite <- Heq; now left).
    apply filter_In in Hd0 as [Hd0 Hk]. apply bool_decide_eq_true in Hk.
    destruct (Hkinds d0 ltac:(now apply list_elem_of_In)) as (d & Hd & Hcase).
    exists d.
    assert (Hkd : k = VStr d).
    { rewrite <- Hk. unfold device_key, dict_get. now rewrite Hd. }
    split; [rewrite <- Hkd; reflexivity |].
    change (sensor_count_row (k, d0 :: xs) !! "sensor_type")
      with (Some (nullish (d0 !! "type"))).
    destruct Hcase as [[Hp Hty] | [Hp Hty]]; [left | right];
      (split; [exact Hp | now rewrite Hty]). }
  eexists. split; [reflexivity |]. split; [| split; [| exact Hrows]].
  - exists counts. split; [exact HF |].
    rewrite Hsum, <- Hlen. symmetry. eapply Forall2_length; eassumption.
  - rewrite <- (length_map (fun r => r !! "device_id")).
    apply (NoDup_bounded _
             (map (fun d => Some (VStr d))
                (Simulator.interior_sensors Simulator.__init__
                 ++ Simulator.exterior_sensors Simulator.__init__)));
      [exact Hnd |].
    intros x Hx. apply list_elem_of_fmap in Hx as (row & -> & Hrow).
    destruct (Hrows row Hrow) as (d & Hd & Hcase).
    rewrite Hd. apply list_elem_of_fmap. exists d. split; [reflexivity |].
    apply elem_of_app. destruct Hcase as [[Hp _] | [Hp _]]; auto.
Qed.

End BatchFacts.

(** ** The conversion of the simulator; witnesses *)

Section ConversionFacts.

Import Simulator.

Local Open Scope R_scope.

(** X18.  [_celsius_to_fahrenheit] returns a whole number of tenths,
    within 0.05 of [c * 9 / 5 + 32]; converting back gives [c] within
    1/36; it is monotone; and it recovers every one-decimal Fahrenheit
    value from its exact Celsius equivalent. *)
Theorem celsius_fahrenheit_round_trip :
  (forall c : R,
     (exists k : Z, _celsius_to_fahrenheit c = IZR k / 10)
     /\ Rabs (_celsius_to_fahrenheit c - (c * 9 / 5 + 32)) <= 1 / 20
     /\ Rabs ((_celsius_to_fahrenheit c - 32) / 1.8 - c) <= 1 / 36)
  /\ (forall c c' : R,
        c <= c' -> _celsius_to_fahrenheit c <= _celsius_to_fahrenheit c')
  /\ (forall k : Z,
        _celsius_to_fahrenheit ((IZR k / 10 - 32) / 1.8) = IZR k / 10).
Proof.
  split; [| split].
  - intros c. pose proof (celsius_to_fahrenheit_near c) as Hn.
    split; [| split; [exact Hn |]].
    + unfold _celsius_to_fahrenheit.
      destruct (round_decimal (c * 9 / 5 + 32) 1) as (k & Hk & _).
      exists k. rewrite Hk. simpl. f_equal. lra.
    + apply Rabs_le_bounds in Hn. apply Rabs_le. lra.
  - intros c c' Hc. unfold _celsius_to_fahrenheit. apply round_mono. lra.
  - intros k. unfold _celsius_to_fahrenheit, round.
    replace (((IZR k / 10 - 32) / 1.8 * 9 / 5 + 32) * 10 ^ 1) with (IZR k)
      by (unfold pow; lra).
    rewrite round_half_even_IZR. simpl. f_equal. lra.
Qed.

End ConversionFacts.

Section MoreWitnesses.

Import Mongo Analysis Queries Metrics.

Local Open Scope R_scope.


(** A Celsius reading next to [broken_reading]. *)
Lemma text_temperature_empties_analyses_witness :
  detect_outliers
    (mk_AdvancedAnalysis (Some (Return [celsius_reading 20; broken_reading])))
    "temperature" 2.5 = Return []
  /\ get_average_temperature_by_type
       (mk_IoTQueries (Some (Return [celsius_reading 20; broken_reading])))
     = Return [].
Proof.
  destruct (text_temperature_empties_analyses
              [celsius_reading 20; broken_reading] broken_reading "n/a")
    as (H1 & H2 & _).
  - right. left.
  - reflexivity.
  - split; [apply H1 | exact H2].
Defined.

(** A Celsius reading of 20 degrees. *)
Lemma analyses_normalise_alike_witness :
  normalized "temperature" (celsius_reading 20) (VNum 20)
    = Return (VNum (celsius (celsius_reading 20)))
  /\ celsius (celsius_reading 20) = 20.
Proof.
  destruct (analyses_normalise_alike IsoParser.dateFromString
              (celsius_reading 20) 20 eq_refl) as (H1 & _ & _ & H2 & _).
  split; [exact H1 |]. apply H2. discriminate.
Defined.

(** The fixed vector. *)
Lemma percentile_endpoints_witness :
  _percentile fixed_vector 0 = Return (list_min fixed_vector)
  /\ _percentile fixed_vector 100 = Return (list_max fixed_vector).
Proof.
  destruct (percentile_endpoints fixed_vector) as (H0 & H100 & _);
    [discriminate |].
  split; [exact H0 | exact H100].
Defined.

(** [fixed_vector] and its reverse, rank 95. *)
Lemma percentile_order_independent_witness :
  _percentile fixed_vector 95 = _percentile (rev fixed_vector) 95.
Proof.
  apply (percentile_order_independent fixed_vector (rev fixed_vector) 95).
  apply Permutation_rev.
Defined.

End MoreWitnesses.

(** ** detect_outliers and the order of the documents *)

Section StorageOrder.

Import Mongo Analysis.

Lemma fsum_Permutation (l l' : list R) : Permutation l l' -> fsum l = fsum l'.
Proof.
  intros H. induction H as [| x l l' _ IH | x y l | l1 l2 l3 _ IH1 _ IH2];
    simpl; try lra; try congruence.
Qed.

Lemma mean_Permutation (l l' : list R) : Permutation l l' -> mean l = mean l'.
Proof.
  intros H. unfold mean.
  now rewrite (fsum_Permutation _ _ H), (Permutation_length H).
Qed.

Lemma stdev_Permutation (l l' : list R) : Permutation l l' -> stdev l = stdev l'.
Proof.
  intros H. unfold stdev, variance, sum_sq_dev.
  rewrite (mean_Permutation _ _ H), (Permutation_length H).
  do 2 f_equal. apply fsum_Permutation. now apply Permutation_map.
Qed.

Lemma collect_values_omap (field : string) (rs : list document)
    (vs : list value) :
  collect_values field rs = Return vs -> vs = omap (normalized_value field) rs.
Proof.
  revert vs. induction rs as [| r rs IH]; simpl; intros vs H.
  - now injection H as <-.
  - unfold normalized_value at 1. destruct (r !! field) as [raw |].
    + destruct (normalized field r raw) as [v |]; [| discriminate]. simpl in H.
      destruct (collect_values field rs) as [vs' |]; [| discriminate].
      simpl in H. injection H as <-. f_equal. now apply IH.
    + now apply IH.
Qed.

Lemma collect_values_defined (field : string) (rs : list document) :
  (exists vs, collect_values field rs = Return vs)
  <-> (forall r raw, r ∈ rs -> r !! field = Some raw ->
         exists v, normalized field r raw = Return v).
Proof.
  induction rs as [| r rs IH]; simpl.
  - split; [intros _ r raw H; inversion H | intros _; now exists []].
  - split.
    + intros (vs & H) r' raw' Hin Hraw.
      apply elem_of_cons in Hin as [-> | Hin].
      * rewrite Hraw in H.
        destruct (normalized field r raw') as [v |]; [now exists v | discriminate].
      * apply (proj1 IH); [| exact Hin | exact Hraw].
        destruct (r !! field) as [raw |].
        -- destruct (normalized field r raw); [| discriminate]. simpl in H.
           destruct (collect_values field rs) as [vs' |]; [now exists vs' | discriminate].
        -- now exists vs.
    + intros H.
      destruct (proj2 IH) as (vs' & Hvs').
      { intros r' raw' Hin. apply H. now right. }
      destruct (r !! field) as [raw |] eqn:Hraw.
      * destruct (H r raw ltac:(left) Hraw) as (v & Hv).
        rewrite Hv. simpl. rewrite Hvs'. simpl. eauto.
      * eauto.
Qed.

Lemma collect_outliers_omap (field : string) (t m s : R)
    (rs : list document) (vs : list value) (xs : list R) :
  s <> 0%R ->
  collect_values field rs = Return vs -> traverse to_num vs = Return xs ->
  collect_outliers field t m s rs = Return (omap (flagged field t m s) rs).
Proof.
  intros Hs. revert vs xs. induction rs as [| r rs IH]; intros vs xs Hv Hx.
  - reflexivity.
  - simpl in Hv |- *. unfold flagged at 1.
    destruct (r !! field) as [raw |].
    + destruct (normalized field r raw) as [v |]; [| discriminate]. simpl in Hv.
      destruct (collect_values field rs) as [vs' |] eqn:Hvs'; [| discriminate].
      simpl in Hv. injection Hv as <-. simpl in Hx.
      destruct v as [| x | str]; try discriminate. simpl in Hx.
      destruct (traverse to_num vs') as [xs' |] eqn:Hxs'; [| discriminate].
      simpl. unfold truediv. destruct (Req_dec_T s 0) as [| _]; [contradiction |].
      simpl. rewrite (IH vs' xs' eq_refl Hxs'). simpl.
      now destruct (Rlt_dec t (Rabs ((x - m) / s))).
    + now apply (IH vs xs).
Qed.

Local Abbreviation fetch_fields field :=
  (projection [field; "device_id"; "type"; "timestamp"; "unit"]).

Lemma detect_outliers_degenerate (docs : list document) (field : string) (t : R) :
  (forall values xs,
     collect_values field (map (fetch_fields field) docs) = Return values ->
     traverse to_num values = Return xs ->
     (length xs < 2)%nat \/ stdev xs = 0%R) ->
  detect_outliers (mk_AdvancedAnalysis (Some (Return docs))) field t = Return [].
Proof.
  intros H. unfold detect_outliers. cbn [collection].
  destruct (detect_outliers_try_cases docs field)
    as [Hc | [Hc | (values & xs & Hvals & Hnum & Hlen & Hsd)]].
  - now rewrite Hc.
  - now rewrite Hc.
  - exfalso. destruct (H values xs Hvals Hnum); [lia | contradiction].
Qed.

(** X19.  The outliers do not depend on the order in which the store
    hands out the documents: on two collections holding the same
    documents, [detect_outliers] returns for both, with the same outliers
    counted with multiplicity, in descending order of z_score both
    times; only the places of outliers may differ. *)
Theorem detect_outliers_order_independent (docs docs' : list document)
    (field : string) (t : R) :
  Permutation docs docs' ->
  exists out out' : list document,
    detect_outliers (mk_AdvancedAnalysis (Some (Return docs))) field t
      = Return out
    /\ detect_outliers (mk_AdvancedAnalysis (Some (Return docs'))) field t
       = Return out'
    /\ Permutation out out'
    /\ Sorted z_score_ge out /\ Sorted z_score_ge out'.
Proof.
  intros Hperm.
  set (rs := map (fetch_fields field) docs).
  set (rs' := map (fetch_fields field) docs').
  assert (Hrs : Permutation rs rs') by (now apply Permutation_map).
  assert (Hempty : forall l l' : list document,
            detect_outliers (mk_AdvancedAnalysis (Some (Return docs))) field t
              = Return l ->
            detect_outliers (mk_AdvancedAnalysis (Some (Return docs'))) field t
              = Return l' ->
            l = [] -> l' = [] ->
            exists out out' : list document,
              detect_outliers (mk_AdvancedAnalysis (Some (Return docs))) field t
                = Return out
              /\ detect_outliers (mk_AdvancedAnalysis (Some (Return docs'))) field t
                 = Return out'
              /\ Permutation out out'
              /\ Sorted z_score_ge out /\ Sorted z_score_ge out').
  { intros l l' H1 H2 -> ->. exists [], []. repeat split; auto. }
  assert (Hdef : (exists vs, collect_values field rs = Return vs)
                 <-> (exists vs, collect_values field rs' = Return vs)).
  { rewrite !collect_values_defined. split; intros H r raw Hin;
      apply H; [now rewrite Hrs | now rewrite <- Hrs]. }
  destruct (collect_values field rs) as [values | e] eqn:Hvals.
  2:{ apply (Hempty [] []); try reflexivity; apply detect_outliers_degenerate;
        intros values xs Hv; exfalso.
      - fold rs in Hv. congruence.
      - fold rs' in Hv. destruct (proj2 Hdef) as (vs & Hvs); [now exists values |].
        discriminate. }
  destruct (proj1 Hdef) as (values' & Hvals'); [now exists values |].
  assert (Hvperm : Permutation values values').
  { rewrite (collect_values_omap _ _ _ Hvals), (collect_values_omap _ _ _ Hvals').
    now apply omap_Permutation. }
  destruct (traverse to_num values) as [xs | e] eqn:Hnum.
  2:{ apply (Hempty [] []); try reflexivity; apply detect_outliers_degenerate;
        intros vs ys Hv Hy; exfalso.
      - fold rs in Hv. rewrite Hvals in Hv. injection Hv as <-. congruence.
      - fold rs' in Hv. rewrite Hvals' in Hv. injection Hv as <-.
        apply traverse_to_num_inv in Hy. subst values'.
        destruct (Permutation_map_inv _ _ Hvperm) as (zs & Hzs & _).
        rewrite Hzs, traverse_to_num_VNum in Hnum. discriminate. }
  pose proof (traverse_to_num_inv _ _ Hnum) as Hvx. subst values.
  destruct (Permutation_map_inv _ _ (Permutation_sym Hvperm)) as (xs' & Hxs' & Hxperm).
  subst values'.
  pose proof (traverse_to_num_VNum xs') as Hnum'.
  assert (Hlen : length xs' = length xs) by (symmetry; now apply Permutation_length).
  assert (Hmean : mean xs' = mean xs) by (symmetry; now apply mean_Permutation).
  assert (Hsd : stdev xs' = stdev xs) by (symmetry; now apply stdev_Permutation).
  destruct (Nat.lt_ge_cases (length xs) 2) as [Hshort | Hlong].
  { apply (Hempty [] []); try reflexivity; apply detect_outliers_degenerate;
      intros vs ys Hv Hy.
    - fold rs in Hv. rewrite Hvals in Hv. injection Hv as <-.
      rewrite Hnum in Hy. injection Hy as <-. now left.
    - fold rs' in Hv. rewrite Hvals' in Hv. injection Hv as <-.
      rewrite Hnum' in Hy. injection Hy as <-. left. lia. }
  destruct (Req_dec_T (stdev xs) 0) as [Hz | Hnz].
  { apply (Hempty [] []); try reflexivity; apply detect_outliers_degenerate;
      intros vs ys Hv Hy.
    - fold rs in Hv. rewrite Hvals in Hv. injection Hv as <-.
      rewrite Hnum in Hy. injection Hy as <-. now right.
    - fold rs' in Hv. rewrite Hvals' in Hv. injection Hv as <-.
      rewrite Hnum' in Hy. injection Hy as <-. right. congruence. }
  assert (Hnz' : stdev xs' <> 0%R) by congruence.
  destruct (detect_outliers_try_run (Return docs) field t rs (map VNum xs) xs
              eq_refl Hvals Hnum Hlong Hnz) as (out & Hrun & _ & Hsorted).
  destruct (detect_outliers_try_run (Return docs') field t rs' (map VNum xs') xs'
              eq_refl Hvals' Hnum' ltac:(lia) ltac:(congruence))
    as (out' & Hrun' & _ & Hsorted').
  exists out, out'.
  split; [unfold detect_outliers; cbn [collection]; now rewrite Hrun |].
  split; [unfold detect_outliers; cbn [collection]; now rewrite Hrun' |].
  split; [| split; assumption].
  rewrite (detect_outliers_try_normal docs field t (map VNum xs) xs) in Hrun
    by assumption.
  rewrite (detect_outliers_try_normal docs' field t (map VNum xs') xs') in Hrun'
    by (try assumption; try lia; congruence).
  fold rs in Hrun. fold rs' in Hrun'.
  rewrite (collect_outliers_omap field t _ _ rs _ xs Hnz Hvals Hnum) in Hrun.
  rewrite (collect_outliers_omap field t _ _ rs' _ xs' Hnz' Hvals' Hnum') in Hrun'.
  rewrite (bind_Return _ _ _ eq_refl) in Hrun.
  rewrite (bind_Return _ _ _ eq_refl) in Hrun'.
  apply list_sort_key_reverse_perm in Hrun, Hrun'.
  rewrite Hrun, Hrun', Hmean, Hsd. now apply omap_Permutation.
Qed.

(** [nine_values] and its reverse, threshold 2.5. *)
Lemma detect_outliers_order_independent_witness :
  exists out out' : list document,
    detect_outliers
      (mk_AdvancedAnalysis (Some (collection_of nine_values)))
      "temperature" 2.5 = Return out
    /\ detect_outliers
         (mk_AdvancedAnalysis (Some (collection_of (rev nine_values))))
         "temperature" 2.5 = Return out'
    /\ Permutation out out'.
Proof.
  destruct (detect_outliers_order_independent
              (map celsius_reading nine_values)
              (map celsius_reading (rev nine_values)) "temperature" 2.5)
    as (out & out' & H1 & H2 & Hp & _).
  - apply Permutation_map, Permutation_rev.
  - exists out, out'. split; [exact H1 |]. split; [exact H2 | exact Hp].
Defined.

End StorageOrder.

(** ** The per-type average of simulated readings *)

Section BatchAverages.

Import World Upload Mongo Analysis Queries.
Open Scope R_scope.

Lemma type_average_summaries (docs : list document) :
  Forall numeric_temperature docs ->
  exists rows : list document,
    get_average_temperature_by_type (mk_IoTQueries (Some (Return docs)))
      = Return rows
    /\ NoDup (map (fun r => r !! "sensor_type") rows)
    /\ length rows = length (group_by type_key (map typed_of docs))
    /\ (forall row, row ∈ rows ->
          exists d, d ∈ docs
            /\ row = type_summary_row (type_of d) (same_type docs d)).
Proof.
  intros Hnum.
  set (gs := group_by type_key (map typed_of docs)).
  set (row_fun := fun g => match type_row g with
                           | Return r => r
                           | Raise _ => ∅
                           end).
  assert (Hrow : forall g, g ∈ gs ->
            exists d, d ∈ docs
              /\ g = (type_of d, map typed_of (same_type docs d))
              /\ type_row g = Return (type_summary_row (type_of d) (same_type docs d))
              /\ row_fun g = type_summary_row (type_of d) (same_type docs d)).
  { intros g Hg. destruct (type_groups docs g Hg) as (d & Hd & ->).
    exists d. split; [exact Hd |]. split; [reflexivity |].
    assert (Hne : same_type docs d <> []).
    { intros Hnil. pose proof (same_type_self docs d Hd) as Hin.
      rewrite Hnil in Hin. inversion Hin. }
    unfold row_fun. rewrite (type_row_summary _ _ Hne). split; reflexivity. }
  assert (Hps : traverse type_project_stage docs = Return (map typed_of docs)).
  { apply traverse_total. intros d Hd. apply type_project_stage_numeric.
    rewrite Forall_forall in Hnum. now apply Hnum. }
  assert (Hrows0 : traverse type_row gs = Return (map row_fun gs)).
  { apply traverse_total. intros g Hg.
    destruct (Hrow g Hg) as (d & _ & _ & H1 & H2). now rewrite H2. }
  assert (Htry : get_average_temperature_by_type_try (Return docs)
                 = Return (sort_by (asc_by "sensor_type") (map row_fun gs))).
  { unfold get_average_temperature_by_type_try.
    rewrite (bind_Return (Return docs) _ docs eq_refl).
    rewrite (bind_Return _ _ _ Hps). fold gs.
    now rewrite (bind_Return _ _ _ Hrows0). }
  destruct (Permutation_map_inv row_fun _
              (sort_by_perm (asc_by "sensor_type") (map row_fun gs)))
    as (gs' & Hrows & Hperm).
  exists (sort_by (asc_by "sensor_type") (map row_fun gs)).
  split; [| split; [| split]].
  - unfold get_average_temperature_by_type. cbn [Queries.collection].
    now rewrite Htry.
  - rewrite Hrows, map_map.
    rewrite (map_ext_in _ (fun g => Some g.1)).
    + rewrite <- (map_map fst Some). apply (NoDup_fmap_2 Some).
      rewrite <- Hperm.
      now destruct (group_by_grouped type_key (map typed_of docs)).
    + intros g Hg. apply list_elem_of_In in Hg. rewrite <- Hperm in Hg.
      destruct (Hrow g Hg) as (d & _ & -> & _ & ->). reflexivity.
  - rewrite (Permutation_length (sort_by_perm _ _)). apply length_map.
  - intros row Hrowin. rewrite sort_by_perm in Hrowin.
    apply list_elem_of_fmap in Hrowin as (g & -> & Hg).
    destruct (Hrow g Hg) as (d & Hd & _ & _ & ->). exists d.
    split; [exact Hd | reflexivity].
Qed.

Lemma rounded_statistics_ordered (a b : Z) (xs : list R) :
  xs <> [] ->
  (forall x, x ∈ xs -> IZR a <= x <= IZR b) ->
  IZR a <= round (list_min xs) 2
  /\ round (list_min xs) 2 <= round (mean xs) 2
  /\ round (mean xs) 2 <= round (list_max xs) 2
  /\ round (list_max xs) 2 <= IZR b.
Proof.
  intros Hne Hall.
  destruct (list_min_least _ Hne) as [Hlo1 Hlo2].
  destruct (list_max_greatest _ Hne) as [Hhi1 Hhi2].
  destruct (mean_between (list_min xs) (list_max xs) xs Hne) as [Hm1 Hm2].
  { intros x Hx. split; [now apply Hlo2 | now apply Hhi2]. }
  assert (Hfix : forall z : Z, round (IZR z) 2 = IZR z).
  { intros z. destruct (round_between (z * 100) (z * 100) (IZR z) 2)
      as (k & Hk & Hk').
    - rewrite mult_IZR. simpl. lra.
    - rewrite Hk. assert (k = (z * 100)%Z) as -> by lia.
      rewrite mult_IZR. simpl. lra. }
  split; [| split; [| split]].
  - rewrite <- (Hfix a). apply round_mono. now apply Hall.
  - now apply round_mono.
  - now apply round_mono.
  - rewrite <- (Hfix b). apply round_mono. now apply Hall.
Qed.

Lemma stored_reading_kind (r d : document) :
  interior_reading r \/ exterior_reading r -> stored_as r d ->
  numeric_temperature d
  /\ ((type_of d = VStr "interior" /\ 18 <= celsius d <= 28)
      \/ (type_of d = VStr "exterior" /\ 5 <= celsius d <= 35)).
Proof.
  intros Hkind Hst. unfold numeric_temperature, type_of, celsius.
  rewrite (Hst "temperature"), (Hst "type"), (Hst "unit") by discriminate.
  destruct Hkind as [(_ & Hty & Hu & _ & _ & t & Ht & Hr)
                    | (_ & Hty & Hu & _ & _ & f & Hf & Hr)].
  - rewrite Ht, Hty, Hu. split; [now exists t |]. left.
    split; [reflexivity |]. rewrite bool_decide_eq_false_2 by discriminate.
    exact Hr.
  - rewrite Hf, Hty, Hu. split; [now exists f |]. right.
    split; [reflexivity |]. rewrite bool_decide_eq_true_2 by reflexivity.
    exact Hr.
Qed.

(** X20.  The per-type average of a generated batch: once the readings
    of [generate_batch] are stored (with or without an [_id]),
    [get_average_temperature_by_type] returns at most two rows, none
    exactly for an empty batch; each row has min <= average <= max, all
    within [18, 28] for the row of type interior and within [5, 35]
    for the row of type exterior, whose Fahrenheit temperatures are
    converted back to Celsius. *)
Theorem generated_batch_type_averages (n : nat) (w : world) :
  exists (batch : list document) (w' : world),
    generate_batch Simulator.__init__ n w = (Return batch, w')
    /\ forall stored : list document,
         Forall2 stored_as batch stored ->
         exists rows : list document,
           get_average_temperature_by_type (mk_IoTQueries (Some (Return stored)))
             = Return rows
           /\ (length rows <= 2)%nat
           /\ (rows = [] <-> n = 0%nat)
           /\ forall row, row ∈ rows ->
                exists lo avg hi : R,
                  row !! "min_temperature_celsius" = Some (VNum lo)
                  /\ row !! "average_temperature_celsius" = Some (VNum avg)
                  /\ row !! "max_temperature_celsius" = Some (VNum hi)
                  /\ lo <= avg <= hi
                  /\ ((row !! "sensor_type" = Some (VStr "interior")
                       /\ 18 <= lo /\ hi <= 28)
                      \/ (row !! "sensor_type" = Some (VStr "exterior")
                          /\ 5 <= lo /\ hi <= 35)).
Proof.
  destruct (generate_batch_run n w)
    as (batch & w' & Hrun & Hlen & _ & _ & Hall & _).
  exists batch, w'. split; [exact Hrun |].
  intros stored Hst.
  assert (Hkinds : forall d, d ∈ stored ->
            numeric_temperature d
            /\ ((type_of d = VStr "interior" /\ 18 <= celsius d <= 28)
                \/ (type_of d = VStr "exterior" /\ 5 <= celsius d <= 35))).
  { intros d Hd. apply list_elem_of_lookup in Hd as (i & Hi).
    destruct (Forall2_lookup_r _ _ _ _ _ Hst Hi) as (r & Hr & Hsa).
    rewrite Forall_forall in Hall.
    apply (stored_reading_kind r d); [| exact Hsa].
    apply Hall, list_elem_of_lookup. now exists i. }
  destruct (type_average_summaries stored) as (rows & Hq & Hnd & Hcount & Hrows).
  { apply Forall_forall. intros d Hd. now apply Hkinds. }
  assert (Hfacts : forall row, row ∈ rows ->
            exists lo avg hi : R,
              row !! "min_temperature_celsius" = Some (VNum lo)
              /\ row !! "average_temperature_celsius" = Some (VNum avg)
              /\ row !! "max_temperature_celsius" = Some (VNum hi)
              /\ lo <= avg <= hi
              /\ ((row !! "sensor_type" = Some (VStr "interior")
                   /\ 18 <= lo /\ hi <= 28)
                  \/ (row !! "sensor_type" = Some (VStr "exterior")
                      /\ 5 <= lo /\ hi <= 35))).
  { intros row Hrow. destruct (Hrows row Hrow) as (d & Hd & ->).
    destruct (type_summary_row_fields (type_of d) (same_type stored d))
      as (H1 & _ & H3 & H4 & H5).
    assert (Hne : map celsius (same_type stored d) <> []).
    { intros Hnil. apply map_eq_nil in Hnil.
      pose proof (same_type_self stored d Hd) as Hin. rewrite Hnil in Hin.
      inversion Hin. }
    assert (Hmem : forall x, x ∈ map celsius (same_type stored d) ->
              exists d', d' ∈ stored /\ type_of d' = type_of d /\ x = celsius d').
    { intros x Hx. apply list_elem_of_fmap in Hx as (d' & -> & Hd').
      apply list_elem_of_In, filter_In in Hd' as [Hd' Hty].
      apply bool_decide_eq_true in Hty. exists d'.
      split; [now apply list_elem_of_In |]. split; [exact Hty | reflexivity]. }
    exists (round (list_min (map celsius (same_type stored d))) 2),
           (round (mean (map celsius (same_type stored d))) 2),
           (round (list_max (map celsius (same_type stored d))) 2).
    split; [exact H4 |]. split; [exact H3 |]. split; [exact H5 |].
    destruct (Hkinds d Hd) as (_ & [[Hty _] | [Hty _]]).
    - destruct (rounded_statistics_ordered 18 28 _ Hne) as (Ha & Hb & Hc & Hd0).
      { intros x Hx. destruct (Hmem x Hx) as (d' & Hd' & Hty' & ->).
        destruct (Hkinds d' Hd') as (_ & [[_ Hr] | [Hty2 _]]); [exact Hr |].
        rewrite Hty', Hty in Hty2. discriminate. }
      split; [lra |]. left. rewrite H1, Hty. repeat split; assumption.
    - destruct (rounded_statistics_ordered 5 35 _ Hne) as (Ha & Hb & Hc & Hd0).
      { intros x Hx. destruct (Hmem x Hx) as (d' & Hd' & Hty' & ->).
        destruct (Hkinds d' Hd') as (_ & [[Hty2 _] | [_ Hr]]); [| exact Hr].
        rewrite Hty', Hty in Hty2. discriminate. }
      split; [lra |]. right. rewrite H1, Hty. repeat split; assumption. }
  exists rows. split; [exact Hq |]. split; [| split; [| exact Hfacts]].
  - rewrite <- (length_map (fun r : document => r !! "sensor_type") rows).
    apply (NoDup_bounded _ [Some (VStr "interior"); Some (VStr "exterior")]);
      [exact Hnd |].
    intros x Hx. apply list_elem_of_fmap in Hx as (row & -> & Hrow).
    destruct (Hfacts row Hrow) as (_ & _ & _ & _ & _ & _ & _ & [[-> _] | [-> _]]).
    + left.
    + right. left.
  - pose proof (Forall2_length _ _ _ Hst) as Hlen'.
    split.
    + intros ->. destruct stored as [| d stored']; [simpl in Hlen'; lia |].
      exfalso.
      destruct (group_by_grouped type_key (map typed_of (d :: stored')))
        as (_ & _ & Hcov).
      assert (Hk : type_key (typed_of d)
                   ∈ map fst (group_by type_key (map typed_of (d :: stored')))).
      { apply Hcov. left. }
      destruct (group_by type_key (map typed_of (d :: stored')));
        [inversion Hk | discriminate Hcount].
    + intros ->. destruct batch; [| discriminate].
      inversion Hst; subst. simpl in Hcount.
      now destruct rows.
Qed.

End BatchAverages.
